(** * mcp-debug: the environment builder and the dynamic proxy wrapper

    A shallow embedding of [client/envbuilder.go] (tier based environment
    inheritance for spawned MCP servers) and of
    [integration/dynamic_wrapper.go] (the management tools and the per-tool
    proxy handlers), with the properties of the design document proved
    about them.

    Conventions of the embedding:
    - a Go [string] is a Rocq [string] (a sequence of bytes);
    - a Go [map[string]V] is a [gmap string V]; a [range] loop over a map
      visits its entries in an unspecified order, which is a parameter
      [range] of the development, constrained to be a permutation of the
      entries;
    - the host (the parent environment [os.Environ()], [runtime.GOOS],
      [strings.ToUpper], the child processes) is a parameter of the
      section that embeds the code which consults it. *)

From Stdlib Require Import Ascii String.
From stdpp Require Import gmap strings list fin_maps pretty.

Local Open Scope string_scope.
Local Open Scope list_scope.

(** ** Package [config] *)

Module InheritConfig.
(** [type InheritMode string] and its four constants. *)
Definition InheritMode := string.
Definition InheritNone : InheritMode := "none".
Definition InheritTier1 : InheritMode := "tier1".
Definition InheritTier1Tier2 : InheritMode := "tier1+tier2".
Definition InheritAll : InheritMode := "all".

Record t := mk {
  Mode : InheritMode;
  Extra : list string;
  Prefix : list string;
  Deny : list string;
  AllowDeniedIfExplicit : bool
}.

End InheritConfig.

Module ServerConfig.
(** [Inherit] is a pointer in the source: [None] is [nil].  The [Auth]
    block is never read by the code embedded here and is left out. *)
Record t := mk {
  Name : string;
  Prefix : string;
  Transport : string;
  Command : string;
  Args : list string;
  Env : gmap string string;
  Inherit : option InheritConfig.t;
  URL : string; Timeout : string
}.


(** [func (s *ServerConfig) ResolveInheritConfig(proxyDefault)]. *)
Definition ResolveInheritConfig (s : t) (proxyDefault : option InheritConfig.t)
  : InheritConfig.t :=
  match Inherit s with
  | Some ic => ic
  | None =>
      match proxyDefault with
      | Some ic => ic
      | None => InheritConfig.mk InheritConfig.InheritTier1 [] [] [] false
      end
  end.
End ServerConfig.

(** ** Package [client]: the environment builder *)

Module EnvBuilder.

Definition Tier1Vars : list string :=
  ["PATH"; "HOME"; "USER"; "SHELL"; "LANG"; "LC_ALL"; "TZ"; "TMPDIR"; "TEMP"; "TMP"].

Definition Tier2Vars : list string :=
  ["SSL_CERT_FILE"; "SSL_CERT_DIR"; "REQUESTS_CA_BUNDLE"; "CURL_CA_BUNDLE";
   "NODE_EXTRA_CA_CERTS"].

Definition ImplicitDenylist : list string :=
  ["HTTP_PROXY"; "HTTPS_PROXY"; "http_proxy"; "https_proxy"; "NO_PROXY"; "no_proxy"].

(** [splitEnvEntry]: split at the first ["="]; an entry without one, or
    with an empty name, is malformed and yields two empty strings. *)
Definition splitEnvEntry (entry : string) : string * string :=
  match String.index 0 "=" entry with
  | None => ("", "")
  | Some 0 => ("", "")
  | Some idx =>
      (String.substring 0 idx entry,
       String.substring (idx + 1) (String.length entry - (idx + 1)) entry)
  end.

(** [strings.HasPrefix(s, prefix)]. *)
Definition HasPrefix (s prefix : string) : bool := String.prefix prefix s.

(** The value type of [envMap]: [struct { key string; value string }]. *)
Record envEntry := mkEntry { key : string; value : string }.

(** One line of the result: [entry.key+"="+entry.value]. *)
Definition render (e : envEntry) : string := key e +:+ "=" +:+ value e.

Section Builder.
(** [runtime.GOOS == "windows"]. *)
Variable windows : bool.
(** [strings.ToUpper]. *)
Variable ToUpper : string -> string.
(** [os.Environ()], the parent environment as ["KEY=value"] strings. *)
Variable Environ : list string.
(** The order in which a [range] loop visits a map. *)
Variable range : forall A : Type, gmap string A -> list (string * A).
Hypothesis range_perm :
  forall (A : Type) (m : gmap string A), range A m ≡ₚ map_to_list m.

Definition normalizeKey (key : string) (isWindows : bool) : string :=
  if isWindows then ToUpper key else key.

(** [denyMap[k]] on a [map[string]bool]: a missing key reads [false]. *)
Definition denied (denyMap : gmap string bool) (k : string) : bool :=
  default false (denyMap !! k).

Definition denyAll (isWindows : bool) (keys : list string)
    (denyMap : gmap string bool) : gmap string bool :=
  foldl (fun m key => <[normalizeKey key isWindows := true]> m) denyMap keys.

Definition buildDenyMap (serverConfig : ServerConfig.t)
    (proxyInherit : option InheritConfig.t) (isWindows : bool)
  : gmap string bool :=
  let denyMap := denyAll isWindows ImplicitDenylist ∅ in
  let denyMap :=
    match ServerConfig.Inherit serverConfig with
    | Some ic => denyAll isWindows (InheritConfig.Deny ic) denyMap
    | None => denyMap
    end in
  match proxyInherit with
  | Some ic => denyAll isWindows (InheritConfig.Deny ic) denyMap
  | None => denyMap
  end.

Definition buildParentMap : gmap string string :=
  let isWindows := windows in
  foldl (fun parentMap entry =>
           let '(key, value) := splitEnvEntry entry in
           if decide (key = "") then parentMap
           else <[normalizeKey key isWindows := value]> parentMap)
        ∅ Environ.

(** The closure [addVar] of [BuildEnvironment], with the maps it
    captures made explicit; it returns the updated [envMap]. *)
Definition addVar (serverConfig : ServerConfig.t)
    (proxyInherit : option InheritConfig.t)
    (denyMap : gmap string bool) (parentMap : gmap string string)
    (envMap : gmap string envEntry) (key : string) (explicitExtra : bool)
  : gmap string envEntry :=
  let isWindows := windows in
  let lookupKey := normalizeKey key isWindows in
  let store :=
    match parentMap !! lookupKey with
    | Some val => <[lookupKey := mkEntry key val]> envMap
    | None => envMap
    end in
  if denied denyMap lookupKey then
    if explicitExtra then
      if match ServerConfig.Inherit serverConfig with
         | Some ic => InheritConfig.AllowDeniedIfExplicit ic
         | None => false
         end
      then store
      else if match proxyInherit with
              | Some ic => InheritConfig.AllowDeniedIfExplicit ic
              | None => false
              end
      then store
      else envMap
    else envMap
  else store.

Definition addVars serverConfig proxyInherit denyMap parentMap
    (explicitExtra : bool) (keys : list string)
    (envMap : gmap string envEntry) : gmap string envEntry :=
  foldl (fun m key =>
           addVar serverConfig proxyInherit denyMap parentMap m key explicitExtra)
        envMap keys.

Definition isTier2Mode (m : InheritConfig.InheritMode) : bool :=
  bool_decide (m = InheritConfig.InheritTier1Tier2)
  || bool_decide (m = InheritConfig.InheritAll).

Definition tier2Enabled (serverConfig : ServerConfig.t)
    (proxyInherit : option InheritConfig.t) : bool :=
  let tier2Enabled :=
    match ServerConfig.Inherit serverConfig with
    | Some ic => isTier2Mode (InheritConfig.Mode ic)
    | None => false
    end in
  if negb tier2Enabled then
    match proxyInherit with
    | Some ic => isTier2Mode (InheritConfig.Mode ic)
    | None => false
    end
  else tier2Enabled.

(** The scan of [os.Environ()] that recovers the original spelling of a
    parent variable: the name of the first entry with this lookup key
    and this value, or [""] when there is none. *)
Fixpoint originalKeyOf (environ : list string) (lookupKey val : string) : string :=
  match environ with
  | [] => ""
  | entry :: rest =>
      let '(k, v) := splitEnvEntry entry in
      if bool_decide (normalizeKey k windows = lookupKey) && bool_decide (v = val)
      then k
      else originalKeyOf rest lookupKey val
  end.

(** The loop over [prefixes] for one parent variable: the first prefix
    that matches decides, then [break]. *)
Fixpoint prefixLoop (prefixes : list string) (lookupKey val : string)
    (envMap : gmap string envEntry) : gmap string envEntry :=
  match prefixes with
  | [] => envMap
  | prefix :: rest =>
      let normalizedPrefix := normalizeKey prefix windows in
      if HasPrefix lookupKey normalizedPrefix then
        let originalKey := originalKeyOf Environ lookupKey val in
        if decide (originalKey = "") then envMap
        else <[lookupKey := mkEntry originalKey val]> envMap
      else prefixLoop rest lookupKey val envMap
  end.

Definition prefixStep (denyMap : gmap string bool) (prefixes : list string)
    (envMap : gmap string envEntry) (kv : string * string)
  : gmap string envEntry :=
  let '(lookupKey, val) := kv in
  if denied denyMap lookupKey then envMap
  else prefixLoop prefixes lookupKey val envMap.

Definition overrideStep (envMap : gmap string envEntry) (kv : string * string)
  : gmap string envEntry :=
  let '(key, value) := kv in
  <[normalizeKey key windows := mkEntry key value]> envMap.

(** The test that [addVar] makes for a denied name from an [extra]
    list: the flag of the server policy, else the flag of the proxy
    policy. *)
Definition allowDeniedEither (serverConfig : ServerConfig.t)
    (proxyInherit : option InheritConfig.t) : bool :=
  match ServerConfig.Inherit serverConfig with
  | Some ic => InheritConfig.AllowDeniedIfExplicit ic
  | None => false
  end
  || match proxyInherit with
     | Some ic => InheritConfig.AllowDeniedIfExplicit ic
     | None => false
     end.

(** The names that the three tier and list stages go through. *)
Definition tierNames (serverConfig : ServerConfig.t)
    (proxyInherit : option InheritConfig.t) : list string :=
  (Tier1Vars ++ if tier2Enabled serverConfig proxyInherit then Tier2Vars else [])%list.

Definition extraNames (serverConfig : ServerConfig.t)
    (proxyInherit : option InheritConfig.t) : list string :=
  (match ServerConfig.Inherit serverConfig with
   | Some ic => InheritConfig.Extra ic
   | None => []
   end ++
   match proxyInherit with
   | Some ic => InheritConfig.Extra ic
   | None => []
   end)%list.

Definition prefixNames (serverConfig : ServerConfig.t)
    (proxyInherit : option InheritConfig.t) : list string :=
  (match ServerConfig.Inherit serverConfig with
   | Some ic => InheritConfig.Prefix ic
   | None => []
   end ++
   match proxyInherit with
   | Some ic => InheritConfig.Prefix ic
   | None => []
   end)%list.

(** [BuildEnvironment] up to its last loop: the final contents of
    [envMap]. *)
Definition buildEnvMap (serverConfig : ServerConfig.t)
    (proxyInherit : option InheritConfig.t) : gmap string envEntry :=
  let isWindows := windows in
  let denyMap := buildDenyMap serverConfig proxyInherit isWindows in
  let parentMap := buildParentMap in
  let add := addVars serverConfig proxyInherit denyMap parentMap in
  (* Step 1: Tier 1 *)
  let envMap := add false Tier1Vars ∅ in
  (* Step 2: Tier 2 *)
  let envMap :=
    if tier2Enabled serverConfig proxyInherit then add false Tier2Vars envMap
    else envMap in
  (* Step 3: extra variables, server level then proxy level *)
  let envMap :=
    match ServerConfig.Inherit serverConfig with
    | Some ic => add true (InheritConfig.Extra ic) envMap
    | None => envMap
    end in
  let envMap :=
    match proxyInherit with
    | Some ic => add true (InheritConfig.Extra ic) envMap
    | None => envMap
    end in
  (* Step 4: prefix-matched variables *)
  let prefixes :=
    (match ServerConfig.Inherit serverConfig with
     | Some ic => InheritConfig.Prefix ic
     | None => []
     end ++
     match proxyInherit with
     | Some ic => InheritConfig.Prefix ic
     | None => []
     end)%list in
  let envMap :=
    foldl (prefixStep denyMap prefixes) envMap (range _ parentMap) in
  (* Step 5: explicit overrides *)
  foldl overrideStep envMap (range _ (ServerConfig.Env serverConfig)).

(** The entries of the final [envMap], in the order of the last loop. *)
Definition buildEntries serverConfig proxyInherit : list envEntry :=
  (range _ (buildEnvMap serverConfig proxyInherit)).*2.

Definition BuildEnvironment (serverConfig : ServerConfig.t)
    (proxyInherit : option InheritConfig.t) : list string :=
  render <$> buildEntries serverConfig proxyInherit.

(** *** Vocabulary of the properties *)

(** Whether [addVar] lets a name with this lookup key through: it is
    not denied, or it comes from an [extra] list and a flag allows it. *)
Definition letsThrough (serverConfig : ServerConfig.t)
    (proxyInherit : option InheritConfig.t) (denyMap : gmap string bool)
    (explicitExtra : bool) (lk : string) : bool :=
  negb (denied denyMap lk)
  || (explicitExtra && allowDeniedEither serverConfig proxyInherit).

(** Some configured prefix starts this lookup key. *)
Definition prefixMatches (prefixes : list string) (lk : string) : Prop :=
  exists p, p ∈ prefixes /\ HasPrefix lk (normalizeKey p windows) = true.

(** The combined deny set: the implicit list and both [deny] lists. *)
Definition denyNames (serverConfig : ServerConfig.t)
    (proxyInherit : option InheritConfig.t) : list string :=
  ImplicitDenylist
  ++ match ServerConfig.Inherit serverConfig with
     | Some ic => InheritConfig.Deny ic
     | None => []
     end
  ++ match proxyInherit with
     | Some ic => InheritConfig.Deny ic
     | None => []
     end.

(** The map after the tier and [extra] stages. *)
Definition listedMap (serverConfig : ServerConfig.t)
    (proxyInherit : option InheritConfig.t) : gmap string envEntry :=
  addVars serverConfig proxyInherit
    (buildDenyMap serverConfig proxyInherit windows) buildParentMap true
    (extraNames serverConfig proxyInherit)
    (addVars serverConfig proxyInherit
       (buildDenyMap serverConfig proxyInherit windows) buildParentMap false
       (tierNames serverConfig proxyInherit) ∅).

(** Where an entry of the final map, under lookup key [lk], comes from. *)
Inductive origin (serverConfig : ServerConfig.t)
    (proxyInherit : option InheritConfig.t) (lk : string) (e : envEntry) : Prop :=
| from_override :
    ServerConfig.Env serverConfig !! key e = Some (value e) ->
    origin serverConfig proxyInherit lk e
| from_tier1 :
    key e ∈ Tier1Vars -> buildParentMap !! lk = Some (value e) ->
    denied (buildDenyMap serverConfig proxyInherit windows) lk = false ->
    origin serverConfig proxyInherit lk e
| from_tier2 :
    tier2Enabled serverConfig proxyInherit = true -> key e ∈ Tier2Vars ->
    buildParentMap !! lk = Some (value e) ->
    denied (buildDenyMap serverConfig proxyInherit windows) lk = false ->
    origin serverConfig proxyInherit lk e
| from_extra :
    key e ∈ extraNames serverConfig proxyInherit ->
    buildParentMap !! lk = Some (value e) ->
    letsThrough serverConfig proxyInherit
      (buildDenyMap serverConfig proxyInherit windows) true lk = true ->
    origin serverConfig proxyInherit lk e
| from_prefix :
    buildParentMap !! lk = Some (value e) ->
    denied (buildDenyMap serverConfig proxyInherit windows) lk = false ->
    prefixMatches (prefixNames serverConfig proxyInherit) lk ->
    origin serverConfig proxyInherit lk e.

End Builder.

(** A host for examples: ASCII upper-casing and the map's own listing
    order. *)
Definition upperAscii (c : ascii) : ascii :=
  let n := nat_of_ascii c in
  if (97 <=? n)%nat && (n <=? 122)%nat then ascii_of_nat (n - 32) else c.

Fixpoint asciiToUpper (s : string) : string :=
  match s with
  | EmptyString => EmptyString
  | String c r => String (upperAscii c) (asciiToUpper r)
  end.

Definition listingOrder (A : Type) (m : gmap string A) : list (string * A) :=
  map_to_list m.

(** The parent environment of scenario S1, with a proxy variable and a
    certificate file added. *)
Definition exampleEnviron : list string :=
  ["PATH=/bin"; "HOME=/h"; "SECRET=s"; "HTTP_PROXY=http://evil:1"; "SSL_CERT_FILE=/c"].

Definition examplePolicy (mode : string) (extra deny : list string) (allow : bool)
  : InheritConfig.t :=
  InheritConfig.mk mode extra [] deny allow.

Definition exampleServer (env : gmap string string) (inherit : option InheritConfig.t)
  : ServerConfig.t :=
  ServerConfig.mk "echo" "echo" "stdio" "/usr/bin/echo-mcp" [] env inherit "" "".

End EnvBuilder.

(** ** The MCP library types used by the wrapper
    ([github.com/mark3labs/mcp-go/mcp], outside the repository) *)

Module mcp.
(** An argument of a tool call: a JSON string, or any other JSON value
    (kept as its text). *)
Inductive Arg := ArgString (s : string) | ArgOther (json : string).

Record CallToolRequest := mkRequest { Arguments : gmap string Arg }.

Definition GetArguments (r : CallToolRequest) : gmap string Arg := Arguments r.

(** [request.RequireString(key)]: [None] stands for the error. *)
Definition RequireString (r : CallToolRequest) (k : string) : option string :=
  match Arguments r !! k with
  | Some (ArgString s) => Some s
  | _ => None
  end.

Definition GetString (r : CallToolRequest) (k : string) (def : string) : string :=
  match Arguments r !! k with
  | Some (ArgString s) => s
  | _ => def
  end.

Record TextContent := mkText { Type_ : string; Text : string }.

Record CallToolResult := mkResult { Content : list TextContent; IsError : bool }.

Definition NewTextContent (text : string) : TextContent := mkText "text" text.

Definition NewToolResultText (text : string) : CallToolResult :=
  mkResult [NewTextContent text] false.

Definition NewToolResultError (text : string) : CallToolResult :=
  mkResult [NewTextContent text] true.
End mcp.

(** ** Package [client]: what the wrapper sees of an upstream client *)

Module MCPClient.
(** A client object.  [id] stands for the pointer: [NewStdioClient]
    returns an object distinct from every earlier one. *)
Record t := mk {
  id : nat;
  ServerName : string;
  Command : string;
  Args : list string
}.
End MCPClient.

Module ToolInfo.
Record t := mk { Name : string; Description : string; InputSchema : string }.
End ToolInfo.

Module UpstreamResult.
(** [client.CallToolResult], as far as the wrapper reads it. *)
Record t := mk { Content : list string; IsError : bool }.
End UpstreamResult.

Module RemoteTool.
Record t := mk {
  OriginalName : string;
  PrefixedName : string;
  Description : string;
  InputSchema : string;
  ServerName : string
}.
End RemoteTool.

(** ** Package [integration]: the dynamic wrapper *)

Module DynamicServerInfo.
Record t := mk {
  Name : string;
  Client : option MCPClient.t;
  Tools : list string;
  Config : ServerConfig.t;
  IsConnected : bool;
  ErrorMessage : string
}.
End DynamicServerInfo.

Module Wrapper.

Import mcp.

(** What the wrapper does to the outside: calls on upstream clients. *)
Inductive Event :=
| EvNewStdioClient (c : MCPClient.t)
| EvSetInheritConfig (c : MCPClient.t) (ic : InheritConfig.t)
| EvSetEnvironment (c : MCPClient.t) (env : list string)
| EvConnect (c : MCPClient.t)
| EvInitialize (c : MCPClient.t)
| EvListTools (c : MCPClient.t)
| EvCallTool (c : MCPClient.t) (name : string) (args : gmap string Arg)
| EvClose (c : MCPClient.t).

(** The message of a recorded line. *)
Inductive Payload :=
| PRequest (r : CallToolRequest)
| PResult (r : CallToolResult).

(** [RecordedMessage], without its timestamp. *)
Record RecordedMessage := mkRecorded {
  Direction : string;
  MessageType : string;
  ToolName : string;
  ServerName : string;
  Message : Payload
}.

(** A handler bound on the host-side server for an upstream tool: the
    closure of [createDynamicProxyHandler], which captures these two
    strings (and the wrapper). *)
Record ProxyHandler := mkHandler {
  serverName : string;
  originalToolName : string
}.

(** [DynamicWrapper], with the parts of [proxyServer] and [baseServer]
    that the handlers touch, the lines written to [recordFile], and the
    calls made on upstream clients so far. *)
Record DynamicWrapper := mkWrapper {
  dynamicServers : gmap string DynamicServerInfo.t;
  proxyInherit : option InheritConfig.t;          (* proxyServer.config.Inherit *)
  proxyClients : list MCPClient.t;                (* proxyServer.clients *)
  registry : list (RemoteTool.t * MCPClient.t);   (* registry.RegisterTool calls *)
  baseTools : gmap string ProxyHandler;           (* baseServer.AddTool bindings *)
  recordEnabled : bool;
  recordFilename : string;
  recordFile : list RecordedMessage;
  events : list Event;
  nextClient : nat
}.

Definition setServers (f : gmap string DynamicServerInfo.t -> gmap string DynamicServerInfo.t)
    (w : DynamicWrapper) : DynamicWrapper :=
  mkWrapper (f (dynamicServers w)) (proxyInherit w) (proxyClients w) (registry w)
    (baseTools w) (recordEnabled w) (recordFilename w) (recordFile w) (events w)
    (nextClient w).

Definition setClients (f : list MCPClient.t -> list MCPClient.t)
    (w : DynamicWrapper) : DynamicWrapper :=
  mkWrapper (dynamicServers w) (proxyInherit w) (f (proxyClients w)) (registry w)
    (baseTools w) (recordEnabled w) (recordFilename w) (recordFile w) (events w)
    (nextClient w).

(** [w.proxyServer.registry.RegisterTool(tool, client)]. *)
Definition RegisterTool (tool : RemoteTool.t) (c : MCPClient.t)
    (w : DynamicWrapper) : DynamicWrapper :=
  mkWrapper (dynamicServers w) (proxyInherit w) (proxyClients w)
    (registry w ++ [(tool, c)])
    (baseTools w) (recordEnabled w) (recordFilename w) (recordFile w) (events w)
    (nextClient w).

(** [w.baseServer.AddTool(mcpTool, handler)]. *)
Definition AddTool (name : string) (h : ProxyHandler)
    (w : DynamicWrapper) : DynamicWrapper :=
  mkWrapper (dynamicServers w) (proxyInherit w) (proxyClients w) (registry w)
    (<[name := h]> (baseTools w))
    (recordEnabled w) (recordFilename w) (recordFile w) (events w) (nextClient w).

Definition writeRecord (m : RecordedMessage) (w : DynamicWrapper) : DynamicWrapper :=
  mkWrapper (dynamicServers w) (proxyInherit w) (proxyClients w) (registry w)
    (baseTools w) (recordEnabled w) (recordFilename w) (recordFile w ++ [m])
    (events w) (nextClient w).

Definition emit (e : Event) (w : DynamicWrapper) : DynamicWrapper :=
  mkWrapper (dynamicServers w) (proxyInherit w) (proxyClients w) (registry w)
    (baseTools w) (recordEnabled w) (recordFilename w) (recordFile w)
    (events w ++ [e]) (nextClient w).

(** [client.NewStdioClient(name, command, args)]: a fresh object. *)
Definition NewStdioClient (name command : string) (args : list string)
    (w : DynamicWrapper) : MCPClient.t * DynamicWrapper :=
  let c := MCPClient.mk (nextClient w) name command args in
  (c, emit (EvNewStdioClient c)
        (mkWrapper (dynamicServers w) (proxyInherit w) (proxyClients w) (registry w)
           (baseTools w) (recordEnabled w) (recordFilename w) (recordFile w)
           (events w) (S (nextClient w)))).

(** [recordMessage]. *)
Definition recordMessage (direction messageType toolName serverName : string)
    (message : Payload) (w : DynamicWrapper) : DynamicWrapper :=
  if negb (recordEnabled w) then w
  else writeRecord (mkRecorded direction messageType toolName serverName message) w.

Definition newline : string := String "010"%char "".

(** The bytes that open the recording banner: the nine bytes that the
    string literal of the source file has before [ Recording:]. *)
Definition camera : string :=
  String "195"%char (String "176"%char (String "197"%char (String "184"%char
    (String "226"%char (String "128"%char (String "156"%char (String "194"%char
      (String "185"%char "")))))))).

Definition metadataText (filename absPath : string) : string :=
  camera +:+ " Recording: " +:+ filename +:+ newline +:+
  "   Full path: " +:+ absPath +:+ newline +:+
  "   Purpose: JSON-RPC message log for debugging and playback testing".

(** [strings.Contains]. *)
Fixpoint Contains (s substr : string) : bool :=
  String.prefix substr s ||
  match s with
  | EmptyString => false
  | String _ rest => Contains rest substr
  end.

(** [strings.Join]. *)
Fixpoint Join (elems : list string) (sep : string) : string :=
  match elems with
  | [] => ""
  | [e] => e
  | e :: rest => e +:+ sep +:+ Join rest sep
  end.

(** The handlers return [(result, nil)]: the second component is the Go
    error, [None] for [nil]. *)
Definition HandlerResult : Type := CallToolResult * option string.

(** The record that [server_disconnect] leaves. *)
Definition disconnected (info : DynamicServerInfo.t) : DynamicServerInfo.t :=
  DynamicServerInfo.mk (DynamicServerInfo.Name info) None
    (DynamicServerInfo.Tools info) (DynamicServerInfo.Config info)
    false "Server disconnected by user".

(** Two states that differ at most in the lines of the recording. *)
Definition sameTables (w w' : DynamicWrapper) : Prop :=
  dynamicServers w' = dynamicServers w /\ proxyInherit w' = proxyInherit w /\
  proxyClients w' = proxyClients w /\ registry w' = registry w /\
  baseTools w' = baseTools w /\ recordEnabled w' = recordEnabled w /\
  recordFilename w' = recordFilename w /\ events w' = events w /\
  nextClient w' = nextClient w.

Section Handlers.
(** [filepath.Abs]; [None] stands for its error. *)
Variable Abs : string -> option string.
(** [strings.Fields] and [strings.ToLower]. *)
Variable Fields : string -> list string.
Variable ToLower : string -> string.
(** The order in which a [range] loop visits a map. *)
Variable range : forall A : Type, gmap string A -> list (string * A).
(** The upstream processes: the outcome of a call on a client, given
    the calls made so far.  [Some err] and [inl err] carry the text of
    the returned error. *)
Variable Connect : list Event -> MCPClient.t -> option string.
Variable Initialize : list Event -> MCPClient.t -> option string.
Variable ListTools : list Event -> MCPClient.t -> string + list ToolInfo.t.
Variable CallTool :
  list Event -> MCPClient.t -> string -> gmap string Arg -> string + UpstreamResult.t.

(** [filepath.Abs(filename)], with the fallback to [filename] itself
    that [addRecordingMetadata] makes on an error. *)
Definition absoluteOr (filename : string) : string :=
  match Abs filename with Some p => p | None => filename end.

(** [addRecordingMetadata]. *)
Definition addRecordingMetadata (w : DynamicWrapper) (result : CallToolResult)
  : CallToolResult :=
  if negb (recordEnabled w) then result
  else
    let filename := recordFilename w in
    if decide (filename = "") then result
    else
      let absPath := absoluteOr filename in
      let metadataItem := NewTextContent (metadataText filename absPath) in
      mkResult (Content result ++ [metadataItem]) (IsError result).

(** A result as [NewToolResultText] and [NewToolResultError] make it:
    one text item. *)
Definition plain (msg : string) (isError : bool) : CallToolResult :=
  mkResult [NewTextContent msg] isError.

(** The three lines that end every path of every handler: add the
    metadata, record the response, return it with a [nil] error. *)
Definition respond (toolName serverName : string) (result : CallToolResult)
    (w : DynamicWrapper) : DynamicWrapper * HandlerResult :=
  let result := addRecordingMetadata w result in
  let w := recordMessage "response" "tool_call" toolName serverName (PResult result) w in
  (w, (result, None)).

(** The substrings that [isConnectionError] looks for. *)
Definition connectionKeywords : list string :=
  ["connection"; "broken pipe"; "eof"; "closed"; "timeout"].

(** [isConnectionError]. *)
Definition isConnectionError (err : string) : bool :=
  let errStr := ToLower err in
  Contains errStr "connection" ||
  Contains errStr "broken pipe" ||
  Contains errStr "eof" ||
  Contains errStr "closed" ||
  Contains errStr "timeout".

(** The registration loop of [handleServerAdd], for one tool. *)
Definition registerOne (name : string) (stdioClient : MCPClient.t)
    (acc : DynamicWrapper * list string * nat) (tool : ToolInfo.t)
  : DynamicWrapper * list string * nat :=
  let '(w, tools, registeredCount) := acc in
  let discoveredTool :=
    RemoteTool.mk (ToolInfo.Name tool) (name +:+ "_" +:+ ToolInfo.Name tool)
      (ToolInfo.Description tool) (ToolInfo.InputSchema tool) name in
  let w := RegisterTool discoveredTool stdioClient w in
  let handler := mkHandler name (RemoteTool.OriginalName discoveredTool) in
  let w := AddTool (RemoteTool.PrefixedName discoveredTool) handler w in
  (w, tools ++ [RemoteTool.PrefixedName discoveredTool], S registeredCount).

(** The configuration that [handleServerAdd] makes for a new server. *)
Definition addedConfig (name command0 : string) (args : list string)
  : ServerConfig.t :=
  ServerConfig.mk name name "stdio" command0 args ∅ None "" "30s".

Definition handleServerAdd (request : CallToolRequest) (w : DynamicWrapper)
  : DynamicWrapper * HandlerResult :=
  let w := recordMessage "request" "tool_call" "server_add" "proxy" (PRequest request) w in
  match RequireString request "name" with
  | None => respond "server_add" "proxy" (NewToolResultError "name is required") w
  | Some name =>
  match RequireString request "command" with
  | None => respond "server_add" "proxy" (NewToolResultError "command is required") w
  | Some command =>
  if decide (is_Some (dynamicServers w !! name)) then
    respond "server_add" "proxy"
      (NewToolResultError ("Server '" +:+ name +:+ "' already exists")) w
  else
  match Fields command with
  | [] => respond "server_add" "proxy" (NewToolResultError "Invalid command") w
  | command0 :: args =>
  let serverConfig := addedConfig name command0 args in
  let '(stdioClient, w) := NewStdioClient name command0 args w in
  let inheritCfg := ServerConfig.ResolveInheritConfig serverConfig (proxyInherit w) in
  let w := emit (EvSetInheritConfig stdioClient inheritCfg) w in
  let w := emit (EvConnect stdioClient) w in
  match Connect (events w) stdioClient with
  | Some err =>
      respond "server_add" "proxy"
        (NewToolResultError ("Failed to connect: " +:+ err)) w
  | None =>
  let w := emit (EvInitialize stdioClient) w in
  match Initialize (events w) stdioClient with
  | Some err =>
      let w := emit (EvClose stdioClient) w in
      respond "server_add" "proxy"
        (NewToolResultError ("Failed to initialize: " +:+ err)) w
  | None =>
  let w := emit (EvListTools stdioClient) w in
  match ListTools (events w) stdioClient with
  | inl err =>
      let w := emit (EvClose stdioClient) w in
      respond "server_add" "proxy"
        (NewToolResultError ("Failed to list tools: " +:+ err)) w
  | inr tools =>
  let '(w, serverTools, registeredCount) :=
    foldl (registerOne name stdioClient) (w, [], 0) tools in
  let serverInfo :=
    DynamicServerInfo.mk name (Some stdioClient) serverTools serverConfig true "" in
  let w := setServers (insert name serverInfo) w in
  let w := setClients (fun cs => cs ++ [stdioClient]) w in
  let result :=
    "Added server '" +:+ name +:+ "' with command: " +:+ command0 +:+ " " +:+
    Join args " " +:+ newline +:+ "Registered " +:+ pretty registeredCount +:+
    " tools successfully." in
  respond "server_add" "proxy" (NewToolResultText result) w
  end end end end end end.

(** [handleServerDisconnect], on the paths that return.  One statement
    of the handler can panic: the [make] of the new client list, whose
    capacity [len(w.proxyServer.clients)-1] is negative for an empty
    list.  That path is [disconnectPanic], and [call] puts the two
    together. *)
Definition handleServerDisconnect (request : CallToolRequest) (w : DynamicWrapper)
  : DynamicWrapper * HandlerResult :=
  let w := recordMessage "request" "tool_call" "server_disconnect" "proxy"
             (PRequest request) w in
  match RequireString request "name" with
  | None => respond "server_disconnect" "proxy" (NewToolResultError "name is required") w
  | Some name =>
  match dynamicServers w !! name with
  | None =>
      respond "server_disconnect" "proxy"
        (NewToolResultError ("Server '" +:+ name +:+ "' not found")) w
  | Some serverInfo =>
  if negb (DynamicServerInfo.IsConnected serverInfo) then
    respond "server_disconnect" "proxy"
      (NewToolResultText ("Server '" +:+ name +:+ "' is already disconnected")) w
  else
  (* Close client and terminate process *)
  let w :=
    match DynamicServerInfo.Client serverInfo with
    | Some c =>
        let w := emit (EvClose c) w in
        setClients (filter (fun c' => MCPClient.ServerName c' <> name)) w
    | None => w
    end in
  (* Mark as disconnected but keep tools registered *)
  let serverInfo := disconnected serverInfo in
  let w := setServers (insert name serverInfo) w in
  let result :=
    "Disconnected server '" +:+ name +:+
    "'. Tools remain registered but will return errors.\nUse server_reconnect to restore with new binary/command." in
  respond "server_disconnect" "proxy" (NewToolResultText result) w
  end end.

(** The failure paths of [handleServerReconnect] leave this record. *)
Definition reconnectFailed (serverInfo : DynamicServerInfo.t) (msg : string)
    (serverConfig : ServerConfig.t) : DynamicServerInfo.t :=
  DynamicServerInfo.mk (DynamicServerInfo.Name serverInfo)
    (DynamicServerInfo.Client serverInfo) (DynamicServerInfo.Tools serverInfo)
    serverConfig false msg.

(** The update of [proxyServer.clients] on reconnect: the first client
    of that server name is replaced, else the new one is appended. *)
Fixpoint replaceClient (name : string) (stdioClient : MCPClient.t)
    (clients : list MCPClient.t) : list MCPClient.t :=
  match clients with
  | [] => [stdioClient]
  | c :: rest =>
      if decide (MCPClient.ServerName c = name) then stdioClient :: rest
      else c :: replaceClient name stdioClient rest
  end.

(** The registry loop of [handleServerReconnect], for one tool. *)
Definition reRegisterOne (name : string) (stdioClient : MCPClient.t)
    (registered : list string) (w : DynamicWrapper) (tool : ToolInfo.t)
  : DynamicWrapper :=
  let prefixedName := name +:+ "_" +:+ ToolInfo.Name tool in
  if decide (prefixedName ∈ registered) then
    RegisterTool
      (RemoteTool.mk (ToolInfo.Name tool) prefixedName (ToolInfo.Description tool)
         (ToolInfo.InputSchema tool) name)
      stdioClient w
  else w.

(** The client that a reconnect from the stored configuration creates. *)
Definition reconnectClient (w : DynamicWrapper) (info : DynamicServerInfo.t)
  : MCPClient.t :=
  let cfg := DynamicServerInfo.Config info in
  MCPClient.mk (nextClient w) (ServerConfig.Name cfg) (ServerConfig.Command cfg)
    (ServerConfig.Args cfg).

Definition handleServerReconnect (request : CallToolRequest) (w : DynamicWrapper)
  : DynamicWrapper * HandlerResult :=
  let w := recordMessage "request" "tool_call" "server_reconnect" "proxy"
             (PRequest request) w in
  match RequireString request "name" with
  | None => respond "server_reconnect" "proxy" (NewToolResultError "name is required") w
  | Some name =>
  let commandStr := GetString request "command" "" in
  match dynamicServers w !! name with
  | None =>
      respond "server_reconnect" "proxy"
        (NewToolResultError ("Server '" +:+ name +:+ "' not found")) w
  | Some serverInfo =>
  if DynamicServerInfo.IsConnected serverInfo then
    respond "server_reconnect" "proxy"
      (NewToolResultError
         ("Server '" +:+ name +:+ "' is still connected. Use server_disconnect first.")) w
  else
  let chosen : CallToolResult + ServerConfig.t :=
    if decide (commandStr <> "") then
      (* Command provided: parse and create new config *)
      match Fields commandStr with
      | [] => inl (NewToolResultError "Invalid command")
      | command0 :: args =>
          inr (ServerConfig.mk name
                 (ServerConfig.Prefix (DynamicServerInfo.Config serverInfo))
                 "stdio" command0 args ∅ None "" "30s")
      end
    else
      (* Command omitted: use stored config *)
      if decide (ServerConfig.Command (DynamicServerInfo.Config serverInfo) = "") then
        inl (NewToolResultError
               "Stored config has no command. Please provide command parameter.")
      else inr (DynamicServerInfo.Config serverInfo) in
  match chosen with
  | inl result => respond "server_reconnect" "proxy" result w
  | inr serverConfig =>
  let '(stdioClient, w) :=
    NewStdioClient (ServerConfig.Name serverConfig) (ServerConfig.Command serverConfig)
      (ServerConfig.Args serverConfig) w in
  let inheritCfg := ServerConfig.ResolveInheritConfig serverConfig (proxyInherit w) in
  let w := emit (EvSetInheritConfig stdioClient inheritCfg) w in
  let w :=
    if decide (size (ServerConfig.Env serverConfig) = 0) then w
    else
      emit (EvSetEnvironment stdioClient
              ((fun kv => kv.1 +:+ "=" +:+ kv.2)
                 <$> range _ (ServerConfig.Env serverConfig))) w in
  let w := emit (EvConnect stdioClient) w in
  match Connect (events w) stdioClient with
  | Some err =>
      let msg := "Failed to connect: " +:+ err in
      let w := setServers (insert name (reconnectFailed serverInfo msg serverConfig)) w in
      respond "server_reconnect" "proxy" (NewToolResultError msg) w
  | None =>
  let w := emit (EvInitialize stdioClient) w in
  match Initialize (events w) stdioClient with
  | Some err =>
      let w := emit (EvClose stdioClient) w in
      let msg := "Failed to initialize: " +:+ err in
      let w := setServers (insert name (reconnectFailed serverInfo msg serverConfig)) w in
      respond "server_reconnect" "proxy" (NewToolResultError msg) w
  | None =>
  let w := emit (EvListTools stdioClient) w in
  match ListTools (events w) stdioClient with
  | inl err =>
      let w := emit (EvClose stdioClient) w in
      let msg := "Failed to list tools: " +:+ err in
      let w := setServers (insert name (reconnectFailed serverInfo msg serverConfig)) w in
      respond "server_reconnect" "proxy" (NewToolResultError msg) w
  | inr tools =>
  (* Update server info (but NOT IsConnected yet) *)
  let serverInfo :=
    DynamicServerInfo.mk (DynamicServerInfo.Name serverInfo) (Some stdioClient)
      (DynamicServerInfo.Tools serverInfo) serverConfig
      (DynamicServerInfo.IsConnected serverInfo) "" in
  let w := setServers (insert name serverInfo) w in
  let w := setClients (replaceClient name stdioClient) w in
  let w :=
    foldl (reRegisterOne name stdioClient (DynamicServerInfo.Tools serverInfo)) w tools in
  (* NOW mark as connected *)
  let serverInfo :=
    DynamicServerInfo.mk (DynamicServerInfo.Name serverInfo)
      (DynamicServerInfo.Client serverInfo) (DynamicServerInfo.Tools serverInfo)
      (DynamicServerInfo.Config serverInfo) true
      (DynamicServerInfo.ErrorMessage serverInfo) in
  let w := setServers (insert name serverInfo) w in
  let resultMsg :=
    if decide (commandStr <> "") then
      "Reconnected server '" +:+ name +:+ "' with NEW command: " +:+
      ServerConfig.Command serverConfig +:+ " " +:+
      Join (ServerConfig.Args serverConfig) " " +:+ newline +:+
      "Server now connected and tools updated."
    else
      "Reconnected server '" +:+ name +:+ "' using STORED configuration" +:+ newline +:+
      "Server now connected and tools updated." in
  respond "server_reconnect" "proxy" (NewToolResultText resultMsg) w
  end end end end end end.

(** The result that a proxy handler makes of an upstream answer. *)
Definition transformResult (result : UpstreamResult.t) : CallToolResult :=
  if UpstreamResult.IsError result then
    match UpstreamResult.Content result with
    | text :: _ => NewToolResultError text
    | [] => NewToolResultError "Tool execution failed"
    end
  else
    match UpstreamResult.Content result with
    | [] => NewToolResultText "Tool executed successfully"
    | content => NewToolResultText (Join content newline)
    end.

(** [createDynamicProxyHandler(serverName, originalToolName)]: the
    handler is the function of the request (and of the wrapper state,
    which the closure reaches through [w]). *)
Definition createDynamicProxyHandler (serverName originalToolName : string)
    (request : CallToolRequest) (w : DynamicWrapper)
  : DynamicWrapper * HandlerResult :=
  let prefixedToolName := serverName +:+ "_" +:+ originalToolName in
  let w := recordMessage "request" "tool_call" prefixedToolName serverName
             (PRequest request) w in
  match dynamicServers w !! serverName with
  | None =>
      respond prefixedToolName serverName
        (NewToolResultError ("Server '" +:+ serverName +:+ "' not found")) w
  | Some serverInfo =>
  (* Copy client reference while holding lock *)
  let client :=
    if DynamicServerInfo.IsConnected serverInfo
    then DynamicServerInfo.Client serverInfo else None in
  match client with
  | None =>
      let errorMsg := "Server '" +:+ serverName +:+ "' is disconnected" in
      let errorMsg :=
        if decide (DynamicServerInfo.ErrorMessage serverInfo <> "")
        then errorMsg +:+ ": " +:+ DynamicServerInfo.ErrorMessage serverInfo
        else errorMsg in
      let errorMsg :=
        errorMsg +:+ newline +:+ "Use server_reconnect to restore connection." in
      respond prefixedToolName serverName (NewToolResultError errorMsg) w
  | Some client =>
  let argsMap := GetArguments request in
  let w := emit (EvCallTool client originalToolName argsMap) w in
  match CallTool (events w) client originalToolName argsMap with
  | inl err =>
      if isConnectionError err then
        let serverInfo :=
          DynamicServerInfo.mk (DynamicServerInfo.Name serverInfo)
            (DynamicServerInfo.Client serverInfo) (DynamicServerInfo.Tools serverInfo)
            (DynamicServerInfo.Config serverInfo) false err in
        let w := setServers (insert serverName serverInfo) w in
        let errorMsg :=
          "Server '" +:+ serverName +:+ "' connection failed: " +:+ err +:+ newline +:+
          "Use server_reconnect to restore connection." in
        respond prefixedToolName serverName (NewToolResultError errorMsg) w
      else
        let errorMsg := "[" +:+ serverName +:+ "] " +:+ err in
        respond prefixedToolName serverName (NewToolResultError errorMsg) w
  | inr result =>
      respond prefixedToolName serverName (transformResult result) w
  end end end.

(** The client that a handler of this upstream calls in this state:
    the one of the table's record, when that record is connected. *)
Definition currentClient (serverName : string) (w : DynamicWrapper)
  : option MCPClient.t :=
  match dynamicServers w !! serverName with
  | Some info =>
      if DynamicServerInfo.IsConnected info then DynamicServerInfo.Client info
      else None
  | None => None
  end.

Definition runProxyHandler (h : ProxyHandler) :=
  createDynamicProxyHandler (serverName h) (originalToolName h).

(** The handlers bound on the host-side server that are embedded here:
    three management tools and the proxy handlers of upstream tools. *)
Inductive Handler :=
| ServerAdd
| ServerDisconnect
| ServerReconnect
| ProxyTool (h : ProxyHandler).

Definition runHandler (h : Handler)
  : CallToolRequest -> DynamicWrapper -> DynamicWrapper * HandlerResult :=
  match h with
  | ServerAdd => handleServerAdd
  | ServerDisconnect => handleServerDisconnect
  | ServerReconnect => handleServerReconnect
  | ProxyTool h => runProxyHandler h
  end.

(** A sequence of calls through tools of one upstream. *)
Definition proxyCalls (serverName : string)
    (calls : list (string * CallToolRequest)) (w : DynamicWrapper) : DynamicWrapper :=
  foldl (fun w call => (createDynamicProxyHandler serverName call.1 call.2 w).1) w calls.

End Handlers.

(** A host for examples. *)
Definition lowerAscii (c : ascii) : ascii :=
  let n := nat_of_ascii c in
  if (65 <=? n)%nat && (n <=? 90)%nat then ascii_of_nat (n + 32) else c.

Fixpoint asciiToLower (s : string) : string :=
  match s with
  | EmptyString => EmptyString
  | String c r => String (lowerAscii c) (asciiToLower r)
  end.

Definition exampleAbs (filename : string) : option string := Some ("/work/" +:+ filename).
Definition exampleFields (s : string) : list string := if decide (s = "") then [] else [s].
Definition succeeds (h : list Event) (c : MCPClient.t) : option string := None.
Definition fails (err : string) (h : list Event) (c : MCPClient.t) : option string :=
  Some err.
Definition exampleTools (h : list Event) (c : MCPClient.t) : string + list ToolInfo.t :=
  inr [ToolInfo.mk "greet" "" "{}"].
Definition callFails (err : string) (h : list Event) (c : MCPClient.t) (name : string)
    (args : gmap string Arg) : string + UpstreamResult.t := inl err.
Definition exampleClient : MCPClient.t := MCPClient.mk 0 "echo" "/usr/bin/echo-mcp" [].
Definition exampleInfo : DynamicServerInfo.t :=
  DynamicServerInfo.mk "echo" (Some exampleClient) ["echo_greet"]
    (addedConfig "echo" "/usr/bin/echo-mcp" []) true "".
Definition exampleWrapper (recording : bool) : DynamicWrapper :=
  mkWrapper (<["echo" := exampleInfo]> ∅) None [exampleClient] [] ∅ recording
    "session.jsonl" [] [] 1.
Definition exampleRequest (args : list (string * string)) : CallToolRequest :=
  mkRequest (list_to_map ((fun kv => (kv.1, ArgString kv.2)) <$> args)).

End Wrapper.

(** ** Package [client]: [MergeEnvironment] *)

Module EnvMerge.

Import EnvBuilder.

Section Merge.
(** [runtime.GOOS == "windows"], [strings.ToUpper], [os.Environ()] and
    the order of a [range] loop over a map. *)
Variable windows : bool.
Variable ToUpper : string -> string.
Variable Environ : list string.
Variable range : forall A : Type, gmap string A -> list (string * A).

(** The two maps of [MergeEnvironment]: [envMap], from the normalized
    name to the value, and [keyMap], from the normalized name to the
    name as it was spelled. *)
Definition mergeMaps : Type := gmap string string * gmap string string.

(** The body of the loop over the parent environment. *)
Definition loadParent (maps : mergeMaps) (entry : string) : mergeMaps :=
  let '(envMap, keyMap) := maps in
  let '(key, value) := splitEnvEntry entry in
  if decide (key = "") then (envMap, keyMap)
  else
    let lookupKey := normalizeKey ToUpper key windows in
    (<[lookupKey := value]> envMap, <[lookupKey := key]> keyMap).

(** The body of the loop over the overrides. *)
Definition applyOverride (maps : mergeMaps) (kv : string * string) : mergeMaps :=
  let '(envMap, keyMap) := maps in
  let '(key, value) := kv in
  let lookupKey := normalizeKey ToUpper key windows in
  (<[lookupKey := value]> envMap, <[lookupKey := key]> keyMap).

(** The two maps when the last loop starts. *)
Definition mergedMaps (overrides : gmap string string) : mergeMaps :=
  let maps := foldl loadParent (∅, ∅) Environ in
  foldl applyOverride maps (range _ overrides).

(** One line of the result; a name missing from [keyMap] reads [""]. *)
Definition mergeLine (keyMap : gmap string string) (kv : string * string) : string :=
  let '(lookupKey, value) := kv in
  let originalKey := default "" (keyMap !! lookupKey) in
  originalKey +:+ "=" +:+ value.

Definition MergeEnvironment (overrides : gmap string string) : list string :=
  let '(envMap, keyMap) := mergedMaps overrides in
  mergeLine keyMap <$> range _ envMap.

End Merge.

(** Another order of iteration, for examples: the map's listing
    backwards. *)
Definition reverseOrder (A : Type) (m : gmap string A) : list (string * A) :=
  reverse (map_to_list m).

End EnvMerge.

(** ** Package [config]: validation and defaults *)

Module InheritValidation.
Import InheritConfig.
Section Validation.
(** The verb [%q] of [fmt]: the string, quoted as Go source. *)
Variable Quote : string -> string.

(** [func (ic *InheritConfig) Validate() error]; [None] is [nil] and
    [Some msg] an error of that text. *)
Definition Validate (ic : t) : option string :=
  if decide (Mode ic = "" \/ Mode ic = InheritNone \/ Mode ic = InheritTier1 \/
             Mode ic = InheritTier1Tier2 \/ Mode ic = InheritAll)
  then None
  else Some ("invalid mode " +:+ Quote (Mode ic) +:+
             ": must be one of: none, tier1, tier1+tier2, all").
End Validation.
End InheritValidation.

Module ServerTimeout.
Import ServerConfig.
Section Timeouts.
(** [time.ParseDuration]: the text of the error, or the duration in
    nanoseconds. *)
Variable ParseDuration : string -> string + Z.

(** [time.Second], in nanoseconds. *)
Definition Second : Z := 1000000000.

(** [func (s *ServerConfig) GetServerTimeout() time.Duration]. *)
Definition GetServerTimeout (s : t) : Z :=
  if decide (Timeout s = "") then (30 * Second)%Z
  else
    match ParseDuration (Timeout s) with
    | inl _ => (30 * Second)%Z
    | inr duration => duration
    end.
End Timeouts.
End ServerTimeout.

Module ProxySettings.
Record t := mk {
  HealthCheckInterval : string;
  ConnectionTimeout : string;
  MaxRetries : Z
}.
End ProxySettings.

Module ProxyConfig.
Import InheritValidation ServerTimeout.

Record t := mk {
  Servers : list ServerConfig.t;
  Proxy : ProxySettings.t;
  Inherit : option InheritConfig.t
}.

(** A step of a function that returns an [error]: go on when the check
    returns [nil], else return its error. *)
Definition andThen (check : option string) (rest : option string) : option string :=
  match check with
  | Some err => Some err
  | None => rest
  end.

Notation "check ;;; rest" := (andThen check rest)
  (at level 100, rest at level 200, only parsing).

(** [if cond { return fmt.Errorf(msg) }]. *)
Definition failIf (cond : Prop) `{!Decision cond} (msg : string) : option string :=
  if decide cond then Some msg else None.

(** [names[k]] on a [map[string]bool]: a missing key reads [false]. *)
Definition seen (m : gmap string bool) (k : string) : bool := default false (m !! k).

Section Validation.
Variable ParseDuration : string -> string + Z.
Variable Quote : string -> string.

(** [if _, err := time.ParseDuration(s); err != nil { return wrap(err) }]
    under the guard [s != ""]. *)
Definition checkDuration (s : string) (wrap : string -> string) : option string :=
  if decide (s <> "") then
    match ParseDuration s with
    | inl err => Some (wrap err)
    | inr _ => None
    end
  else None.

(** [if ic != nil { if err := ic.Validate(); err != nil { return wrap(err) } }]. *)
Definition checkInherit (ic : option InheritConfig.t) (wrap : string -> string)
  : option string :=
  match ic with
  | Some ic =>
      match Validate Quote ic with
      | Some err => Some (wrap err)
      | None => None
      end
  | None => None
  end.

(** The loop of [Validate] over [c.Servers], from index [i] on, with the
    names and prefixes seen so far. *)
Fixpoint validateServers (i : nat) (names prefixes : gmap string bool)
    (servers : list ServerConfig.t) : option string :=
  match servers with
  | [] => None
  | server :: rest =>
      let name := ServerConfig.Name server in
      (* Validate server name *)
      failIf (name = "") ("server " +:+ pretty i +:+ ": name is required") ;;;
      failIf (seen names name = true) ("duplicate server name: " +:+ name) ;;;
      let names := <[name := true]> names in
      (* Validate prefix *)
      failIf (ServerConfig.Prefix server = "")
        ("server " +:+ name +:+ ": prefix is required") ;;;
      failIf (seen prefixes (ServerConfig.Prefix server) = true)
        ("duplicate server prefix: " +:+ ServerConfig.Prefix server) ;;;
      let prefixes := <[ServerConfig.Prefix server := true]> prefixes in
      (* Validate transport *)
      failIf (ServerConfig.Transport server <> "stdio" /\
              ServerConfig.Transport server <> "http")
        ("server " +:+ name +:+ ": transport must be 'stdio' or 'http'") ;;;
      (* Validate transport-specific fields *)
      (if decide (ServerConfig.Transport server = "stdio") then
         failIf (ServerConfig.Command server = "")
           ("server " +:+ name +:+ ": command is required for stdio transport")
       else if decide (ServerConfig.Transport server = "http") then
         failIf (ServerConfig.URL server = "")
           ("server " +:+ name +:+ ": url is required for http transport")
       else None) ;;;
      (* Validate timeout format if specified *)
      checkDuration (ServerConfig.Timeout server)
        (fun err => "server " +:+ name +:+ ": invalid timeout format: " +:+ err) ;;;
      (* Validate server-level inherit config *)
      checkInherit (ServerConfig.Inherit server)
        (fun err => "server " +:+ name +:+ ": inherit: " +:+ err) ;;;
      validateServers (S i) names prefixes rest
  end.

(** [func (c *ProxyConfig) Validate() error]. *)
Definition Validate (c : t) : option string :=
  (* Allow empty server lists for dynamic proxies *)
  if decide (length (Servers c) = 0) then None
  else
    validateServers 0 ∅ ∅ (Servers c) ;;;
    (* Validate proxy settings *)
    checkDuration (ProxySettings.HealthCheckInterval (Proxy c))
      (fun err => "invalid healthCheckInterval format: " +:+ err) ;;;
    checkDuration (ProxySettings.ConnectionTimeout (Proxy c))
      (fun err => "invalid connectionTimeout format: " +:+ err) ;;;
    (* Validate proxy-level inherit config *)
    checkInherit (Inherit c) (fun err => "proxy.inherit: " +:+ err) ;;;
    None.

End Validation.

(** [func (c *ProxyConfig) GetProxySettings() ProxySettings]. *)
Definition GetProxySettings (c : t) : ProxySettings.t :=
  let settings := Proxy c in
  let settings :=
    if decide (ProxySettings.HealthCheckInterval settings = "") then
      ProxySettings.mk "30s" (ProxySettings.ConnectionTimeout settings)
        (ProxySettings.MaxRetries settings)
    else settings in
  let settings :=
    if decide (ProxySettings.ConnectionTimeout settings = "") then
      ProxySettings.mk (ProxySettings.HealthCheckInterval settings) "10s"
        (ProxySettings.MaxRetries settings)
    else settings in
  if decide (ProxySettings.MaxRetries settings = 0%Z) then
    ProxySettings.mk (ProxySettings.HealthCheckInterval settings)
      (ProxySettings.ConnectionTimeout settings) 3
  else settings.

(** A host for examples: a parser that knows three durations, and
    quoting that escapes nothing. *)
Definition exampleParseDuration (s : string) : string + Z :=
  if decide (s = "30s") then inr (30 * ServerTimeout.Second)%Z
  else if decide (s = "10s") then inr (10 * ServerTimeout.Second)%Z
  else if decide (s = "5s") then inr (5 * ServerTimeout.Second)%Z
  else inl ("time: invalid duration " +:+ s).

Definition exampleQuote (s : string) : string :=
  String (ascii_of_nat 34) s +:+ String (ascii_of_nat 34) "".

(** One server over stdio with a timeout of five seconds and no policy
    of its own; the proxy settings are left empty. *)
Definition exampleConfig : t :=
  mk [ServerConfig.mk "echo" "e" "stdio" "/usr/bin/echo-mcp" [] ∅ None "" "5s"]
     (ProxySettings.mk "" "" 0)
     (Some (InheritConfig.mk "none" ["HOME"] [] [] false)).

End ProxyConfig.

(** ** Package [integration]: removing and listing servers, static servers *)

Module Management.

Import mcp Wrapper.

(** How a call of a handler ends: it returns, or the goroutine panics
    (with the state as it was then). *)
Inductive Outcome :=
| Returned (w : DynamicWrapper) (r : HandlerResult)
| Panicked (w : DynamicWrapper).

(** An element of [proxyServer.discoveryResults], as far as
    [populateStaticServers] reads it; [Error] is [None] for [nil]. *)
Record DiscoveryResult := mkDiscovery {
  ResultServerName : string;
  Error : option string
}.

(** The bullet of the tool lines of [server_list]: the seven bytes that
    the source file has between the two spaces. *)
Definition bullet : string :=
  String "195"%char (String "162"%char (String "226"%char (String "130"%char
    (String "172"%char (String "194"%char (String "162"%char "")))))).

(** [result.WriteString(s)] on a [strings.Builder]. *)
Definition WriteString (result s : string) : string := result +:+ s.

(** The first client of that server name in [proxyServer.clients]. *)
Fixpoint findClient (name : string) (clients : list MCPClient.t)
  : option MCPClient.t :=
  match clients with
  | [] => None
  | c :: rest =>
      if decide (MCPClient.ServerName c = name) then Some c
      else findClient name rest
  end.

(** The text of the first discovery result of that server that has an
    error, [""] when there is none. *)
Fixpoint discoveryError (name : string) (results : list DiscoveryResult) : string :=
  match results with
  | [] => ""
  | result :: rest =>
      match Error result with
      | Some err =>
          if decide (ResultServerName result = name) then err
          else discoveryError name rest
      | None => discoveryError name rest
      end
  end.

Section Tools.
(** [filepath.Abs] and the order of a [range] loop over a map. *)
Variable Abs : string -> option string.
Variable range : forall A : Type, gmap string A -> list (string * A).
(** [w.proxyServer.config.Servers], the static servers of the
    configuration file. *)
Variable configServers : list ServerConfig.t.
(** [w.proxyServer.registry.GetAllTools()], as a function of the
    registrations made so far. *)
Variable GetAllTools : list (RemoteTool.t * MCPClient.t) -> list RemoteTool.t.
(** [w.proxyServer.discoveryResults]. *)
Variable discoveryResults : list DiscoveryResult.

(** A handler that returns. *)
Definition returned (out : DynamicWrapper * HandlerResult) : Outcome :=
  Returned out.1 out.2.

Definition handleServerRemove (request : CallToolRequest) (w : DynamicWrapper)
  : Outcome :=
  let w := recordMessage "request" "tool_call" "server_remove" "proxy"
             (PRequest request) w in
  match RequireString request "name" with
  | None =>
      returned (respond Abs "server_remove" "proxy"
                  (NewToolResultError "name is required") w)
  | Some name =>
  match dynamicServers w !! name with
  | None =>
      returned (respond Abs "server_remove" "proxy"
                  (NewToolResultError ("Server '" +:+ name +:+ "' not found")) w)
  | Some serverInfo =>
  (* Close client *)
  match DynamicServerInfo.Client serverInfo with
  | None => Panicked w   (* a method call on a nil interface value *)
  | Some client =>
  let w := emit (EvClose client) w in
  (* Remove from maps *)
  let w := setServers (delete name) w in
  (* Remove from proxy server's client list *)
  match proxyClients w with
  | [] => Panicked w   (* make with the capacity len(clients)-1 = -1 *)
  | _ :: _ =>
  let w :=
    setClients (filter (fun c => MCPClient.id c <> MCPClient.id client)) w in
  let result :=
    "Removed server '" +:+ name +:+ "'. Note: " +:+
    pretty (length (DynamicServerInfo.Tools serverInfo)) +:+
    " tools remain registered but are now unavailable." in
  returned (respond Abs "server_remove" "proxy" (NewToolResultText result) w)
  end end end end.

(** The status of a dynamic server in the listing. *)
Definition statusOf (info : DynamicServerInfo.t) : string :=
  let status := "connected" in
  if negb (DynamicServerInfo.IsConnected info) then
    let status := "disconnected" in
    if decide (DynamicServerInfo.ErrorMessage info <> "") then
      "disconnected (" +:+ DynamicServerInfo.ErrorMessage info +:+ ")"
    else status
  else status.

(** One line per tool. *)
Definition writeTools (result : string) (tools : list string) : string :=
  foldl (fun result tool =>
           WriteString result ("  " +:+ bullet +:+ " " +:+ tool +:+ newline))
        result tools.

(** The body of the loop of [handleServerList] over the dynamic servers. *)
Definition writeServer (result : string) (entry : string * DynamicServerInfo.t)
  : string :=
  let '(name, info) := entry in
  let status := statusOf info in
  let tools := DynamicServerInfo.Tools info in
  let result :=
    WriteString result
      ("- " +:+ name +:+ " [" +:+ status +:+ "] - " +:+ pretty (length tools) +:+
       " tools" +:+ newline) in
  (* List first few tools *)
  if decide (0 < length tools /\ length tools <= 5) then writeTools result tools
  else if decide (5 < length tools) then
    let result := writeTools result (take 3 tools) in
    WriteString result
      ("  " +:+ bullet +:+ " ... and " +:+ pretty (length tools - 3) +:+ " more" +:+
       newline)
  else result.

(** The text that [handleServerList] builds. *)
Definition listingText (w : DynamicWrapper) : string :=
  let result := "" in
  let result := WriteString result ("Connected MCP Servers:" +:+ newline) in
  let result :=
    WriteString result ("=====================" +:+ newline +:+ newline) in
  (* List static servers from initial config *)
  let staticCount := length configServers in
  let result :=
    if decide (0 < staticCount) then
      let result :=
        WriteString result ("Static servers (from config):" +:+ newline) in
      let result :=
        foldl (fun result server =>
                 WriteString result
                   ("- " +:+ ServerConfig.Name server +:+ " [static]" +:+ newline))
              result configServers in
      WriteString result newline
    else result in
  (* List dynamic servers *)
  let result :=
    if decide (size (dynamicServers w) = 0 /\ staticCount = 0) then
      WriteString result ("No servers connected." +:+ newline)
    else if decide (0 < size (dynamicServers w)) then
      let result := WriteString result ("Dynamic servers:" +:+ newline) in
      foldl writeServer result (range _ (dynamicServers w))
    else result in
  let totalServers := staticCount + size (dynamicServers w) in
  WriteString result
    (newline +:+ "Total servers: " +:+ pretty totalServers +:+ " (static: " +:+
     pretty staticCount +:+ ", dynamic: " +:+ pretty (size (dynamicServers w)) +:+
     ")" +:+ newline).

Definition handleServerList (request : CallToolRequest) (w : DynamicWrapper)
  : DynamicWrapper * HandlerResult :=
  let w := recordMessage "request" "tool_call" "server_list" "proxy"
             (PRequest request) w in
  respond Abs "server_list" "proxy" (NewToolResultText (listingText w)) w.

(** The body of the loop of [populateStaticServers]. *)
Definition populateOne (w : DynamicWrapper) (serverConfig : ServerConfig.t)
  : DynamicWrapper :=
  let name := ServerConfig.Name serverConfig in
  match findClient name (proxyClients w) with
  | Some matchingClient =>
      (* SUCCESS: Server connected, add with tools *)
      let allTools := GetAllTools (registry w) in
      let serverTools :=
        RemoteTool.PrefixedName
          <$> filter (fun tool => RemoteTool.ServerName tool = name) allTools in
      let serverInfo :=
        DynamicServerInfo.mk name (Some matchingClient) serverTools serverConfig
          true "" in
      setServers (insert name serverInfo) w
  | None =>
      (* FAILED: No client, but still add to enable reconnect *)
      let errorMsg := discoveryError name discoveryResults in
      let errorMsg :=
        if decide (errorMsg = "") then "Failed to connect during initialization"
        else errorMsg in
      let serverInfo :=
        DynamicServerInfo.mk name None [] serverConfig false errorMsg in
      setServers (insert name serverInfo) w
  end.

(** [populateStaticServers]; it always returns [nil]. *)
Definition populateStaticServers (w : DynamicWrapper)
  : DynamicWrapper * option string :=
  (foldl populateOne w configServers, None).

End Tools.

Section Calls.
Variable Abs : string -> option string.
Variable Fields : string -> list string.
Variable ToLower : string -> string.
Variable range : forall A : Type, gmap string A -> list (string * A).
Variable configServers : list ServerConfig.t.
Variable Connect : list Event -> MCPClient.t -> option string.
Variable Initialize : list Event -> MCPClient.t -> option string.
Variable ListTools : list Event -> MCPClient.t -> string + list ToolInfo.t.
Variable CallTool :
  list Event -> MCPClient.t -> string -> gmap string Arg -> string + UpstreamResult.t.

(** Where [handleServerDisconnect] panics, and the state then.  The
    handler makes the new client list with the capacity
    [len(w.proxyServer.clients)-1]: for a connected record with a client
    and an empty client list that is [make] with a negative capacity,
    after the client was closed.  ([handleServerDisconnect] itself embeds
    the paths that return.) *)
Definition disconnectPanic (request : CallToolRequest) (w : DynamicWrapper)
  : option DynamicWrapper :=
  let w := recordMessage "request" "tool_call" "server_disconnect" "proxy"
             (PRequest request) w in
  match RequireString request "name" with
  | None => None
  | Some name =>
  match dynamicServers w !! name with
  | None => None
  | Some serverInfo =>
  if negb (DynamicServerInfo.IsConnected serverInfo) then None
  else
    match DynamicServerInfo.Client serverInfo, proxyClients w with
    | Some c, [] => Some (emit (EvClose c) w)
    | _, _ => None
    end
  end end.

(** The tools bound on the host-side server: the five management tools
    of [registerManagementTools] and the proxy handlers of the upstream
    tools. *)
Inductive Tool :=
| server_add
| server_remove
| server_list
| server_disconnect
| server_reconnect
| upstream (h : ProxyHandler).

(** A call of a tool: it returns or panics. *)
Definition call (t : Tool) (request : CallToolRequest) (w : DynamicWrapper)
  : Outcome :=
  match t with
  | server_add =>
      returned (handleServerAdd Abs Fields Connect Initialize ListTools request w)
  | server_remove => handleServerRemove Abs request w
  | server_list => returned (handleServerList Abs range configServers request w)
  | server_disconnect =>
      match disconnectPanic request w with
      | Some w => Panicked w
      | None => returned (handleServerDisconnect Abs request w)
      end
  | server_reconnect =>
      returned (handleServerReconnect Abs Fields range Connect Initialize ListTools
                  request w)
  | upstream h =>
      returned (createDynamicProxyHandler Abs ToLower CallTool (serverName h)
                  (originalToolName h) request w)
  end.

End Calls.

(** The state that the handlers keep: every record of the table sits
    under its own name, with a configuration of that name; a connected
    record has a client; the client of a record carries the record's
    name and is in the client list; and the clients of the list are
    distinct objects, created before the next one to come. *)
Definition wellFormed (w : DynamicWrapper) : Prop :=
  (forall name info,
      dynamicServers w !! name = Some info ->
      DynamicServerInfo.Name info = name /\
      ServerConfig.Name (DynamicServerInfo.Config info) = name /\
      (DynamicServerInfo.IsConnected info = true ->
       is_Some (DynamicServerInfo.Client info)) /\
      (forall c, DynamicServerInfo.Client info = Some c ->
                 MCPClient.ServerName c = name /\ c ∈ proxyClients w)) /\
  NoDup (MCPClient.id <$> proxyClients w) /\
  (forall c, c ∈ proxyClients w -> MCPClient.id c < nextClient w).

(** A host for examples: the tools of the registry in the order of their
    registration, two static servers of which only [echo] came up, and
    the wrapper as [proxyServer.Initialize] leaves it then. *)
Definition exampleGetAllTools (registered : list (RemoteTool.t * MCPClient.t))
  : list RemoteTool.t := registered.*1.

Definition exampleStatic : list ServerConfig.t :=
  [addedConfig "echo" "/usr/bin/echo-mcp" [];
   addedConfig "files" "/usr/bin/files-mcp" []].

Definition exampleDiscovery : list DiscoveryResult :=
  [mkDiscovery "echo" None; mkDiscovery "files" (Some "exec: not found")].

Definition startWrapper : DynamicWrapper :=
  mkWrapper ∅ None [exampleClient]
    [(RemoteTool.mk "greet" "echo_greet" "" "{}" "echo", exampleClient)]
    ∅ false "" [] [] 1.

End Management.

(** ** Package [integration]: two upstreams with one prefixed name *)

Module Collision.
Import mcp Wrapper Management.

(** Two upstreams for examples whose prefixed tool names meet: the
    server [a] offers the tool [b_c], every other server the tool [c];
    and a wrapper without servers. *)
Definition collidingTools (h : list Event) (c : MCPClient.t)
  : string + list ToolInfo.t :=
  inr [ToolInfo.mk (if decide (MCPClient.ServerName c = "a") then "b_c" else "c")
         "" "{}"].

Definition emptyWrapper : DynamicWrapper :=
  mkWrapper ∅ None [] [] ∅ false "" [] [] 0.

End Collision.

(** * Properties of the environment builder *)

Module EnvBuilderFacts.

Import EnvBuilder.

Section Maps.
Variable windows : bool.
Variable ToUpper : string -> string.
Variable Environ : list string.
Variable range : forall A : Type, gmap string A -> list (string * A).
Hypothesis range_perm :
  forall (A : Type) (m : gmap string A), range A m ≡ₚ map_to_list m.

Local Abbreviation norm k := (normalizeKey ToUpper k windows).
Local Abbreviation parentMapOf := (buildParentMap windows ToUpper Environ).
Local Abbreviation denyMapOf cfg proxy := (buildDenyMap ToUpper cfg proxy windows).

(** *** Ranging over a map *)

Lemma range_elem {A} (m : gmap string A) k v :
  (k, v) ∈ range A m <-> m !! k = Some v.
Proof. rewrite (range_perm A m). apply elem_of_map_to_list. Qed.

Lemma range_values_elem {A} (m : gmap string A) v :
  v ∈ (range A m).*2 <-> exists k, m !! k = Some v.
Proof.
  rewrite list_elem_of_fmap. split.
  - intros [[k v'] [-> Hin]]. exists k. by apply range_elem.
  - intros [k Hk]. exists (k, v). split; [done|]. by apply range_elem.
Qed.

(** *** The deny map *)

Lemma denyAll_denied isW keys m lk :
  denied (denyAll ToUpper isW keys m) lk = true <->
  denied m lk = true \/ exists k, k ∈ keys /\ normalizeKey ToUpper k isW = lk.
Proof.
  unfold denyAll. revert m. induction keys as [|k keys IH]; intros m; simpl.
  - split; [by left|]. intros [?|[k [Hk _]]]; [done|]. by apply elem_of_nil in Hk.
  - rewrite IH. unfold denied at 1.
    destruct (decide (normalizeKey ToUpper k isW = lk)) as [<-|Hne].
    + rewrite lookup_insert_eq. simpl. split; [|by left].
      intros _. right. exists k. split; [left|done].
    + rewrite lookup_insert_ne by done. fold (denied m lk). split.
      * intros [?|[k' [Hk' ?]]]; [by left|]. right. exists k'. split; [by right|done].
      * intros [?|[k' [Hk' ?]]]; [by left|].
        apply elem_of_cons in Hk' as [->|Hk']; [done|]. right. by exists k'.
Qed.

Lemma denyAll_nil isW m : denyAll ToUpper isW [] m = m.
Proof. reflexivity. Qed.

Lemma buildDenyMap_layers cfg proxy :
  denyMapOf cfg proxy =
  denyAll ToUpper windows
    (match proxy with Some ic => InheritConfig.Deny ic | None => [] end)
    (denyAll ToUpper windows
       (match ServerConfig.Inherit cfg with
        | Some ic => InheritConfig.Deny ic
        | None => []
        end)
       (denyAll ToUpper windows ImplicitDenylist ∅)).
Proof.
  unfold buildDenyMap. by destruct (ServerConfig.Inherit cfg), proxy.
Qed.

Lemma buildDenyMap_denied cfg proxy lk :
  denied (denyMapOf cfg proxy) lk = true <->
  exists k, k ∈ denyNames cfg proxy /\ norm k = lk.
Proof.
  rewrite buildDenyMap_layers, !denyAll_denied. unfold denyNames, denied.
  rewrite lookup_empty. split.
  - intros [[[?|(k&Hk&Hn)]|(k&Hk&Hn)]|(k&Hk&Hn)]; [done|..];
      exists k; (split; [|done]); rewrite !elem_of_app; auto.
  - intros (k&Hk&Hn). rewrite !elem_of_app in Hk.
    destruct Hk as [Hk|[Hk|Hk]]; eauto 6.
Qed.

(** *** The parent map *)

Lemma buildParentMap_is_Some lk :
  is_Some (parentMapOf !! lk) <->
  exists entry, entry ∈ Environ /\ (splitEnvEntry entry).1 <> "" /\
                norm (splitEnvEntry entry).1 = lk.
Proof.
  unfold buildParentMap.
  assert (G : forall l (m : gmap string string),
    is_Some (foldl (fun parentMap entry =>
           let '(key, value) := splitEnvEntry entry in
           if decide (key = "") then parentMap
           else <[norm key := value]> parentMap) m l !! lk) <->
    is_Some (m !! lk) \/
    exists entry, entry ∈ l /\ (splitEnvEntry entry).1 <> "" /\
                  norm (splitEnvEntry entry).1 = lk).
  { induction l as [|e l IH]; intros m; simpl.
    - split; [by left|]. intros [?|[e [He _]]]; [done|]. by apply elem_of_nil in He.
    - rewrite IH. destruct (splitEnvEntry e) as [k v] eqn:Hs.
      destruct (decide (k = "")) as [->|Hk].
      + split.
        * intros [?|[e' [He' ?]]]; [by left|]. right. exists e'. split; [by right|done].
        * intros [?|[e' [He' [Hne Hn]]]]; [by left|].
          apply elem_of_cons in He' as [->|He'].
          -- rewrite Hs in Hne. done.
          -- right. by exists e'.
      + destruct (decide (norm k = lk)) as [<-|Hne].
        * rewrite lookup_insert_eq. split; [|by left; eexists].
          intros _. right. exists e. rewrite Hs. split; [left|done].
        * rewrite lookup_insert_ne by done. split.
          -- intros [?|[e' [He' ?]]]; [by left|]. right. exists e'.
             split; [by right|done].
          -- intros [?|[e' [He' [Hne' Hn]]]]; [by left|].
             apply elem_of_cons in He' as [->|He'].
             ++ rewrite Hs in Hn. done.
             ++ right. by exists e'. }
  rewrite G. rewrite lookup_empty. split.
  - intros [[? ?]|?]; [done|done].
  - by right.
Qed.

End Maps.

Section Stages.
Variable windows : bool.
Variable ToUpper : string -> string.
Variable Environ : list string.

Local Abbreviation norm k := (normalizeKey ToUpper k windows).

(** *** [addVar] *)

Section AddVar.
Variable cfg : ServerConfig.t.
Variable proxy : option InheritConfig.t.
Variable denyMap : gmap string bool.
Variable parentMap : gmap string string.

Local Abbreviation add := (addVar windows ToUpper cfg proxy denyMap parentMap).
Local Abbreviation adds := (addVars windows ToUpper cfg proxy denyMap parentMap).

Lemma addVar_unfold m k ex :
  add m k ex =
  if letsThrough cfg proxy denyMap ex (norm k) then
    match parentMap !! norm k with
    | Some val => <[norm k := mkEntry k val]> m
    | None => m
    end
  else m.
Proof.
  unfold addVar, letsThrough, allowDeniedEither.
  destruct (denied denyMap (norm k)), ex,
    (ServerConfig.Inherit cfg) as [[? ? ? ? []]|], proxy as [[? ? ? ? []]|];
    simpl; reflexivity.
Qed.

Lemma addVar_other m k ex lk : norm k <> lk -> add m k ex !! lk = m !! lk.
Proof.
  intros Hne. rewrite addVar_unfold.
  destruct (letsThrough cfg proxy denyMap ex (norm k)); [|done].
  destruct (parentMap !! norm k); [|done]. by rewrite lookup_insert_ne.
Qed.

Lemma addVar_sound m k ex lk e :
  add m k ex !! lk = Some e ->
  m !! lk = Some e \/
  (key e = k /\ norm k = lk /\ parentMap !! lk = Some (value e) /\
   letsThrough cfg proxy denyMap ex lk = true).
Proof.
  rewrite addVar_unfold. destruct (letsThrough cfg proxy denyMap ex (norm k)) eqn:Ha; [|by left].
  destruct (parentMap !! norm k) as [val|] eqn:Hp; [|by left].
  destruct (decide (norm k = lk)) as [<-|Hne].
  - rewrite lookup_insert_eq. intros [= <-]. right. done.
  - rewrite lookup_insert_ne by done. by left.
Qed.

Lemma addVar_is_Some m k ex lk :
  is_Some (m !! lk) -> is_Some (add m k ex !! lk).
Proof.
  intros Hs. rewrite addVar_unfold. destruct (letsThrough cfg proxy denyMap ex (norm k)); [|done].
  destruct (parentMap !! norm k); [|done].
  destruct (decide (norm k = lk)) as [<-|Hne].
  - rewrite lookup_insert_eq. by eexists.
  - by rewrite lookup_insert_ne.
Qed.

Lemma addVar_hit m k ex v :
  parentMap !! norm k = Some v -> letsThrough cfg proxy denyMap ex (norm k) = true ->
  add m k ex !! norm k = Some (mkEntry k v).
Proof.
  intros Hp Ha. rewrite addVar_unfold, Ha, Hp. apply lookup_insert_eq.
Qed.

Lemma addVars_sound ex keys m lk e :
  adds ex keys m !! lk = Some e ->
  m !! lk = Some e \/
  (key e ∈ keys /\ norm (key e) = lk /\ parentMap !! lk = Some (value e) /\
   letsThrough cfg proxy denyMap ex lk = true).
Proof.
  unfold addVars. revert m. induction keys as [|k keys IH]; intros m; simpl.
  - by left.
  - intros H. apply IH in H as [H|(?&?&?&?)].
    + apply addVar_sound in H as [H|(<-&?&?&?)]; [by left|].
      right. split; [left|done].
    + right. split; [by right|done].
Qed.

Lemma addVars_is_Some ex keys m lk :
  is_Some (m !! lk) -> is_Some (adds ex keys m !! lk).
Proof.
  unfold addVars. revert m. induction keys as [|k keys IH]; intros m; simpl;
    [done|].
  intros H. apply IH. by apply addVar_is_Some.
Qed.

Lemma addVars_other ex keys m lk :
  (forall k, k ∈ keys -> norm k <> lk) -> adds ex keys m !! lk = m !! lk.
Proof.
  unfold addVars. revert m. induction keys as [|k keys IH]; intros m Hn; simpl;
    [done|].
  rewrite IH.
  - apply addVar_other, Hn. left.
  - intros k' Hk'. apply Hn. by right.
Qed.

Lemma addVars_blocked ex keys m lk :
  letsThrough cfg proxy denyMap ex lk = false -> adds ex keys m !! lk = m !! lk.
Proof.
  intros Ha. destruct (adds ex keys m !! lk) as [e|] eqn:He.
  - apply addVars_sound in He as [?|(?&?&?&?)]; [done|congruence].
  - destruct (m !! lk) eqn:Hm; [|done].
    assert (is_Some (adds ex keys m !! lk)) as [? ?]
      by (apply addVars_is_Some; by eexists). congruence.
Qed.

Lemma addVars_hit ex keys m k :
  k ∈ keys -> is_Some (parentMap !! norm k) -> letsThrough cfg proxy denyMap ex (norm k) = true ->
  is_Some (adds ex keys m !! norm k).
Proof.
  unfold addVars. revert m. induction keys as [|k' keys IH]; intros m Hin Hp Ha.
  - by apply elem_of_nil in Hin.
  - simpl. apply elem_of_cons in Hin as [->|Hin].
    + apply (addVars_is_Some ex keys). destruct Hp as [v Hp].
      erewrite addVar_hit by done. by eexists.
    + by apply IH.
Qed.
End AddVar.

End Stages.

Section Loops.
Variable windows : bool.
Variable ToUpper : string -> string.
Variable Environ : list string.

Local Abbreviation norm k := (normalizeKey ToUpper k windows).

(** *** The prefix loop *)

Lemma originalKeyOf_norm environ lk val :
  originalKeyOf windows ToUpper environ lk val <> "" ->
  norm (originalKeyOf windows ToUpper environ lk val) = lk.
Proof.
  induction environ as [|entry rest IH]; simpl; [done|].
  destruct (splitEnvEntry entry) as [k v].
  destruct (bool_decide (norm k = lk)) eqn:Hk; simpl; [|exact IH].
  destruct (bool_decide (v = val)); [|exact IH].
  intros _. by apply bool_decide_eq_true in Hk.
Qed.

Section Prefix.
Variable denyMap : gmap string bool.
Variable prefixes : list string.

Local Abbreviation ploop := (prefixLoop windows ToUpper Environ).
Local Abbreviation pstep := (prefixStep windows ToUpper Environ denyMap prefixes).

Lemma prefixLoop_other ps lk val m lk' :
  lk <> lk' -> ploop ps lk val m !! lk' = m !! lk'.
Proof.
  intros Hne. induction ps as [|p ps IH]; simpl; [done|].
  destruct (HasPrefix lk (norm p)); [|done].
  case_decide; [done|]. by rewrite lookup_insert_ne.
Qed.

Lemma prefixLoop_sound ps lk val m e :
  ploop ps lk val m !! lk = Some e ->
  m !! lk = Some e \/
  (value e = val /\ norm (key e) = lk /\
   exists p, p ∈ ps /\ HasPrefix lk (norm p) = true).
Proof.
  induction ps as [|p ps IH]; simpl; [by left|].
  destruct (HasPrefix lk (norm p)) eqn:Hp.
  - case_decide as Ho; [by left|].
    rewrite lookup_insert_eq. intros [= <-]. right. simpl.
    split; [done|]. split; [by apply originalKeyOf_norm|].
    exists p. split; [left|done].
  - intros H. apply IH in H as [?|(?&?&p'&?&?)]; [by left|].
    right. split; [done|]. split; [done|]. exists p'. split; [by right|done].
Qed.

Lemma prefixLoop_is_Some ps lk val m lk' :
  is_Some (m !! lk') -> is_Some (ploop ps lk val m !! lk').
Proof.
  intros Hs. induction ps as [|p ps IH]; simpl; [done|].
  destruct (HasPrefix lk (norm p)); [|done].
  case_decide; [done|].
  destruct (decide (lk = lk')) as [<-|Hne].
  - rewrite lookup_insert_eq. by eexists.
  - by rewrite lookup_insert_ne.
Qed.

Lemma prefixStep_sound m kv lk e :
  pstep m kv !! lk = Some e ->
  m !! lk = Some e \/
  (kv = (lk, value e) /\ denied denyMap lk = false /\ norm (key e) = lk /\
   prefixMatches windows ToUpper prefixes lk).
Proof.
  destruct kv as [lk' val]. unfold prefixStep.
  destruct (denied denyMap lk') eqn:Hd; [by left|].
  destruct (decide (lk' = lk)) as [->|Hne].
  - intros H. apply prefixLoop_sound in H as [?|(<-&?&?)]; [by left|].
    right. done.
  - rewrite prefixLoop_other by done. by left.
Qed.

Lemma prefixStep_is_Some m kv lk :
  is_Some (m !! lk) -> is_Some (pstep m kv !! lk).
Proof.
  destruct kv as [lk' val]. unfold prefixStep.
  destruct (denied denyMap lk'); [done|]. apply prefixLoop_is_Some.
Qed.

Lemma prefixStep_denied m kv lk :
  denied denyMap lk = true -> pstep m kv !! lk = m !! lk.
Proof.
  intros Hd. destruct kv as [lk' val]. unfold prefixStep.
  destruct (denied denyMap lk') eqn:Hd'; [done|].
  apply prefixLoop_other. congruence.
Qed.

Lemma prefixFold_sound l m lk e :
  foldl pstep m l !! lk = Some e ->
  m !! lk = Some e \/
  ((lk, value e) ∈ l /\ denied denyMap lk = false /\ norm (key e) = lk /\
   prefixMatches windows ToUpper prefixes lk).
Proof.
  revert m. induction l as [|kv l IH]; intros m; simpl; [by left|].
  intros H. apply IH in H as [H|(?&?&?&?)].
  - apply prefixStep_sound in H as [?|(->&?&?&?)]; [by left|].
    right. split; [left|done].
  - right. split; [by right|done].
Qed.

Lemma prefixFold_is_Some l m lk :
  is_Some (m !! lk) -> is_Some (foldl pstep m l !! lk).
Proof.
  revert m. induction l as [|kv l IH]; intros m; simpl; [done|].
  intros H. apply IH. by apply prefixStep_is_Some.
Qed.

Lemma prefixFold_denied l m lk :
  denied denyMap lk = true -> foldl pstep m l !! lk = m !! lk.
Proof.
  intros Hd. revert m. induction l as [|kv l IH]; intros m; simpl; [done|].
  rewrite IH. by apply prefixStep_denied.
Qed.
End Prefix.

Lemma prefixFold_no_prefix denyMap l m :
  foldl (prefixStep windows ToUpper Environ denyMap []) m l = m.
Proof.
  revert m. induction l as [|[lk val] l IH]; intros m; simpl; [done|].
  rewrite IH. by destruct (denied denyMap lk).
Qed.

(** *** The override loop *)

Local Abbreviation ostep := (overrideStep windows ToUpper).

Lemma overrideFold_sound l m lk e :
  foldl ostep m l !! lk = Some e ->
  m !! lk = Some e \/ ((key e, value e) ∈ l /\ norm (key e) = lk).
Proof.
  revert m. induction l as [|[k v] l IH]; intros m; simpl; [by left|].
  intros H. apply IH in H as [H|[? ?]].
  - destruct (decide (norm k = lk)) as [<-|Hne].
    + rewrite lookup_insert_eq in H. injection H as <-. right. simpl.
      split; [left|done].
    + rewrite lookup_insert_ne in H by done. by left.
  - right. split; [by right|done].
Qed.

Lemma overrideFold_cases l m lk e :
  foldl ostep m l !! lk = Some e ->
  ((key e, value e) ∈ l /\ norm (key e) = lk) \/
  (m !! lk = Some e /\ forall k v, (k, v) ∈ l -> norm k <> lk).
Proof.
  revert m. induction l as [|[k v] l IH]; intros m; simpl.
  - intros H. right. split; [done|]. intros k v Hin. by apply elem_of_nil in Hin.
  - intros H. apply IH in H as [[? ?]|[H Hno]].
    + left. split; [by right|done].
    + destruct (decide (norm k = lk)) as [<-|Hne].
      * rewrite lookup_insert_eq in H. injection H as <-. left. simpl.
        split; [left|done].
      * rewrite lookup_insert_ne in H by done. right. split; [done|].
        intros k' v' Hin. apply elem_of_cons in Hin as [[= -> ->]|Hin]; [done|].
        by apply (Hno k' v').
Qed.

Lemma overrideFold_is_Some l m lk :
  is_Some (m !! lk) -> is_Some (foldl ostep m l !! lk).
Proof.
  revert m. induction l as [|[k v] l IH]; intros m; simpl; [done|].
  intros H. apply IH. destruct (decide (norm k = lk)) as [<-|Hne].
  - rewrite lookup_insert_eq. by eexists.
  - by rewrite lookup_insert_ne.
Qed.

Lemma overrideFold_other l m lk :
  (forall k v, (k, v) ∈ l -> norm k <> lk) -> foldl ostep m l !! lk = m !! lk.
Proof.
  revert m. induction l as [|[k v] l IH]; intros m Hn; simpl; [done|].
  rewrite IH.
  - apply lookup_insert_ne. apply (Hn k v). left.
  - intros k' v' Hin. apply (Hn k' v'). by right.
Qed.

Lemma overrideFold_hit l m k v :
  (k, v) ∈ l -> is_Some (foldl ostep m l !! norm k).
Proof.
  revert m. induction l as [|[k' v'] l IH]; intros m Hin; simpl.
  - by apply elem_of_nil in Hin.
  - apply elem_of_cons in Hin as [[= <- <-]|Hin].
    + apply overrideFold_is_Some. rewrite lookup_insert_eq. by eexists.
    + by apply IH.
Qed.

(** When no other pair of the list has the same lookup key, the pair is
    what the loop leaves under that key. *)
Lemma overrideFold_exact l m k v :
  (k, v) ∈ l ->
  (forall k' v', (k', v') ∈ l -> norm k' = norm k -> k' = k /\ v' = v) ->
  foldl ostep m l !! norm k = Some (mkEntry k v).
Proof.
  revert m. induction l as [|[k' v'] l IH]; intros m Hin Huniq; simpl.
  - by apply elem_of_nil in Hin.
  - destruct (decide ((k, v) ∈ l)) as [Hl|Hl].
    + apply IH; [done|]. intros k2 v2 H2. apply Huniq. by right.
    + apply elem_of_cons in Hin as [[= <- <-]|Hin]; [|done].
      rewrite overrideFold_other.
      * apply lookup_insert_eq.
      * intros k2 v2 H2 Hn. destruct (Huniq k2 v2) as [-> ->]; [by right|done|].
        done.
Qed.

End Loops.

Section Whole.
Variable windows : bool.
Variable ToUpper : string -> string.
Variable Environ : list string.
Variable range : forall A : Type, gmap string A -> list (string * A).
Hypothesis range_perm :
  forall (A : Type) (m : gmap string A), range A m ≡ₚ map_to_list m.

Local Abbreviation norm k := (normalizeKey ToUpper k windows).
Local Abbreviation parentMapOf := (buildParentMap windows ToUpper Environ).
Local Abbreviation denyMapOf cfg proxy := (buildDenyMap ToUpper cfg proxy windows).
Local Abbreviation envMapOf cfg proxy :=
  (buildEnvMap windows ToUpper Environ range cfg proxy).
Local Abbreviation entriesOf cfg proxy :=
  (buildEntries windows ToUpper Environ range cfg proxy).
Local Abbreviation BuildEnv cfg proxy :=
  (BuildEnvironment windows ToUpper Environ range cfg proxy).
Local Abbreviation addsOf cfg proxy :=
  (addVars windows ToUpper cfg proxy (denyMapOf cfg proxy) parentMapOf).

Lemma buildEnvMap_stages cfg proxy :
  envMapOf cfg proxy =
  foldl (overrideStep windows ToUpper)
    (foldl (prefixStep windows ToUpper Environ (denyMapOf cfg proxy)
              (prefixNames cfg proxy))
       (listedMap windows ToUpper Environ cfg proxy) (range _ parentMapOf))
    (range _ (ServerConfig.Env cfg)).
Proof.
  unfold buildEnvMap, listedMap, tierNames, extraNames, prefixNames, addVars.
  cbv zeta. rewrite !foldl_app.
  destruct (tier2Enabled cfg proxy), (ServerConfig.Inherit cfg), proxy; reflexivity.
Qed.

Lemma letsThrough_plain cfg proxy dm lk :
  letsThrough cfg proxy dm false lk = true <-> denied dm lk = false.
Proof. unfold letsThrough. destruct (denied dm lk); simpl; naive_solver. Qed.

Lemma listedMap_sound cfg proxy lk e :
  listedMap windows ToUpper Environ cfg proxy !! lk = Some e ->
  norm (key e) = lk /\ origin windows ToUpper Environ cfg proxy lk e.
Proof.
  unfold listedMap. intros H.
  apply addVars_sound in H as [H|(Hin&?&?&?)].
  - apply addVars_sound in H as [H|(Hin&?&?&Ha)]; [by rewrite lookup_empty in H|].
    split; [done|]. apply letsThrough_plain in Ha.
    unfold tierNames in Hin. apply elem_of_app in Hin as [Hin|Hin].
    + by apply from_tier1.
    + destruct (tier2Enabled cfg proxy) eqn:Ht; [|by apply elem_of_nil in Hin].
      by apply from_tier2.
  - split; [done|]. by apply from_extra.
Qed.

Lemma buildEnvMap_sound cfg proxy lk e :
  envMapOf cfg proxy !! lk = Some e ->
  norm (key e) = lk /\ origin windows ToUpper Environ cfg proxy lk e.
Proof.
  rewrite buildEnvMap_stages. intros H.
  apply overrideFold_sound in H as [H|[Hin ?]].
  - apply prefixFold_sound in H as [H|(Hin&?&?&?)].
    + by apply listedMap_sound.
    + split; [done|]. apply from_prefix; [|done..].
      by apply (range_elem range range_perm) in Hin.
  - split; [done|]. apply from_override.
    by apply (range_elem range range_perm) in Hin.
Qed.

Lemma buildEnvMap_key cfg proxy lk e :
  envMapOf cfg proxy !! lk = Some e -> norm (key e) = lk.
Proof. intros H. by apply buildEnvMap_sound in H as [? _]. Qed.

Lemma buildEntries_elem cfg proxy e :
  e ∈ entriesOf cfg proxy <-> envMapOf cfg proxy !! norm (key e) = Some e.
Proof.
  unfold buildEntries. rewrite (range_values_elem range range_perm). split.
  - intros [k Hk]. by rewrite (buildEnvMap_key _ _ _ _ Hk).
  - intros H. by eexists.
Qed.

Lemma buildEntries_name cfg proxy lk :
  (exists e, e ∈ entriesOf cfg proxy /\ norm (key e) = lk) <->
  is_Some (envMapOf cfg proxy !! lk).
Proof.
  split.
  - intros [e [He <-]]. apply buildEntries_elem in He. by eexists.
  - intros [e He]. exists e. pose proof (buildEnvMap_key _ _ _ _ He) as Hk.
    split; [|done]. apply buildEntries_elem. by rewrite Hk.
Qed.

Lemma BuildEnvironment_elem cfg proxy e :
  e ∈ entriesOf cfg proxy -> render e ∈ BuildEnv cfg proxy.
Proof. intros H. unfold BuildEnvironment. apply list_elem_of_fmap. by exists e. Qed.

(** Entries of the earlier stages survive the later ones (possibly
    written over). *)
Lemma listedMap_survives cfg proxy lk :
  is_Some (listedMap windows ToUpper Environ cfg proxy !! lk) -> is_Some (envMapOf cfg proxy !! lk).
Proof.
  rewrite buildEnvMap_stages. intros H.
  by apply overrideFold_is_Some, prefixFold_is_Some.
Qed.

Lemma tier_included cfg proxy k :
  k ∈ tierNames cfg proxy -> is_Some (parentMapOf !! norm k) ->
  denied (denyMapOf cfg proxy) (norm k) = false ->
  is_Some (envMapOf cfg proxy !! norm k).
Proof.
  intros Hin Hp Hd. apply listedMap_survives. unfold listedMap.
  apply addVars_is_Some. apply addVars_hit; [done..|]. by apply letsThrough_plain.
Qed.

Lemma extra_included cfg proxy k :
  k ∈ extraNames cfg proxy -> is_Some (parentMapOf !! norm k) ->
  letsThrough cfg proxy (denyMapOf cfg proxy) true (norm k) = true ->
  is_Some (envMapOf cfg proxy !! norm k).
Proof.
  intros Hin Hp Ha. apply listedMap_survives. unfold listedMap.
  by apply addVars_hit.
Qed.

Lemma override_included cfg proxy k v :
  ServerConfig.Env cfg !! k = Some v -> is_Some (envMapOf cfg proxy !! norm k).
Proof.
  intros H. rewrite buildEnvMap_stages. apply (overrideFold_hit windows ToUpper _ _ k v).
  by apply (range_elem range range_perm).
Qed.

End Whole.

Section Claims.
Variable windows : bool.
Variable ToUpper : string -> string.
Variable Environ : list string.
Variable range : forall A : Type, gmap string A -> list (string * A).
Hypothesis range_perm :
  forall (A : Type) (m : gmap string A), range A m ≡ₚ map_to_list m.

Local Abbreviation norm k := (normalizeKey ToUpper k windows).
Local Abbreviation parentMapOf := (buildParentMap windows ToUpper Environ).
Local Abbreviation denyMapOf cfg proxy := (buildDenyMap ToUpper cfg proxy windows).
Local Abbreviation envMapOf cfg proxy :=
  (buildEnvMap windows ToUpper Environ range cfg proxy).
Local Abbreviation entriesOf cfg proxy :=
  (buildEntries windows ToUpper Environ range cfg proxy).
Local Abbreviation BuildEnv cfg proxy :=
  (BuildEnvironment windows ToUpper Environ range cfg proxy).

(** The entries behind the returned list: no two of them have the same
    name, names compared through [normalizeKey]. *)
Lemma buildEntries_one_entry_per_name cfg proxy :
  let entries := buildEntries windows ToUpper Environ range cfg proxy in
  BuildEnvironment windows ToUpper Environ range cfg proxy = render <$> entries /\
  NoDup ((fun e => normalizeKey ToUpper (key e) windows) <$> entries).
Proof.
  cbv beta zeta. split; [reflexivity|].
  unfold buildEntries. rewrite (range_perm _ (envMapOf cfg proxy)).
  rewrite <- list_fmap_compose.
  rewrite (list_fmap_ext _ fst).
  - apply NoDup_fst_map_to_list.
  - intros i [lk e] Hi. simpl.
    apply (buildEnvMap_key windows ToUpper Environ range range_perm cfg proxy).
    apply elem_of_map_to_list. by eapply list_elem_of_lookup_2.
Qed.


(** A denied name of an [extra] list that no override has: the map has
    an entry under its lookup key exactly when a flag
    [allow_denied_if_explicit] is set, at either level. *)
Lemma buildEntries_denied_extra cfg proxy name v :
  let lookupKey k := normalizeKey ToUpper k windows in
  let parentMap := buildParentMap windows ToUpper Environ in
  let denyMap := buildDenyMap ToUpper cfg proxy windows in
  let entries := buildEntries windows ToUpper Environ range cfg proxy in
  name ∈ extraNames cfg proxy ->
  parentMap !! lookupKey name = Some v ->
  denied denyMap (lookupKey name) = true ->
  (forall k, is_Some (ServerConfig.Env cfg !! k) -> lookupKey k <> lookupKey name) ->
  ((exists e, e ∈ entries /\ lookupKey (key e) = lookupKey name) <->
   allowDeniedEither cfg proxy = true) /\
  (allowDeniedEither cfg proxy = true ->
   exists k,
     k ∈ extraNames cfg proxy /\ lookupKey k = lookupKey name /\
     (k +:+ "=" +:+ v) ∈ BuildEnvironment windows ToUpper Environ range cfg proxy).
Proof.
  cbv beta zeta. intros Hin Hp Hd Hno.
  assert (Hmap : envMapOf cfg proxy !! norm name =
                 listedMap windows ToUpper Environ cfg proxy !! norm name).
  { rewrite (buildEnvMap_stages windows ToUpper Environ range).
    rewrite overrideFold_other.
    - by apply prefixFold_denied.
    - intros k' v' Hk'. apply (range_elem range range_perm) in Hk'.
      apply Hno. by eexists. }
  assert (Hadm : letsThrough cfg proxy (denyMapOf cfg proxy) true (norm name)
                 = allowDeniedEither cfg proxy).
  { unfold letsThrough. by rewrite Hd. }
  assert (Htier : letsThrough cfg proxy (denyMapOf cfg proxy) false (norm name) = false).
  { unfold letsThrough. by rewrite Hd. }
  assert (Hsome : allowDeniedEither cfg proxy = true ->
                  is_Some (listedMap windows ToUpper Environ cfg proxy !! norm name)).
  { intros Ha. unfold listedMap. apply addVars_hit; [done|by eexists|congruence]. }
  rewrite (buildEntries_name windows ToUpper Environ range range_perm), Hmap.
  split; [split; [|exact Hsome]|].
  - intros [e He]. destruct (allowDeniedEither cfg proxy); [done|].
    unfold listedMap in He.
    rewrite !addVars_blocked in He by congruence. by rewrite lookup_empty in He.
  - intros Ha. destruct (Hsome Ha) as [e He]. pose proof He as He'.
    unfold listedMap in He'.
    apply addVars_sound in He' as [He'|(Hk&Hn&Hv&_)].
    { rewrite addVars_blocked in He' by done. by rewrite lookup_empty in He'. }
    exists (key e). split; [done|]. split; [done|].
    assert (value e = v) as <- by congruence.
    change (key e +:+ "=" +:+ value e) with (render e).
    apply BuildEnvironment_elem.
    apply (buildEntries_elem windows ToUpper Environ range range_perm).
    rewrite Hn, Hmap. exact He.
Qed.

End Claims.

Section Modes.
Variable windows : bool.
Variable ToUpper : string -> string.
Variable Environ : list string.
Variable range : forall A : Type, gmap string A -> list (string * A).
Hypothesis range_perm :
  forall (A : Type) (m : gmap string A), range A m ≡ₚ map_to_list m.

Local Abbreviation norm k := (normalizeKey ToUpper k windows).
Local Abbreviation parentMapOf := (buildParentMap windows ToUpper Environ).
Local Abbreviation denyMapOf cfg proxy := (buildDenyMap ToUpper cfg proxy windows).
Local Abbreviation envMapOf cfg proxy :=
  (buildEnvMap windows ToUpper Environ range cfg proxy).
Local Abbreviation entriesOf cfg proxy :=
  (buildEntries windows ToUpper Environ range cfg proxy).
Local Abbreviation BuildEnv cfg proxy :=
  (BuildEnvironment windows ToUpper Environ range cfg proxy).

(** Mode [tier1] without [extra], [prefix] and proxy policy: the
    entries of the map, by lookup key and by origin. *)
Lemma buildEntries_tier1_exact cfg ic :
  ServerConfig.Inherit cfg = Some ic ->
  InheritConfig.Mode ic = InheritConfig.InheritTier1 ->
  InheritConfig.Extra ic = [] ->
  InheritConfig.Prefix ic = [] ->
  let lookupKey k := normalizeKey ToUpper k windows in
  let parentMap := buildParentMap windows ToUpper Environ in
  let denyMap := buildDenyMap ToUpper cfg None windows in
  let entries := buildEntries windows ToUpper Environ range cfg None in
  (forall lk,
      (exists e, e ∈ entries /\ lookupKey (key e) = lk) <->
      ((exists k, k ∈ Tier1Vars /\ lookupKey k = lk /\
                  is_Some (parentMap !! lk) /\ denied denyMap lk = false) \/
       (exists k, is_Some (ServerConfig.Env cfg !! k) /\ lookupKey k = lk))) /\
  (forall e,
      e ∈ entries ->
      ServerConfig.Env cfg !! key e = Some (value e) \/
      (key e ∈ Tier1Vars /\
       parentMap !! lookupKey (key e) = Some (value e) /\
       forall k, is_Some (ServerConfig.Env cfg !! k) -> lookupKey k <> lookupKey (key e))).
Proof.
  cbv beta zeta. intros Hic Hmode Hextra Hprefix.
  assert (Ht2 : tier2Enabled cfg None = false).
  { unfold tier2Enabled. rewrite Hic, Hmode. reflexivity. }
  assert (Hex : extraNames cfg None = []).
  { unfold extraNames. by rewrite Hic, Hextra. }
  assert (Hpx : prefixNames cfg None = []).
  { unfold prefixNames. by rewrite Hic, Hprefix. }
  assert (Hsound : forall lk e, envMapOf cfg None !! lk = Some e ->
            ServerConfig.Env cfg !! key e = Some (value e) \/
            (key e ∈ Tier1Vars /\ parentMapOf !! lk = Some (value e) /\
             denied (denyMapOf cfg None) lk = false)).
  { intros lk e He.
    apply (buildEnvMap_sound windows ToUpper Environ range range_perm) in He
      as [_ [H|H1 H2 H3|H0|H0|_ _ [p [Hp _]]]].
    - by left.
    - by right.
    - congruence.
    - rewrite Hex in H0. by apply elem_of_nil in H0.
    - rewrite Hpx in Hp. by apply elem_of_nil in Hp. }
  split.
  - intros lk.
    rewrite (buildEntries_name windows ToUpper Environ range range_perm). split.
    + intros [e He].
      pose proof (buildEnvMap_key windows ToUpper Environ range range_perm
                    _ _ _ _ He) as Hk.
      destruct (Hsound _ _ He) as [Ho|(Ht&Hp&Hd)].
      * right. exists (key e). split; [by eexists|done].
      * left. exists (key e). split; [done|]. split; [done|].
        split; [by eexists|done].
    + intros [(k&Hk&<-&Hp&Hd)|(k&[v Hv]&<-)].
      * apply (tier_included windows ToUpper Environ range); [|done..].
        unfold tierNames. apply elem_of_app. by left.
      * by apply (override_included windows ToUpper Environ range range_perm _ _ k v).
  - intros e He.
    apply (buildEntries_elem windows ToUpper Environ range range_perm) in He.
    pose proof He as He'.
    rewrite (buildEnvMap_stages windows ToUpper Environ range) in He'.
    apply overrideFold_cases in He' as [[Hin _]|[_ Hno]].
    + left. by apply (range_elem range range_perm) in Hin.
    + destruct (Hsound _ _ He) as [Ho|(Ht&Hp&Hd)]; [by left|].
      right. split; [done|]. split; [done|].
      intros k [v Hv]. apply (Hno k v). by apply (range_elem range range_perm).
Qed.

(** *** Modes *)






End Modes.

(** *** The claims on a concrete host *)

Lemma listingOrder_perm (A : Type) (m : gmap string A) :
  listingOrder A m ≡ₚ map_to_list m.
Proof. reflexivity. Defined.

(** C3, counterexample.  [HTTP_PROXY] is in the implicit denylist and in
    the parent environment, and is listed by the server's [extra] alone;
    [allow_denied_if_explicit] is false at the server level and true at
    the proxy level.  The variable is in the output, although the flag of
    the level that contributed it is not set. *)
Lemma denied_extra_allowed_by_other_level :
  let serverPolicy := examplePolicy "tier1" ["HTTP_PROXY"] [] false in
  let proxyPolicy := examplePolicy "tier1" [] [] true in
  ~ ("HTTP_PROXY=http://evil:1"
       ∈ BuildEnvironment false asciiToUpper exampleEnviron listingOrder
           (exampleServer ∅ (Some serverPolicy)) (Some proxyPolicy)
     <-> InheritConfig.AllowDeniedIfExplicit serverPolicy = true).
Proof.
  intros serverPolicy proxyPolicy [H _].
  assert (Hfalse : InheritConfig.AllowDeniedIfExplicit serverPolicy = true);
    [|discriminate Hfalse].
  apply H. apply list_elem_of_In. vm_compute. tauto.
Qed.







End EnvBuilderFacts.

(** * Properties of the dynamic wrapper *)

Module WrapperFacts.

Import mcp Wrapper.

(** Case analysis on a wrapper state: its fields by name, and whether
    recording is enabled. *)
Ltac open_wrapper w :=
  destruct w as [ds pi pc rg bt en fn rf ev nc]; simpl; destruct en; simpl.

(** *** Strings *)

Lemma append_String (a : ascii) (p q : string) :
  String a p +:+ q = String a (p +:+ q).
Proof. reflexivity. Qed.

Lemma append_empty (q : string) : "" +:+ q = q.
Proof. reflexivity. Qed.

Lemma string_prefix_spec (p s : string) :
  String.prefix p s = true <-> exists post, s = p +:+ post.
Proof.
  revert s. induction p as [|a p IH]; intros s.
  - split; [|by destruct s]. intros _. by exists s.
  - setoid_rewrite append_String. destruct s as [|b s]; simpl.
    + split; [done|]. intros [post H]. discriminate.
    + destruct (Ascii.ascii_dec a b) as [->|Hne].
      * rewrite IH. split; intros [post H]; exists post; congruence.
      * split; [done|]. intros [post H]. congruence.
Qed.

Lemma Contains_empty (sub : string) : Contains "" sub = String.prefix sub "" || false.
Proof. reflexivity. Qed.

Lemma Contains_String (a : ascii) (s sub : string) :
  Contains (String a s) sub = String.prefix sub (String a s) || Contains s sub.
Proof. reflexivity. Qed.

Lemma Contains_spec (s sub : string) :
  Contains s sub = true <-> exists pre post, s = pre +:+ sub +:+ post.
Proof.
  induction s as [|a s IH].
  - rewrite Contains_empty, orb_false_r, string_prefix_spec. split.
    + intros [post H]. by exists "", post.
    + intros [pre [post H]]. destruct pre; [by exists post|discriminate].
  - rewrite Contains_String, orb_true_iff, string_prefix_spec, IH. split.
    + intros [[post H]|[pre [post H]]].
      * by exists "", post.
      * exists (String a pre), post. rewrite append_String. by rewrite H.
    + intros [pre [post H]]. destruct pre as [|b pre].
      * left. by exists post.
      * right. exists pre, post. rewrite append_String in H. congruence.
Qed.

Section Recorder.
Variable Abs : string -> option string.
Variable Fields : string -> list string.
Variable ToLower : string -> string.
Variable range : forall A : Type, gmap string A -> list (string * A).
Variable Connect : list Event -> MCPClient.t -> option string.
Variable Initialize : list Event -> MCPClient.t -> option string.
Variable ListTools : list Event -> MCPClient.t -> string + list ToolInfo.t.
Variable CallTool :
  list Event -> MCPClient.t -> string -> gmap string Arg -> string + UpstreamResult.t.

Local Abbreviation metadata := (addRecordingMetadata Abs).
Local Abbreviation proxyHandler := (createDynamicProxyHandler Abs ToLower CallTool).
Local Abbreviation disconnect := (handleServerDisconnect Abs).
Local Abbreviation reconnect :=
  (handleServerReconnect Abs Fields range Connect Initialize ListTools).
Local Abbreviation add := (handleServerAdd Abs Fields Connect Initialize ListTools).

(** *** The recorder leaves the tables alone *)

Lemma recordMessage_tables d t n s m w :
  let w' := recordMessage d t n s m w in
  dynamicServers w' = dynamicServers w /\ proxyInherit w' = proxyInherit w /\
  proxyClients w' = proxyClients w /\ registry w' = registry w /\
  baseTools w' = baseTools w /\ recordEnabled w' = recordEnabled w /\
  recordFilename w' = recordFilename w /\ events w' = events w /\
  nextClient w' = nextClient w.
Proof. unfold recordMessage. by destruct w as [? ? ? ? ? [] ? ? ? ?]. Qed.

Lemma respond_result t s r w :
  (respond Abs t s r w).2 = (metadata w r, None).
Proof. reflexivity. Qed.

Lemma respond_tables t s r w :
  let w' := (respond Abs t s r w).1 in
  dynamicServers w' = dynamicServers w /\ proxyInherit w' = proxyInherit w /\
  proxyClients w' = proxyClients w /\ registry w' = registry w /\
  baseTools w' = baseTools w /\ recordEnabled w' = recordEnabled w /\
  recordFilename w' = recordFilename w /\ events w' = events w /\
  nextClient w' = nextClient w.
Proof. apply recordMessage_tables. Qed.

Lemma metadata_IsError w r : IsError (metadata w r) = IsError r.
Proof.
  unfold addRecordingMetadata. destruct (recordEnabled w); simpl; [|done].
  by case_decide.
Qed.

Lemma metadata_same w w' r :
  recordEnabled w' = recordEnabled w -> recordFilename w' = recordFilename w ->
  metadata w' r = metadata w r.
Proof. unfold addRecordingMetadata. by intros -> ->. Qed.

(** *** The proxy handler *)

Lemma proxyHandler_events serverName tool request w :
  events (proxyHandler serverName tool request w).1 =
  events w ++
    match currentClient serverName w with
    | Some c => [EvCallTool c tool (GetArguments request)]
    | None => []
    end.
Proof.
  unfold createDynamicProxyHandler, currentClient.
  open_wrapper w.
  all: destruct (ds !! serverName) as [info|]; simpl;
    [|by rewrite app_nil_r].
  all: destruct (DynamicServerInfo.IsConnected info),
         (DynamicServerInfo.Client info) as [c|]; simpl;
    try by rewrite app_nil_r.
  all: destruct (CallTool _ c tool _) as [err|res]; simpl; [|done].
  all: by destruct (isConnectionError ToLower err).
Qed.

Lemma proxyHandler_servers serverName tool request w :
  let w' := (proxyHandler serverName tool request w).1 in
  dynamicServers w' = dynamicServers w \/
  exists info err,
    dynamicServers w !! serverName = Some info /\
    dynamicServers w' =
      <[serverName :=
          DynamicServerInfo.mk (DynamicServerInfo.Name info)
            (DynamicServerInfo.Client info) (DynamicServerInfo.Tools info)
            (DynamicServerInfo.Config info) false err]> (dynamicServers w).
Proof.
  unfold createDynamicProxyHandler. cbv zeta.
  open_wrapper w.
  all: destruct (ds !! serverName) as [info|] eqn:Hinfo; simpl; [|by left].
  all: destruct (DynamicServerInfo.IsConnected info); simpl; [|by left].
  all: destruct (DynamicServerInfo.Client info) as [c|] eqn:Hc; simpl; [|by left].
  all: destruct (CallTool _ c tool _) as [err|res]; simpl; [|by left].
  all: destruct (isConnectionError ToLower err); simpl; [|by left].
  all: right; exists info, err; by rewrite Hc.
Qed.

End Recorder.

Section Classification.
Variable Abs : string -> option string.
Variable Fields : string -> list string.
Variable ToLower : string -> string.
Variable range : forall A : Type, gmap string A -> list (string * A).
Variable Connect : list Event -> MCPClient.t -> option string.
Variable Initialize : list Event -> MCPClient.t -> option string.
Variable ListTools : list Event -> MCPClient.t -> string + list ToolInfo.t.
Variable CallTool :
  list Event -> MCPClient.t -> string -> gmap string Arg -> string + UpstreamResult.t.

Local Abbreviation metadata := (addRecordingMetadata Abs).
Local Abbreviation proxyHandler := (createDynamicProxyHandler Abs ToLower CallTool).
Local Abbreviation disconnect := (handleServerDisconnect Abs).
Local Abbreviation reconnect :=
  (handleServerReconnect Abs Fields range Connect Initialize ListTools).
Local Abbreviation add := (handleServerAdd Abs Fields Connect Initialize ListTools).

Local Arguments addRecordingMetadata : simpl never.

Lemma isConnectionError_spec err :
  isConnectionError ToLower err = true <->
  exists kw, kw ∈ connectionKeywords /\
             exists pre post, ToLower err = pre +:+ kw +:+ post.
Proof.
  clear Abs Fields range Connect Initialize ListTools CallTool.
  unfold isConnectionError, connectionKeywords. cbv zeta.
  rewrite !orb_true_iff, !Contains_spec. split.
  - intros [[[[H|H]|H]|H]|H]; eexists; (split; [|exact H]);
      repeat (first [left | right]).
  - intros [kw [Hkw H]].
    repeat (apply elem_of_cons in Hkw as [->|Hkw]; [tauto|]).
    by apply elem_of_nil in Hkw.
Qed.

(** C7.  When [CallTool] on the upstream returns an error during a
    proxied call, the handler returns a tool result with [IsError] set
    and a [nil] Go error (no transport failure).  The error counts as a
    connection error exactly when its lower-cased text has one of
    [connection], [broken pipe], [eof], [closed], [timeout] as a
    substring.  If it does, the record of the upstream is marked
    disconnected with the error text as its last error, and the message
    tells the operator to use [server_reconnect]; if it does not, the
    table is unchanged and the message is the error text after the
    upstream name in square brackets. *)
Theorem proxy_call_error_classified serverName tool request w info c err :
  dynamicServers w !! serverName = Some info ->
  DynamicServerInfo.IsConnected info = true ->
  DynamicServerInfo.Client info = Some c ->
  CallTool (events w ++ [EvCallTool c tool (GetArguments request)]) c tool
    (GetArguments request) = inl err ->
  let out := createDynamicProxyHandler Abs ToLower CallTool serverName tool request w in
  out.2.2 = None /\
  IsError out.2.1 = true /\
  (isConnectionError ToLower err = true <->
   exists kw, kw ∈ connectionKeywords /\
              exists pre post, ToLower err = pre +:+ kw +:+ post) /\
  (isConnectionError ToLower err = true ->
   dynamicServers out.1 =
     <[serverName :=
         DynamicServerInfo.mk (DynamicServerInfo.Name info) (Some c)
           (DynamicServerInfo.Tools info) (DynamicServerInfo.Config info)
           false err]> (dynamicServers w) /\
   out.2.1 =
     addRecordingMetadata Abs w
       (NewToolResultError
          ("Server '" +:+ serverName +:+ "' connection failed: " +:+ err +:+
           newline +:+ "Use server_reconnect to restore connection."))) /\
  (isConnectionError ToLower err = false ->
   dynamicServers out.1 = dynamicServers w /\
   out.2.1 =
     addRecordingMetadata Abs w (NewToolResultError ("[" +:+ serverName +:+ "] " +:+ err))).
Proof.
  intros Hinfo Hconn Hc Hcall out. subst out.
  split; [|split; [|split; [apply isConnectionError_spec|]]].
  - unfold createDynamicProxyHandler.
    destruct w as [ds pi pc rg bt en fn rf ev nc]; simpl in Hinfo, Hcall |- *.
    destruct en; simpl; rewrite Hinfo, Hconn, Hc; simpl; rewrite Hcall;
      by destruct (isConnectionError ToLower err).
  - unfold createDynamicProxyHandler.
    destruct w as [ds pi pc rg bt en fn rf ev nc]; simpl in Hinfo, Hcall |- *.
    destruct en; simpl; rewrite Hinfo, Hconn, Hc; simpl; rewrite Hcall;
      destruct (isConnectionError ToLower err); simpl;
      by rewrite ?metadata_IsError.
  - unfold createDynamicProxyHandler.
    destruct w as [ds pi pc rg bt en fn rf ev nc]; simpl in Hinfo, Hcall |- *.
    split; intros Herr.
    all: destruct en; simpl; rewrite Hinfo, Hconn, Hc; simpl; rewrite Hcall, Herr;
      simpl; rewrite ?Hc; (split; [done|]); reflexivity.
Qed.

End Classification.

Section Disconnect.
Variable Abs : string -> option string.
Variable Fields : string -> list string.
Variable ToLower : string -> string.
Variable range : forall A : Type, gmap string A -> list (string * A).
Variable Connect : list Event -> MCPClient.t -> option string.
Variable Initialize : list Event -> MCPClient.t -> option string.
Variable ListTools : list Event -> MCPClient.t -> string + list ToolInfo.t.
Variable CallTool :
  list Event -> MCPClient.t -> string -> gmap string Arg -> string + UpstreamResult.t.

Local Abbreviation metadata := (addRecordingMetadata Abs).
Local Abbreviation proxyHandler := (createDynamicProxyHandler Abs ToLower CallTool).
Local Abbreviation disconnect := (handleServerDisconnect Abs).
Local Abbreviation reconnect :=
  (handleServerReconnect Abs Fields range Connect Initialize ListTools).
Local Abbreviation add := (handleServerAdd Abs Fields Connect Initialize ListTools).

Local Arguments addRecordingMetadata : simpl never.

(** *** [server_disconnect] *)

Lemma disconnect_connected request name w info :
  RequireString request "name" = Some name ->
  dynamicServers w !! name = Some info ->
  DynamicServerInfo.IsConnected info = true ->
  let out := disconnect request w in
  dynamicServers out.1 = <[name := disconnected info]> (dynamicServers w) /\
  events out.1 =
    events w ++ match DynamicServerInfo.Client info with
                | Some c => [EvClose c] | None => [] end /\
  nextClient out.1 = nextClient w /\
  recordEnabled out.1 = recordEnabled w /\
  recordFilename out.1 = recordFilename w /\
  registry out.1 = registry w /\ baseTools out.1 = baseTools w /\
  out.2 =
    (metadata w
       (NewToolResultText
          ("Disconnected server '" +:+ name +:+
           "'. Tools remain registered but will return errors.\nUse server_reconnect to restore with new binary/command.")),
     None).
Proof.
  intros Hname Hinfo Hconn out. subst out. unfold handleServerDisconnect.
  destruct w as [ds pi pc rg bt en fn rf ev nc]; simpl in *.
  destruct en; simpl; rewrite Hname; simpl; rewrite Hinfo, Hconn; simpl;
    destruct (DynamicServerInfo.Client info); simpl; rewrite ?app_nil_r;
    repeat split; reflexivity.
Qed.

Lemma disconnect_noop request name w info :
  RequireString request "name" = Some name ->
  dynamicServers w !! name = Some info ->
  DynamicServerInfo.IsConnected info = false ->
  let out := disconnect request w in
  sameTables w out.1 /\
  out.2 =
    (metadata w
       (NewToolResultText ("Server '" +:+ name +:+ "' is already disconnected")),
     None).
Proof.
  intros Hname Hinfo Hconn out. subst out. unfold handleServerDisconnect, sameTables.
  destruct w as [ds pi pc rg bt en fn rf ev nc]; simpl in *.
  destruct en; simpl; rewrite Hname; simpl; rewrite Hinfo, Hconn; simpl;
    repeat split; reflexivity.
Qed.

Lemma disconnect_unknown request name w :
  RequireString request "name" = Some name ->
  dynamicServers w !! name = None ->
  let out := disconnect request w in
  sameTables w out.1 /\
  out.2 =
    (metadata w (NewToolResultError ("Server '" +:+ name +:+ "' not found")), None).
Proof.
  intros Hname Hinfo out. subst out. unfold handleServerDisconnect, sameTables.
  destruct w as [ds pi pc rg bt en fn rf ev nc]; simpl in *.
  destruct en; simpl; rewrite Hname; simpl; rewrite Hinfo; simpl;
    repeat split; reflexivity.
Qed.

(** Two calls of [handleServerDisconnect] in a row, on the paths that
    return. *)
Lemma disconnect_twice request name w :
  RequireString request "name" = Some name ->
  let first := handleServerDisconnect Abs request w in
  let second := handleServerDisconnect Abs request first.1 in
  first.2.2 = None /\ second.2.2 = None /\
  match dynamicServers w !! name with
  | None =>
      IsError first.2.1 = true /\
      first.2.1 =
        addRecordingMetadata Abs w
          (NewToolResultError ("Server '" +:+ name +:+ "' not found")) /\
      sameTables w first.1
  | Some info =>
      DynamicServerInfo.IsConnected info = true ->
      (* the first call *)
      dynamicServers first.1 = <[name := disconnected info]> (dynamicServers w) /\
      events first.1 =
        events w ++ match DynamicServerInfo.Client info with
                    | Some c => [EvClose c] | None => [] end /\
      IsError first.2.1 = false /\
      (* the second call *)
      IsError second.2.1 = false /\
      second.2.1 =
        addRecordingMetadata Abs w
          (NewToolResultText ("Server '" +:+ name +:+ "' is already disconnected")) /\
      sameTables first.1 second.1
  end.
Proof.
  intros Hname first second.
  assert (Hnil : forall w0, (disconnect request w0).2.2 = None).
  { intros w0. unfold handleServerDisconnect.
    destruct w0 as [ds pi pc rg bt en fn rf ev nc]; simpl.
    destruct en; simpl; rewrite Hname; simpl;
      destruct (ds !! name) as [i|]; simpl; try done;
      by destruct (DynamicServerInfo.IsConnected i). }
  split; [apply Hnil|]. split; [apply Hnil|].
  destruct (dynamicServers w !! name) as [info|] eqn:Hinfo.
  - intros Hconn.
    destruct (disconnect_connected request name w info Hname Hinfo Hconn)
      as (Hs&He&Hn&Hen&Hfn&_&_&Hr).
    fold first in Hs, He, Hn, Hen, Hfn, Hr.
    assert (Hinfo1 : dynamicServers first.1 !! name = Some (disconnected info)).
    { rewrite Hs. apply lookup_insert_eq. }
    destruct (disconnect_noop request name first.1 (disconnected info) Hname Hinfo1
                eq_refl) as [Hsame Hr2].
    fold second in Hsame, Hr2.
    split; [done|]. split; [done|].
    split; [by rewrite Hr; simpl; rewrite metadata_IsError|].
    split; [by rewrite Hr2; simpl; rewrite metadata_IsError|].
    split; [|done]. rewrite Hr2. simpl. by apply metadata_same.
  - destruct (disconnect_unknown request name w Hname Hinfo) as [Hsame Hr].
    fold first in Hsame, Hr.
    split; [by rewrite Hr; simpl; rewrite metadata_IsError|]. split; [by rewrite Hr|done].
Qed.

End Disconnect.

Section Reconnect.
Variable Abs : string -> option string.
Variable Fields : string -> list string.
Variable ToLower : string -> string.
Variable range : forall A : Type, gmap string A -> list (string * A).
Variable Connect : list Event -> MCPClient.t -> option string.
Variable Initialize : list Event -> MCPClient.t -> option string.
Variable ListTools : list Event -> MCPClient.t -> string + list ToolInfo.t.
Variable CallTool :
  list Event -> MCPClient.t -> string -> gmap string Arg -> string + UpstreamResult.t.

Local Abbreviation metadata := (addRecordingMetadata Abs).
Local Abbreviation proxyHandler := (createDynamicProxyHandler Abs ToLower CallTool).
Local Abbreviation disconnect := (handleServerDisconnect Abs).
Local Abbreviation reconnect :=
  (handleServerReconnect Abs Fields range Connect Initialize ListTools).
Local Abbreviation add := (handleServerAdd Abs Fields Connect Initialize ListTools).

Local Arguments addRecordingMetadata : simpl never.

(** *** [server_reconnect] *)

Lemma reRegister_tables name c registered tools w :
  let w' := foldl (reRegisterOne name c registered) w tools in
  dynamicServers w' = dynamicServers w /\ events w' = events w /\
  proxyClients w' = proxyClients w /\ nextClient w' = nextClient w /\
  recordEnabled w' = recordEnabled w /\ recordFilename w' = recordFilename w /\
  recordFile w' = recordFile w /\ proxyInherit w' = proxyInherit w /\
  baseTools w' = baseTools w.
Proof.
  cbv zeta. revert w. induction tools as [|t tools IH]; intros w; simpl; [done|].
  destruct (IH (reRegisterOne name c registered w t)) as (->&->&->&->&->&->&->&->&->).
  unfold reRegisterOne. by case_decide.
Qed.

Lemma reconnect_success request name w info :
  RequireString request "name" = Some name ->
  Arguments request !! "command" = None ->
  dynamicServers w !! name = Some info ->
  let out := reconnect request w in
  IsError out.2.1 = false ->
  dynamicServers out.1 =
    <[name := DynamicServerInfo.mk (DynamicServerInfo.Name info)
                (Some (reconnectClient w info)) (DynamicServerInfo.Tools info)
                (DynamicServerInfo.Config info) true ""]> (dynamicServers w) /\
  exists rest, events out.1 = events w ++ EvNewStdioClient (reconnectClient w info) :: rest.
Proof.
  intros Hname Hcmd Hinfo out. subst out.
  unfold handleServerReconnect, GetString, reconnectClient. rewrite Hcmd.
  destruct w as [ds pi pc rg bt en fn rf ev nc]; simpl in *.
  destruct en; simpl; rewrite Hname; simpl; rewrite Hinfo; simpl.
  all: destruct (DynamicServerInfo.IsConnected info); simpl;
    [rewrite ?metadata_IsError; discriminate|].
  all: destruct (decide ("" <> "")) as [?|_]; [done|].
  all: destruct (decide (ServerConfig.Command (DynamicServerInfo.Config info) = ""));
    simpl; [rewrite ?metadata_IsError; discriminate|].
  all: destruct (decide (size (ServerConfig.Env (DynamicServerInfo.Config info)) = 0));
    simpl.
  all: repeat match goal with
       | |- context [match Connect ?h ?c with _ => _ end] =>
           destruct (Connect h c); simpl; [rewrite ?metadata_IsError; discriminate|]
       | |- context [match Initialize ?h ?c with _ => _ end] =>
           destruct (Initialize h c); simpl; [rewrite ?metadata_IsError; discriminate|]
       | |- context [match ListTools ?h ?c with _ => _ end] =>
           destruct (ListTools h c) as [?|tools]; simpl;
           [rewrite ?metadata_IsError; discriminate|]
       end.
  all: intros _.
  all: match goal with
       | |- context [foldl (reRegisterOne ?n ?c ?r) ?w0 ?ts] =>
           destruct (reRegister_tables n c r ts w0) as (Hs&He&_&_&Hen&_);
           cbv zeta in Hs, He, Hen; unfold respond, recordMessage;
           repeat (rewrite ?Hs, ?He, ?Hen; simpl)
       end.
  all: split; [apply insert_insert_eq|].
  all: rewrite <- ?app_assoc; simpl; by eexists.
Qed.

(** *** Calls after a reconnect *)

Lemma proxyCalls_trace name c calls w :
  (exists info, dynamicServers w !! name = Some info /\
                DynamicServerInfo.Client info = Some c) ->
  exists trace,
    events (proxyCalls Abs ToLower CallTool name calls w) = events w ++ trace /\
    forall e, e ∈ trace -> exists tool args, e = EvCallTool c tool args.
Proof.
  unfold proxyCalls. revert w.
  induction calls as [|[tool request] calls IH]; intros w Hinv; simpl.
  - exists []. split; [by rewrite app_nil_r|]. intros e He. by apply elem_of_nil in He.
  - destruct (IH (proxyHandler name tool request w).1) as (trace&Htrace&Hall).
    { destruct Hinv as (info&Hinfo&Hc).
      destruct (proxyHandler_servers Abs ToLower CallTool name tool request w)
        as [->|(info'&err&Hinfo'&->)].
      - by exists info.
      - rewrite Hinfo in Hinfo'. injection Hinfo' as <-.
        eexists. split; [apply lookup_insert_eq|done]. }
    rewrite Htrace, proxyHandler_events, <- app_assoc.
    eexists. split; [reflexivity|].
    intros e He. apply elem_of_app in He as [He|He]; [|by apply Hall].
    destruct Hinv as (info&Hinfo&Hc). unfold currentClient in He.
    rewrite Hinfo, Hc in He.
    destruct (DynamicServerInfo.IsConnected info).
    + apply list_elem_of_singleton in He as ->. by eexists _, _.
    + by apply elem_of_nil in He.
Qed.

Lemma proxyHandler_quiet serverName tool request w :
  (forall h c tool args err,
      CallTool h c tool args = inl err -> isConnectionError ToLower err = false) ->
  dynamicServers (proxyHandler serverName tool request w).1 = dynamicServers w.
Proof.
  intros Hquiet. unfold createDynamicProxyHandler.
  open_wrapper w.
  all: destruct (ds !! serverName) as [info|]; simpl; [|done].
  all: destruct (DynamicServerInfo.IsConnected info); simpl; [|done].
  all: destruct (DynamicServerInfo.Client info) as [c|]; simpl; [|done].
  all: destruct (CallTool _ c tool _) as [err|res] eqn:Hcall; simpl; [|done].
  all: by rewrite (Hquiet _ _ _ _ _ Hcall).
Qed.

(** While the upstream answers without a connection error, each call of
    a sequence reaches the current client. *)
Lemma proxyCalls_connected name c calls w :
  (forall h c tool args err,
      CallTool h c tool args = inl err -> isConnectionError ToLower err = false) ->
  currentClient name w = Some c ->
  events (proxyCalls Abs ToLower CallTool name calls w) =
  events w ++ ((fun call => EvCallTool c call.1 (GetArguments call.2)) <$> calls).
Proof.
  intros Hquiet. unfold proxyCalls. revert w.
  induction calls as [|[tool request] calls IH]; intros w Hcur; simpl.
  - by rewrite app_nil_r.
  - rewrite IH.
    + rewrite proxyHandler_events, Hcur, <- app_assoc. reflexivity.
    + unfold currentClient. rewrite proxyHandler_quiet by done. exact Hcur.
Qed.

(** The closure of [createDynamicProxyHandler] after a disconnect and
    a successful reconnect without [command]: it calls the client that
    the reconnect created. *)
Lemma reconnect_redirects_handler name reqD reqR w info cOld :
  RequireString reqD "name" = Some name ->
  RequireString reqR "name" = Some name ->
  Arguments reqR !! "command" = None ->
  dynamicServers w !! name = Some info ->
  DynamicServerInfo.IsConnected info = true ->
  DynamicServerInfo.Client info = Some cOld ->
  MCPClient.id cOld < nextClient w ->
  let handler := createDynamicProxyHandler Abs ToLower CallTool in
  let w1 := (handleServerDisconnect Abs reqD w).1 in
  let out :=
    handleServerReconnect Abs Fields range Connect Initialize ListTools reqR w1 in
  let w2 := out.1 in
  IsError out.2.1 = false ->
  (forall serverName tool request w',
      events (handler serverName tool request w').1 =
      events w' ++ match currentClient serverName w' with
                   | Some c => [EvCallTool c tool (GetArguments request)]
                   | None => []
                   end) /\
  exists cNew,
    cNew <> cOld /\
    (exists rest, events w2 = events w1 ++ EvNewStdioClient cNew :: rest) /\
    currentClient name w2 = Some cNew /\
    (forall tool request,
        events (handler name tool request w2).1 =
        events w2 ++ [EvCallTool cNew tool (GetArguments request)]) /\
    (forall calls, exists trace,
        events (proxyCalls Abs ToLower CallTool name calls w2) = events w2 ++ trace /\
        forall e, e ∈ trace -> exists tool args, e = EvCallTool cNew tool args) /\
    ((forall h c tool args err,
         CallTool h c tool args = inl err -> isConnectionError ToLower err = false) ->
     forall calls,
       events (proxyCalls Abs ToLower CallTool name calls w2) =
       events w2 ++
       ((fun call => EvCallTool cNew call.1 (GetArguments call.2)) <$> calls)).
Proof.
  intros HnameD HnameR Hcmd Hinfo Hconn Hold Hfresh handler w1 out w2 Hok.
  subst handler.
  split; [intros; apply proxyHandler_events|].
  destruct (disconnect_connected Abs reqD name w info HnameD Hinfo Hconn)
    as (Hs1&_&Hn1&_).
  fold w1 in Hs1, Hn1.
  assert (Hinfo1 : dynamicServers w1 !! name = Some (disconnected info)).
  { rewrite Hs1. apply lookup_insert_eq. }
  destruct (reconnect_success reqR name w1 (disconnected info) HnameR Hcmd Hinfo1 Hok)
    as (Hs2&Hev2).
  fold out in Hs2, Hev2. fold w2 in Hs2, Hev2.
  set (cNew := reconnectClient w1 (disconnected info)) in *.
  assert (Hcur : currentClient name w2 = Some cNew).
  { unfold currentClient. rewrite Hs2, lookup_insert_eq. reflexivity. }
  exists cNew. split; [|split; [done|split; [done|split; [|split]]]].
  - intros Heq. rewrite <- Heq in Hfresh. unfold cNew, reconnectClient in Hfresh.
    simpl in Hfresh. lia.
  - intros tool request. by rewrite proxyHandler_events, Hcur.
  - intros calls. apply proxyCalls_trace. eexists. split.
    + rewrite Hs2. apply lookup_insert_eq.
    + reflexivity.
  - intros Hquiet calls. by apply proxyCalls_connected.
Qed.

End Reconnect.

Section Responses.
Variable Abs : string -> option string.
Variable Fields : string -> list string.
Variable ToLower : string -> string.
Variable range : forall A : Type, gmap string A -> list (string * A).
Variable Connect : list Event -> MCPClient.t -> option string.
Variable Initialize : list Event -> MCPClient.t -> option string.
Variable ListTools : list Event -> MCPClient.t -> string + list ToolInfo.t.
Variable CallTool :
  list Event -> MCPClient.t -> string -> gmap string Arg -> string + UpstreamResult.t.

Local Abbreviation metadata := (addRecordingMetadata Abs).
Local Abbreviation proxyHandler := (createDynamicProxyHandler Abs ToLower CallTool).
Local Abbreviation disconnect := (handleServerDisconnect Abs).
Local Abbreviation reconnect :=
  (handleServerReconnect Abs Fields range Connect Initialize ListTools).
Local Abbreviation add := (handleServerAdd Abs Fields Connect Initialize ListTools).

Local Arguments addRecordingMetadata : simpl never.

(** *** [server_add] *)

Lemma register_recorder name c tools acc :
  let acc' := foldl (registerOne name c) acc tools in
  recordEnabled acc'.1.1 = recordEnabled acc.1.1 /\
  recordFilename acc'.1.1 = recordFilename acc.1.1.
Proof.
  cbv zeta. revert acc. induction tools as [|t tools IH]; intros acc; simpl; [done|].
  destruct (IH (registerOne name c acc t)) as [-> ->].
  by destruct acc as [[w ts] n].
Qed.

(** C9, amended.  [server_add] never returns a Go error, and whenever it
    returns an error result the upstream table, the registry, the
    bound tools and the client list are as before.  With a name that
    is already in the table the result is the error
    [Server '<name>' already exists], no client is created and no
    call is made on any client.  With a new name and a command: if
    [Connect] fails the handler returns [Failed to connect] and makes
    no further call on the client (no [Close]); if [Initialize] fails
    it closes the client and returns [Failed to initialize]; if
    [ListTools] fails it closes the client and returns
    [Failed to list tools]; otherwise the result is a success. *)
Theorem server_add_failures request w :
  let out := handleServerAdd Abs Fields Connect Initialize ListTools request w in
  out.2.2 = None /\
  (IsError out.2.1 = true ->
   dynamicServers out.1 = dynamicServers w /\ registry out.1 = registry w /\
   baseTools out.1 = baseTools w /\ proxyClients out.1 = proxyClients w) /\
  (forall name,
      RequireString request "name" = Some name ->
      is_Some (RequireString request "command") ->
      is_Some (dynamicServers w !! name) ->
      out.2.1 =
        addRecordingMetadata Abs w
          (NewToolResultError ("Server '" +:+ name +:+ "' already exists")) /\
      events out.1 = events w /\ nextClient out.1 = nextClient w) /\
  (forall name command command0 args,
      RequireString request "name" = Some name ->
      RequireString request "command" = Some command ->
      dynamicServers w !! name = None ->
      Fields command = command0 :: args ->
      let c := MCPClient.mk (nextClient w) name command0 args in
      let spawn :=
        [EvNewStdioClient c;
         EvSetInheritConfig c
           (ServerConfig.ResolveInheritConfig (addedConfig name command0 args)
              (proxyInherit w));
         EvConnect c] in
      match Connect (events w ++ spawn) c with
      | Some err =>
          out.2.1 =
            addRecordingMetadata Abs w
              (NewToolResultError ("Failed to connect: " +:+ err)) /\
          events out.1 = events w ++ spawn
      | None =>
      match Initialize (events w ++ spawn ++ [EvInitialize c]) c with
      | Some err =>
          out.2.1 =
            addRecordingMetadata Abs w
              (NewToolResultError ("Failed to initialize: " +:+ err)) /\
          events out.1 = events w ++ spawn ++ [EvInitialize c; EvClose c]
      | None =>
      match ListTools (events w ++ spawn ++ [EvInitialize c; EvListTools c]) c with
      | inl err =>
          out.2.1 =
            addRecordingMetadata Abs w
              (NewToolResultError ("Failed to list tools: " +:+ err)) /\
          events out.1 = events w ++ spawn ++ [EvInitialize c; EvListTools c; EvClose c]
      | inr tools => IsError out.2.1 = false
      end end end).
Proof.
  intros out. subst out. unfold handleServerAdd.
  destruct w as [ds pi pc rg bt en fn rf ev nc]; simpl.
  split; [|split; [|split]].
  - destruct en; simpl.
    all: destruct (RequireString request "name") as [name|]; simpl; [|done].
    all: destruct (RequireString request "command") as [command|]; simpl; [|done].
    all: case_decide; simpl; [done|].
    all: destruct (Fields command) as [|command0 args]; simpl; [done|].
    all: destruct (Connect _ _); simpl; [done|].
    all: destruct (Initialize _ _); simpl; [done|].
    all: destruct (ListTools _ _) as [?|tools]; simpl; [done|].
    all: by destruct (foldl _ _ tools) as [[w' ts] n].
  - destruct en; simpl.
    all: destruct (RequireString request "name") as [name|]; simpl; [|done].
    all: destruct (RequireString request "command") as [command|]; simpl; [|done].
    all: case_decide; simpl; [done|].
    all: destruct (Fields command) as [|command0 args]; simpl; [done|].
    all: destruct (Connect _ _); simpl; [done|].
    all: destruct (Initialize _ _); simpl; [done|].
    all: destruct (ListTools _ _) as [?|tools]; simpl; [done|].
    all: destruct (foldl _ _ tools) as [[w' ts] n]; simpl.
    all: rewrite ?metadata_IsError; discriminate.
  - intros name Hname [command Hcommand] Hexists.
    destruct en; simpl; rewrite Hname, Hcommand; simpl.
    all: case_decide; [|done]; simpl.
    all: split; [reflexivity|done].
  - intros name command command0 args Hname Hcommand Hnone Hfields.
    destruct en; simpl; rewrite Hname, Hcommand; simpl.
    all: case_decide as Hex; [rewrite Hnone in Hex; by destruct Hex|].
    all: rewrite Hfields; simpl.
    all: rewrite <- ?app_assoc; simpl.
    all: destruct (Connect _ _); simpl;
      [rewrite <- ?app_assoc; simpl; split; reflexivity|].
    all: destruct (Initialize _ _); simpl;
      [rewrite <- ?app_assoc; simpl; split; reflexivity|].
    all: destruct (ListTools _ _) as [?|tools]; simpl;
      [rewrite <- ?app_assoc; simpl; split; reflexivity|].
    all: destruct (foldl _ _ tools) as [[w' ts] n]; simpl.
    all: by rewrite ?metadata_IsError.
Qed.

(** *** Recording metadata *)

Lemma transformResult_plain r :
  exists msg, transformResult r = plain msg (UpstreamResult.IsError r).
Proof.
  unfold transformResult, plain.
  destruct (UpstreamResult.IsError r), (UpstreamResult.Content r); by eexists.
Qed.

Lemma add_responds request w :
  exists msg b, (add request w).2.1 = metadata w (plain msg b).
Proof.
  unfold handleServerAdd.
  open_wrapper w.
  all: destruct (RequireString request "name") as [name|]; simpl;
    [|by eexists _, _].
  all: destruct (RequireString request "command") as [command|]; simpl;
    [|by eexists _, _].
  all: case_decide; simpl; [by eexists _, _|].
  all: destruct (Fields command) as [|command0 args]; simpl; [by eexists _, _|].
  all: destruct (Connect _ _); simpl; [by eexists _, _|].
  all: destruct (Initialize _ _); simpl; [by eexists _, _|].
  all: destruct (ListTools _ _) as [?|tools]; simpl; [by eexists _, _|].
  all: match goal with
       | |- context [foldl (registerOne ?n ?c) ?acc ?tl] =>
           destruct (register_recorder n c tl acc) as [Hen Hfn];
           cbv zeta in Hen, Hfn;
           destruct (foldl (registerOne n c) acc tl) as [[w' ts] k]
       end; simpl in *.
  all: eexists _, _; apply metadata_same; simpl; assumption.
Qed.

Lemma disconnect_responds request w :
  exists msg b, (disconnect request w).2.1 = metadata w (plain msg b).
Proof.
  unfold handleServerDisconnect.
  open_wrapper w.
  all: destruct (RequireString request "name") as [name|]; simpl;
    [|by eexists _, _].
  all: destruct (ds !! name) as [info|]; simpl; [|by eexists _, _].
  all: destruct (DynamicServerInfo.IsConnected info); simpl; [|by eexists _, _].
  all: destruct (DynamicServerInfo.Client info); simpl; by eexists _, _.
Qed.

Lemma reconnect_responds request w :
  exists msg b, (reconnect request w).2.1 = metadata w (plain msg b).
Proof.
  unfold handleServerReconnect.
  open_wrapper w.
  all: destruct (RequireString request "name") as [name|]; simpl;
    [|by eexists _, _].
  all: destruct (ds !! name) as [info|]; simpl; [|by eexists _, _].
  all: destruct (DynamicServerInfo.IsConnected info); simpl; [by eexists _, _|].
  all: destruct (decide (GetString request "command" "" <> "")); simpl.
  all: try (destruct (Fields _) as [|command0 args]; simpl; [by eexists _, _|]).
  all: try (destruct (decide (ServerConfig.Command _ = "")); simpl;
            [by eexists _, _|]).
  all: try (destruct (decide (size _ = 0)); simpl).
  all: destruct (Connect _ _); simpl; [by eexists _, _|].
  all: destruct (Initialize _ _); simpl; [by eexists _, _|].
  all: destruct (ListTools _ _) as [?|tools]; simpl; [by eexists _, _|].
  all: match goal with
       | |- context [foldl (reRegisterOne ?n ?c ?r) ?w0 ?tl] =>
           destruct (reRegister_tables n c r tl w0) as (_&_&_&_&Hen&Hfn&_);
           cbv zeta in Hen, Hfn
       end.
  all: eexists _, _; apply metadata_same; simpl; assumption.
Qed.

Lemma proxy_responds serverName tool request w :
  exists msg b, (proxyHandler serverName tool request w).2.1 = metadata w (plain msg b).
Proof.
  unfold createDynamicProxyHandler.
  open_wrapper w.
  all: destruct (ds !! serverName) as [info|]; simpl; [|by eexists _, _].
  all: destruct (DynamicServerInfo.IsConnected info),
         (DynamicServerInfo.Client info) as [c|]; simpl; try by eexists _, _.
  all: destruct (CallTool _ c tool _) as [err|res]; simpl.
  all: try (destruct (isConnectionError ToLower err); simpl; by eexists _, _).
  all: destruct (transformResult_plain res) as [msg ->]; by eexists _, _.
Qed.

Lemma append_assoc (a b c : string) : (a +:+ b) +:+ c = a +:+ (b +:+ c).
Proof. induction a as [|x a IH]; [done|]. by rewrite !append_String, IH. Qed.

Lemma metadataText_path filename absPath :
  exists pre post, metadataText filename absPath = pre +:+ absPath +:+ post.
Proof.
  unfold metadataText.
  exists (camera +:+ " Recording: " +:+ filename +:+ newline +:+ "   Full path: ").
  eexists. by rewrite !append_assoc.
Qed.

(** C2, amended.  Every response of a handler, successful or not, is one
    text item followed, when recording is enabled (with a file name),
    by exactly one more item, the last, whose text is the recording
    banner and includes the absolute path of the recording file;
    while recording is disabled the response is the one text item
    alone. *)
Theorem responses_carry_recording_metadata h request w :
  let result :=
    (runHandler Abs Fields ToLower range Connect Initialize ListTools CallTool
       h request w).2.1 in
  let absPath := absoluteOr Abs (recordFilename w) in
  exists msg,
    (recordEnabled w = true -> recordFilename w <> "" ->
     Content result =
       [NewTextContent msg;
        NewTextContent (metadataText (recordFilename w) absPath)]) /\
    (recordEnabled w = false \/ recordFilename w = "" ->
     Content result = [NewTextContent msg]) /\
    (exists pre post,
        metadataText (recordFilename w) absPath = pre +:+ absPath +:+ post).
Proof.
  intros result absPath.
  assert (exists msg b, result = metadata w (plain msg b)) as (msg&b&Hr).
  { subst result. destruct h as [| | |[serverName tool]]; simpl.
    - apply add_responds.
    - apply disconnect_responds.
    - apply reconnect_responds.
    - apply proxy_responds. }
  exists msg. rewrite Hr. unfold addRecordingMetadata. subst absPath.
  split; [|split; [|apply metadataText_path]].
  - intros -> Hfn. simpl.
    destruct (decide (recordFilename w = "")); [done|reflexivity].
  - intros [->|Hfn]; simpl; [done|]. destruct (recordEnabled w); simpl; [|done].
    destruct (decide (recordFilename w = "")); [reflexivity|done].
Qed.

End Responses.

(** *** The claims on a concrete host *)

(** C2, counterexample.  Recording is enabled and the upstream call fails:
    the response has [IsError] set and still ends with the metadata
    item. *)
Lemma error_response_carries_metadata :
  let result :=
    (createDynamicProxyHandler exampleAbs asciiToLower (callFails "bad arguments")
       "echo" "greet" (exampleRequest []) (exampleWrapper true)).2.1 in
  IsError result = true /\
  Content result =
    [NewTextContent "[echo] bad arguments";
     NewTextContent (metadataText "session.jsonl" "/work/session.jsonl")].
Proof. vm_compute. split; reflexivity. Qed.

(** C2 on a proxied call that fails with a connection error, recording
    enabled. *)
Lemma responses_carry_recording_metadata_witness :
  let result :=
    (runHandler exampleAbs exampleFields asciiToLower EnvBuilder.listingOrder succeeds
       succeeds exampleTools (callFails "read: EOF")
       (ProxyTool (mkHandler "echo" "greet")) (exampleRequest []) (exampleWrapper true)).2.1 in
  exists msg,
    recordEnabled (exampleWrapper true) = true /\
    recordFilename (exampleWrapper true) <> "" /\
    Content result =
      [NewTextContent msg;
       NewTextContent (metadataText "session.jsonl" "/work/session.jsonl")].
Proof.
  intros result.
  destruct (responses_carry_recording_metadata exampleAbs exampleFields asciiToLower
              EnvBuilder.listingOrder succeeds succeeds exampleTools
              (callFails "read: EOF") (ProxyTool (mkHandler "echo" "greet"))
              (exampleRequest []) (exampleWrapper true)) as (msg & Hon & _ & _).
  exists msg. split; [reflexivity|]. split; [discriminate|].
  apply Hon; [reflexivity|discriminate].
Defined.

(** C7 on an upstream whose call fails with a broken pipe. *)
Lemma proxy_call_error_classified_witness :
  let w := exampleWrapper false in
  let request := exampleRequest [("who", "a")] in
  let out :=
    createDynamicProxyHandler exampleAbs asciiToLower (callFails "write: Broken pipe")
      "echo" "greet" request w in
  dynamicServers w !! "echo" = Some exampleInfo /\
  DynamicServerInfo.IsConnected exampleInfo = true /\
  DynamicServerInfo.Client exampleInfo = Some exampleClient /\
  callFails "write: Broken pipe"
    (events w ++ [EvCallTool exampleClient "greet" (GetArguments request)])
    exampleClient "greet" (GetArguments request) = inl "write: Broken pipe" /\
  out.2.2 = None /\ IsError out.2.1 = true.
Proof.
  intros w request out.
  assert (H1 : dynamicServers w !! "echo" = Some exampleInfo) by reflexivity.
  split; [exact H1|]. do 3 (split; [reflexivity|]).
  pose proof (proxy_call_error_classified exampleAbs asciiToLower
                (callFails "write: Broken pipe") "echo" "greet" request w exampleInfo
                exampleClient "write: Broken pipe" H1 eq_refl eq_refl eq_refl) as H.
  exact (conj (proj1 H) (proj1 (proj2 H))).
Defined.



(** C9, counterexample.  [Connect] fails in [server_add]: the client was
    created and [Connect] was called on it, the result is an error, and
    [Close] is not called on the client. *)
Lemma server_add_connect_failure_not_closed :
  let request := exampleRequest [("name", "fs"); ("command", "/bin/fs-mcp")] in
  let out :=
    handleServerAdd exampleAbs exampleFields (fails "exec: not found") succeeds
      exampleTools request (exampleWrapper false) in
  let c := MCPClient.mk 1 "fs" "/bin/fs-mcp" [] in
  IsError out.2.1 = true /\
  EvNewStdioClient c ∈ events out.1 /\
  EvConnect c ∈ events out.1 /\
  ~ EvClose c ∈ events out.1.
Proof.
  intros request out c. split; [reflexivity|].
  rewrite !list_elem_of_In. vm_compute. intuition discriminate.
Qed.

(** C9 when [Initialize] fails. *)
Lemma server_add_failures_witness :
  let request := exampleRequest [("name", "fs"); ("command", "/bin/fs-mcp")] in
  let w := exampleWrapper false in
  let out :=
    handleServerAdd exampleAbs exampleFields succeeds (fails "no handshake")
      exampleTools request w in
  IsError out.2.1 = true /\
  dynamicServers out.1 = dynamicServers w /\ registry out.1 = registry w /\
  baseTools out.1 = baseTools w /\ proxyClients out.1 = proxyClients w.
Proof.
  intros request w out.
  assert (H1 : IsError out.2.1 = true) by reflexivity.
  split; [exact H1|].
  exact (proj1 (proj2 (server_add_failures exampleAbs exampleFields succeeds
                         (fails "no handshake") exampleTools request w)) H1).
Defined.

End WrapperFacts.

(** * Further properties of the environment builder *)

Module SplitFacts.

Import EnvBuilder.

Lemma index_equals_cons (c : ascii) (s : string) :
  String.index 0 "=" (String c s) =
  if Ascii.ascii_dec "=" c then Some 0
  else match String.index 0 "=" s with Some n => Some (S n) | None => None end.
Proof.
  change (String.index 0 "=" (String c s)) with
    (if (if Ascii.ascii_dec "=" c then String.prefix "" s else false)
     then Some 0
     else match String.index 0 "=" s with Some n => Some (S n) | None => None end).
  destruct (Ascii.ascii_dec "=" c); [|reflexivity]. by destruct s.
Qed.

Lemma substring_all (s : string) : String.substring 0 (String.length s) s = s.
Proof. induction s as [|c s IH]; simpl; [done|]. by rewrite IH. Qed.

(** What [strings.Index(entry, "=")] finds: the text before the first
    equals sign and the text after it. *)
Lemma index_equals_split (entry : string) (idx : nat) :
  String.index 0 "=" entry = Some idx ->
  entry = String.substring 0 idx entry +:+ "=" +:+
          String.substring (idx + 1) (String.length entry - (idx + 1)) entry /\
  String.length (String.substring 0 idx entry) = idx /\
  String.index 0 "=" (String.substring 0 idx entry) = None.
Proof.
  revert idx. induction entry as [|c s IH]; intros idx.
  - simpl. discriminate.
  - rewrite index_equals_cons. destruct (Ascii.ascii_dec "=" c) as [<-|Hne].
    + intros [= <-]. simpl. rewrite Nat.sub_0_r, substring_all. done.
    + destruct (String.index 0 "=" s) as [n|] eqn:Hs; [|discriminate].
      intros [= <-]. destruct (IH n eq_refl) as (He & Hl & Hi).
      change (String.substring 0 (S n) (String c s))
        with (String c (String.substring 0 n s)).
      split; [|split].
      * simpl. rewrite WrapperFacts.append_String. by rewrite <- He.
      * simpl. by rewrite Hl.
      * rewrite index_equals_cons. destruct (Ascii.ascii_dec "=" c); [done|].
        by rewrite Hi.
Qed.

Lemma index_equals_append (k v : string) :
  String.index 0 "=" k = None ->
  String.index 0 "=" (k +:+ "=" +:+ v) = Some (String.length k).
Proof.
  induction k as [|c k IH].
  - intros _. change ("" +:+ "=" +:+ v) with (String "=" v).
    rewrite index_equals_cons. by destruct (Ascii.ascii_dec "=" "=").
  - rewrite index_equals_cons. destruct (Ascii.ascii_dec "=" c) as [|Hne]; [done|].
    destruct (String.index 0 "=" k) eqn:Hk; [done|]. intros _.
    rewrite WrapperFacts.append_String, index_equals_cons.
    destruct (Ascii.ascii_dec "=" c); [done|]. by rewrite IH.
Qed.

Lemma substring_append_left (k r : string) :
  String.substring 0 (String.length k) (k +:+ r) = k.
Proof.
  induction k as [|c k IH].
  - by destruct r.
  - rewrite WrapperFacts.append_String. simpl. by rewrite IH.
Qed.

Lemma substring_append_right (k v : string) :
  String.substring (String.length k + 1)
    (String.length (k +:+ "=" +:+ v) - (String.length k + 1)) (k +:+ "=" +:+ v) = v.
Proof.
  induction k as [|c k IH].
  - simpl. rewrite Nat.sub_0_r. apply substring_all.
  - rewrite WrapperFacts.append_String. simpl. exact IH.
Qed.

Lemma splitEnvEntry_inverse entry k v :
  splitEnvEntry entry = (k, v) -> k <> "" ->
  entry = k +:+ "=" +:+ v /\ String.index 0 "=" k = None.
Proof.
  unfold splitEnvEntry.
  destruct (String.index 0 "=" entry) as [[|n]|] eqn:Hi.
  - intros [= <- <-]. done.
  - intros [= <- <-] _. destruct (index_equals_split entry (S n) Hi) as (He & _ & Hn).
    split; [exact He|exact Hn].
  - intros [= <- <-]. done.
Qed.

(** X1.  [splitEnvEntry] inverts the rendering of a variable: for a
    non-empty name without an equals sign and any value (which may
    contain equals signs), splitting [name=value] gives back the name
    and the value; and whenever [splitEnvEntry] returns a non-empty name,
    the entry is that name, an equals sign and the returned value, and
    the name has no equals sign. *)
Theorem splitEnvEntry_round_trip :
  (forall k v, k <> "" -> String.index 0 "=" k = None ->
     splitEnvEntry (k +:+ "=" +:+ v) = (k, v)) /\
  (forall entry k v, splitEnvEntry entry = (k, v) -> k <> "" ->
     entry = k +:+ "=" +:+ v /\ String.index 0 "=" k = None).
Proof.
  split.
  - intros k v Hk Hno. unfold splitEnvEntry.
    rewrite (index_equals_append k v Hno).
    destruct k as [|c k]; [done|].
    change (String.length (String c k)) with (S (String.length k)) at 1 2.
    cbv iota beta.
    change (S (String.length k)) with (String.length (String c k)).
    by rewrite substring_append_left, substring_append_right.
  - apply splitEnvEntry_inverse.
Qed.

(** X2.  The malformed entries: [splitEnvEntry] returns an empty name
    exactly for an entry without an equals sign and for an entry that
    starts with one, and then the value is empty too, whatever follows
    the equals sign. *)
Theorem splitEnvEntry_malformed (entry : string) :
  ((splitEnvEntry entry).1 = "" <->
   String.index 0 "=" entry = None \/ exists rest, entry = "=" +:+ rest) /\
  ((splitEnvEntry entry).1 = "" -> (splitEnvEntry entry).2 = "").
Proof.
  unfold splitEnvEntry.
  destruct (String.index 0 "=" entry) as [[|n]|] eqn:Hi; simpl.
  - split; [|done]. split; [|done]. intros _. right.
    destruct entry as [|c s]; [discriminate|].
    rewrite index_equals_cons in Hi. destruct (Ascii.ascii_dec "=" c) as [<-|].
    + by exists s.
    + by destruct (String.index 0 "=" s).
  - destruct (index_equals_split entry (S n) Hi) as (He & Hl & Hn).
    assert (Hne : String.substring 0 (S n) entry <> "").
    { intros H0. rewrite H0 in Hl. discriminate. }
    split; [|done]. split; [done|]. intros [?|[rest ->]]; [done|].
    rewrite WrapperFacts.append_String, index_equals_cons in Hi.
    destruct (Ascii.ascii_dec "=" "="); [discriminate|done].
  - split; [|done]. split; [by left|done].
Qed.

(** The round trip on a value with equals signs. *)
Lemma splitEnvEntry_round_trip_witness :
  splitEnvEntry "OPTS=a=b" = ("OPTS", "a=b") /\
  "OPTS=a=b" = "OPTS" +:+ "=" +:+ "a=b".
Proof.
  split.
  - apply (proj1 splitEnvEntry_round_trip "OPTS" "a=b"); [discriminate|reflexivity].
  - apply (proj2 splitEnvEntry_round_trip "OPTS=a=b" "OPTS" "a=b");
      [reflexivity|discriminate].
Defined.

(** An entry that starts with an equals sign. *)
Lemma splitEnvEntry_malformed_witness :
  (splitEnvEntry "=C:=C:\\dir").1 = "" /\ (splitEnvEntry "=C:=C:\\dir").2 = "".
Proof.
  assert (H : (splitEnvEntry "=C:=C:\\dir").1 = "").
  { apply (proj1 (splitEnvEntry_malformed "=C:=C:\\dir")). right. by eexists. }
  split; [exact H|]. exact (proj2 (splitEnvEntry_malformed "=C:=C:\\dir") H).
Defined.

End SplitFacts.

Module EnvBuilderMore.

Import EnvBuilder EnvBuilderFacts SplitFacts EnvMerge.

(** A left fold over a list does not depend on the order of the list
    when the steps for any two of its elements commute. *)
Lemma foldl_permutation_commute {A B} (f : B -> A -> B) (l1 l2 : list A) :
  l1 ≡ₚ l2 ->
  (forall x y b, x ∈ l1 -> y ∈ l1 -> f (f b x) y = f (f b y) x) ->
  forall b, foldl f b l1 = foldl f b l2.
Proof.
  induction 1 as [|x l1 l2 Hp IH|x y l|l1 l2 l3 Hp1 IH1 Hp2 IH2]; intros Hc b.
  - done.
  - simpl. apply IH. intros x' y' b' Hx Hy. apply Hc; by right.
  - simpl. f_equal. apply Hc; [left|right; left].
  - rewrite IH1 by done. apply IH2.
    intros x y b' Hx Hy. apply Hc; by rewrite Hp1.
Qed.

Section Parent.
Variable windows : bool.
Variable ToUpper : string -> string.

Local Abbreviation norm k := (normalizeKey ToUpper k windows).

(** The loop over [os.Environ()] that [buildParentMap] and
    [MergeEnvironment] share, for any use [g] of the name and the value
    of an entry: the last well-formed entry of a name decides. *)
Lemma environFold_lookup {V} (g : string -> string -> V) l (m : gmap string V) lk x :
  foldl (fun acc entry =>
           let '(key, value) := splitEnvEntry entry in
           if decide (key = "") then acc
           else <[norm key := g key value]> acc) m l !! lk = Some x <->
  (exists pre entry post,
      l = pre ++ entry :: post /\
      (splitEnvEntry entry).1 <> "" /\ norm (splitEnvEntry entry).1 = lk /\
      g (splitEnvEntry entry).1 (splitEnvEntry entry).2 = x /\
      forall e, e ∈ post -> (splitEnvEntry e).1 <> "" ->
                norm (splitEnvEntry e).1 <> lk) \/
  (m !! lk = Some x /\
   forall e, e ∈ l -> (splitEnvEntry e).1 <> "" -> norm (splitEnvEntry e).1 <> lk).
Proof.
  revert m. induction l as [|e l IH]; intros m.
  - simpl. split.
    + intros H. right. split; [done|]. intros e He. by apply elem_of_nil in He.
    + intros [(pre&entry&post&Hl&_)|[H _]]; [|done]. by destruct pre.
  - simpl. rewrite IH. clear IH. destruct (splitEnvEntry e) as [k val] eqn:Hs. split.
    + intros [(pre&entry&post&->&H)|[Hm Hno]].
      * left. exists (e :: pre), entry, post. done.
      * destruct (decide (k = "")) as [->|Hk].
        -- right. split; [done|]. intros e' He'.
           apply elem_of_cons in He' as [->|He']; [by rewrite Hs|by apply Hno].
        -- destruct (decide (norm k = lk)) as [Hn|Hn].
           ++ rewrite <- Hn, lookup_insert_eq in Hm. injection Hm as <-.
              left. exists [], e, l. rewrite Hs. simpl. done.
           ++ rewrite lookup_insert_ne in Hm by done. right. split; [done|].
              intros e' He'. apply elem_of_cons in He' as [->|He'];
                [by rewrite Hs|by apply Hno].
    + intros [(pre&entry&post&Hl&Hne&Hn&Hg&Hno)|[Hm Hno]].
      * destruct pre as [|e' pre]; simpl in Hl; injection Hl as -> ->.
        -- right. rewrite Hs in Hne, Hn, Hg. simpl in *.
           destruct (decide (k = "")); [done|]. rewrite <- Hn, lookup_insert_eq.
           split; [by rewrite Hg|]. by rewrite Hn.
        -- left. by exists pre, entry, post.
      * right. split.
        -- destruct (decide (k = "")) as [|Hk]; [done|].
           rewrite lookup_insert_ne; [done|].
           pose proof (Hno e) as H. rewrite Hs in H. apply H; [left|done].
        -- intros e' He'. apply Hno. by right.
Qed.

End Parent.

Section More.
Variable windows : bool.
Variable ToUpper : string -> string.
Variable Environ : list string.
Variable range : forall A : Type, gmap string A -> list (string * A).
Hypothesis range_perm :
  forall (A : Type) (m : gmap string A), range A m ≡ₚ map_to_list m.

Local Abbreviation norm k := (normalizeKey ToUpper k windows).
Local Abbreviation parentMapOf := (buildParentMap windows ToUpper Environ).
Local Abbreviation denyMapOf cfg proxy := (buildDenyMap ToUpper cfg proxy windows).
Local Abbreviation envMapOf cfg proxy :=
  (buildEnvMap windows ToUpper Environ range cfg proxy).
Local Abbreviation entriesOf cfg proxy :=
  (buildEntries windows ToUpper Environ range cfg proxy).

Lemma buildParentMap_last_wins_aux lk v :
  parentMapOf !! lk = Some v ->
  exists pre entry post,
    Environ = pre ++ entry :: post /\
    (splitEnvEntry entry).1 <> "" /\
    norm (splitEnvEntry entry).1 = lk /\
    (splitEnvEntry entry).2 = v /\
    forall e, e ∈ post -> (splitEnvEntry e).1 <> "" -> norm (splitEnvEntry e).1 <> lk.
Proof.
  clear range range_perm.
  unfold buildParentMap. cbv zeta.
  rewrite (environFold_lookup windows ToUpper (fun _ value => value)).
  rewrite lookup_empty. by intros [?|[? _]].
Qed.

(** X3.  [buildParentMap]: the map has a value under a lookup key exactly
    when the parent environment has a well-formed entry of that name
    (compared through [normalizeKey]), and the value is that of the last
    such entry: a later entry of a name replaces an earlier one, and
    malformed entries are skipped. *)
Theorem buildParentMap_last_wins lk v :
  buildParentMap windows ToUpper Environ !! lk = Some v <->
  exists pre entry post,
    Environ = pre ++ entry :: post /\
    (splitEnvEntry entry).1 <> "" /\
    normalizeKey ToUpper (splitEnvEntry entry).1 windows = lk /\
    (splitEnvEntry entry).2 = v /\
    forall e, e ∈ post -> (splitEnvEntry e).1 <> "" ->
              normalizeKey ToUpper (splitEnvEntry e).1 windows <> lk.
Proof.
  clear range range_perm.
  unfold buildParentMap. cbv zeta.
  rewrite (environFold_lookup windows ToUpper (fun _ value => value)).
  rewrite lookup_empty. split; [|by left]. by intros [?|[? _]].
Qed.

(** X4.  [buildDenyMap]: a lookup key is denied exactly when it is the
    normalized form of a name of the implicit denylist, of the server's
    [deny] list or of the proxy's [deny] list; no configuration takes a
    name of the implicit denylist out of the map. *)
Theorem buildDenyMap_exact cfg proxy lk :
  denied (buildDenyMap ToUpper cfg proxy windows) lk = true <->
  exists k,
    normalizeKey ToUpper k windows = lk /\
    (k ∈ ImplicitDenylist \/
     (exists ic, ServerConfig.Inherit cfg = Some ic /\ k ∈ InheritConfig.Deny ic) \/
     (exists ic, proxy = Some ic /\ k ∈ InheritConfig.Deny ic)).
Proof.
  clear Environ range range_perm.
  rewrite buildDenyMap_denied. unfold denyNames. split.
  - intros (k&Hk&Hn). exists k. split; [done|].
    rewrite !elem_of_app in Hk. destruct Hk as [Hk|[Hk|Hk]].
    + by left.
    + right. left. destruct (ServerConfig.Inherit cfg) as [ic|]; [by exists ic|].
      by apply elem_of_nil in Hk.
    + right. right. destruct proxy as [ic|]; [by exists ic|].
      by apply elem_of_nil in Hk.
  - intros (k&Hn&Hk). exists k. split; [|done]. rewrite !elem_of_app.
    destruct Hk as [Hk|[(ic&->&Hk)|(ic&->&Hk)]]; auto.
Qed.

(** A denied lookup key that no override and no allowed [extra] item
    has is the key of no entry of the map. *)
Lemma buildEntries_denied_stays_out cfg proxy lk :
  denied (buildDenyMap ToUpper cfg proxy windows) lk = true ->
  (forall k, is_Some (ServerConfig.Env cfg !! k) ->
             normalizeKey ToUpper k windows <> lk) ->
  (allowDeniedEither cfg proxy = false \/
   forall k, k ∈ extraNames cfg proxy -> normalizeKey ToUpper k windows <> lk) ->
  forall e, e ∈ buildEntries windows ToUpper Environ range cfg proxy ->
            normalizeKey ToUpper (key e) windows <> lk.
Proof.
  intros Hd Hno Hex e He Hk.
  apply (buildEntries_elem windows ToUpper Environ range range_perm) in He.
  rewrite Hk in He.
  apply (buildEnvMap_sound windows ToUpper Environ range range_perm) in He
    as [_ [H|_ _ H|_ _ _ H|Hin _ Ha|_ H _]]; try congruence.
  - apply (Hno (key e)); [by eexists|done].
  - unfold letsThrough in Ha. rewrite Hd in Ha. simpl in Ha.
    destruct Hex as [Hex|Hex]; [congruence|]. by apply (Hex (key e)).
Qed.

(** The value of an entry of the map: that of the override of its
    name, else the parent's. *)
Lemma buildEntries_values cfg proxy e :
  e ∈ buildEntries windows ToUpper Environ range cfg proxy ->
  ServerConfig.Env cfg !! key e = Some (value e) \/
  (buildParentMap windows ToUpper Environ !! normalizeKey ToUpper (key e) windows
     = Some (value e) /\
   forall k, is_Some (ServerConfig.Env cfg !! k) ->
             normalizeKey ToUpper k windows <> normalizeKey ToUpper (key e) windows).
Proof.
  intros He.
  apply (buildEntries_elem windows ToUpper Environ range range_perm) in He.
  pose proof He as He'.
  rewrite (buildEnvMap_stages windows ToUpper Environ range) in He'.
  apply overrideFold_cases in He' as [[Hin _]|[_ Hno]].
  - left. by apply (range_elem range range_perm) in Hin.
  - apply (buildEnvMap_sound windows ToUpper Environ range range_perm) in He
      as [_ [H|_ H _|_ _ H _|_ H _|H _ _]]; [by left|right..].
    all: split; [done|]; intros k [v Hv]; apply (Hno k v);
      by apply (range_elem range range_perm).
Qed.


(** *** The prefix stage, entry by entry *)

Lemma originalKeyOf_found environ lk val k :
  (exists entry, entry ∈ environ /\ splitEnvEntry entry = (k, val)) ->
  normalizeKey ToUpper k windows = lk ->
  normalizeKey ToUpper "" windows <> lk ->
  originalKeyOf windows ToUpper environ lk val <> "" /\
  exists entry, entry ∈ environ /\
    splitEnvEntry entry = (originalKeyOf windows ToUpper environ lk val, val).
Proof.
  clear range range_perm.
  intros (entry&Hin&Hs) Hn Hempty. induction environ as [|e rest IH].
  - by apply elem_of_nil in Hin.
  - simpl. destruct (splitEnvEntry e) as [k' v'] eqn:Hs'.
    destruct (bool_decide (norm k' = lk)) eqn:Hk; simpl.
    + destruct (bool_decide (v' = val)) eqn:Hv.
      * apply bool_decide_eq_true in Hk, Hv. subst v'. split.
        -- intros ->. done.
        -- exists e. split; [left|done].
      * apply elem_of_cons in Hin as [->|Hin].
        { rewrite Hs in Hs'. injection Hs' as <- <-.
          by apply bool_decide_eq_false in Hv. }
        destruct (IH Hin) as [Hne (e'&He'&Hs'')]. split; [done|].
        exists e'. split; [by right|done].
    + apply elem_of_cons in Hin as [->|Hin].
      { rewrite Hs in Hs'. injection Hs' as <- <-.
        by apply bool_decide_eq_false in Hk. }
      destruct (IH Hin) as [Hne (e'&He'&Hs'')]. split; [done|].
      exists e'. split; [by right|done].
Qed.

Lemma prefixLoop_match ps lk val m :
  prefixMatches windows ToUpper ps lk ->
  originalKeyOf windows ToUpper Environ lk val <> "" ->
  prefixLoop windows ToUpper Environ ps lk val m !! lk =
  Some (mkEntry (originalKeyOf windows ToUpper Environ lk val) val).
Proof.
  clear range range_perm.
  intros (p&Hp&Hm) Hne. induction ps as [|p' ps IH].
  - by apply elem_of_nil in Hp.
  - simpl. destruct (HasPrefix lk (norm p')) eqn:Hp'.
    + case_decide; [done|]. apply lookup_insert_eq.
    + apply IH. apply elem_of_cons in Hp as [->|Hp]; [congruence|done].
Qed.

Lemma prefixFold_other denyMap prefixes l m lk :
  (forall v, (lk, v) ∉ l) ->
  foldl (prefixStep windows ToUpper Environ denyMap prefixes) m l !! lk = m !! lk.
Proof.
  clear range range_perm.
  revert m. induction l as [|[lk' v'] l IH]; intros m Hno; simpl; [done|].
  rewrite IH.
  - unfold prefixStep. destruct (denied denyMap lk'); [done|].
    apply prefixLoop_other. intros ->. apply (Hno v'). left.
  - intros v Hv. apply (Hno v). by right.
Qed.

Lemma prefixFold_hit denyMap prefixes l m lk val :
  (lk, val) ∈ l -> (forall v, (lk, v) ∈ l -> v = val) ->
  denied denyMap lk = false ->
  prefixMatches windows ToUpper prefixes lk ->
  originalKeyOf windows ToUpper Environ lk val <> "" ->
  foldl (prefixStep windows ToUpper Environ denyMap prefixes) m l !! lk =
  Some (mkEntry (originalKeyOf windows ToUpper Environ lk val) val).
Proof.
  clear range range_perm.
  intros Hin Huniq Hd Hm Hne. revert m Hin Huniq.
  induction l as [|[lk' v'] l IH]; intros m Hin Huniq.
  - by apply elem_of_nil in Hin.
  - simpl. destruct (decide ((lk, val) ∈ l)) as [Hl|Hl].
    + apply IH; [done|]. intros v Hv. apply Huniq. by right.
    + apply elem_of_cons in Hin as [[= <- <-]|Hin]; [|done].
      rewrite prefixFold_other.
      * unfold prefixStep. rewrite Hd. by apply prefixLoop_match.
      * intros v Hv. assert (v = val) as -> by (apply Huniq; by right). done.
Qed.

(** The prefix loop writes at most the entry of its own lookup key, and
    which entry does not depend on the map. *)
Lemma prefixLoop_normal ps lk val m :
  prefixLoop windows ToUpper Environ ps lk val m =
  match prefixLoop windows ToUpper Environ ps lk val ∅ !! lk with
  | Some e => <[lk := e]> m
  | None => m
  end.
Proof.
  clear range range_perm.
  induction ps as [|p ps IH]; simpl; [by rewrite lookup_empty|].
  destruct (HasPrefix lk (norm p)); [|exact IH].
  case_decide; [by rewrite lookup_empty|]. by rewrite lookup_insert_eq.
Qed.

Lemma prefixStep_commute denyMap prefixes m kv1 kv2 :
  kv1.1 <> kv2.1 ->
  prefixStep windows ToUpper Environ denyMap prefixes
    (prefixStep windows ToUpper Environ denyMap prefixes m kv1) kv2 =
  prefixStep windows ToUpper Environ denyMap prefixes
    (prefixStep windows ToUpper Environ denyMap prefixes m kv2) kv1.
Proof.
  clear range range_perm.
  destruct kv1 as [lk1 v1], kv2 as [lk2 v2]. simpl. intros Hne.
  unfold prefixStep.
  destruct (denied denyMap lk1), (denied denyMap lk2); try done.
  rewrite (prefixLoop_normal prefixes lk2 v2 (prefixLoop _ _ _ _ lk1 v1 m)).
  rewrite (prefixLoop_normal prefixes lk1 v1 (prefixLoop _ _ _ _ lk2 v2 m)).
  rewrite (prefixLoop_normal prefixes lk1 v1 m), (prefixLoop_normal prefixes lk2 v2 m).
  destruct (prefixLoop _ _ _ prefixes lk1 v1 ∅ !! lk1),
    (prefixLoop _ _ _ prefixes lk2 v2 ∅ !! lk2); try done.
  by apply insert_insert_ne.
Qed.

Lemma range_functional {A} (m : gmap string A) k v1 v2 :
  (k, v1) ∈ range A m -> (k, v2) ∈ range A m -> v1 = v2.
Proof.
  rewrite !(range_elem range range_perm). congruence.
Qed.

(** X7.  A parent variable that a configured prefix matches.  When the
    parent environment has a value for a lookup key that is not denied,
    a [prefix] item of the server or of the proxy starts the key, no
    override has that name, and the key is not that of the empty name,
    then a line of the parent environment of that name and value is in
    the output of [BuildEnvironment], spelled as the parent spells it. *)
Theorem BuildEnvironment_prefix_included cfg proxy lk val :
  buildParentMap windows ToUpper Environ !! lk = Some val ->
  denied (buildDenyMap ToUpper cfg proxy windows) lk = false ->
  prefixMatches windows ToUpper (prefixNames cfg proxy) lk ->
  normalizeKey ToUpper "" windows <> lk ->
  (forall k, is_Some (ServerConfig.Env cfg !! k) ->
             normalizeKey ToUpper k windows <> lk) ->
  exists entry,
    entry ∈ Environ /\
    normalizeKey ToUpper (splitEnvEntry entry).1 windows = lk /\
    (splitEnvEntry entry).2 = val /\
    entry ∈ BuildEnvironment windows ToUpper Environ range cfg proxy.
Proof.
  intros Hp Hd Hm Hempty Hno.
  pose proof Hp as Hp'.
  apply buildParentMap_last_wins_aux in Hp' as (pre&entry&post&HE&Hne&Hn&Hv&_).
  destruct (splitEnvEntry entry) as [k v] eqn:Hs. simpl in *. subst v.
  destruct (originalKeyOf_found Environ lk val k) as [Hok (e'&He'&Hs')];
    [|done|done|].
  { exists entry. split; [|done]. rewrite HE. apply elem_of_app. right. left. }
  set (ok := originalKeyOf windows ToUpper Environ lk val) in *.
  assert (Hmap : envMapOf cfg proxy !! lk = Some (mkEntry ok val)).
  { rewrite (buildEnvMap_stages windows ToUpper Environ range).
    rewrite overrideFold_other.
    - apply prefixFold_hit; try done.
      + by apply (range_elem range range_perm).
      + intros v Hv. apply (range_elem range range_perm) in Hv. congruence.
    - intros k' v' Hk'. apply (range_elem range range_perm) in Hk'.
      apply Hno. by eexists. }
  exists e'. split; [done|]. rewrite Hs'. simpl.
  split; [by apply originalKeyOf_norm|]. split; [done|].
  destruct (splitEnvEntry_inverse e' ok val Hs' Hok) as [-> _].
  change (ok +:+ "=" +:+ val) with (render (mkEntry ok val)).
  apply BuildEnvironment_elem.
  apply (buildEntries_elem windows ToUpper Environ range range_perm).
  change (key (mkEntry ok val)) with ok.
  subst ok. rewrite (originalKeyOf_norm windows ToUpper Environ lk val Hok). exact Hmap.
Qed.

(** A listed name that [addVar] lets through has an entry in the
    map. *)
Lemma buildEntries_listed_included cfg proxy k :
  let lookupKey := normalizeKey ToUpper k windows in
  let isDenied := denied (buildDenyMap ToUpper cfg proxy windows) lookupKey in
  (k ∈ Tier1Vars /\ isDenied = false) \/
  (k ∈ Tier2Vars /\ tier2Enabled cfg proxy = true /\ isDenied = false) \/
  (k ∈ extraNames cfg proxy /\
   (isDenied = false \/ allowDeniedEither cfg proxy = true)) ->
  is_Some (buildParentMap windows ToUpper Environ !! lookupKey) ->
  exists e, e ∈ buildEntries windows ToUpper Environ range cfg proxy /\
            normalizeKey ToUpper (key e) windows = lookupKey.
Proof.
  cbv zeta. intros Hk Hp.
  apply (buildEntries_name windows ToUpper Environ range range_perm).
  destruct Hk as [[Hk Hd]|[(Hk&Ht&Hd)|[Hk Ha]]].
  - apply (tier_included windows ToUpper Environ range); [|done..].
    unfold tierNames. apply elem_of_app. by left.
  - apply (tier_included windows ToUpper Environ range); [|done..].
    unfold tierNames. rewrite Ht. apply elem_of_app. by right.
  - apply (extra_included windows ToUpper Environ range); [done..|].
    unfold letsThrough. destruct Ha as [->| ->]; [done|]. apply orb_true_r.
Qed.

End More.

Section Order.
Variable windows : bool.
Variable ToUpper : string -> string.
Variable Environ : list string.

Lemma buildEnvMap_order range1 range2 cfg proxy :
  (forall (A : Type) (m : gmap string A), range1 A m ≡ₚ map_to_list m) ->
  (forall (A : Type) (m : gmap string A), range2 A m ≡ₚ map_to_list m) ->
  (windows = false \/
   forall k1 k2, is_Some (ServerConfig.Env cfg !! k1) ->
                 is_Some (ServerConfig.Env cfg !! k2) ->
                 ToUpper k1 = ToUpper k2 -> k1 = k2) ->
  buildEnvMap windows ToUpper Environ range1 cfg proxy =
  buildEnvMap windows ToUpper Environ range2 cfg proxy.
Proof.
  intros H1 H2 Hinj.
  rewrite !buildEnvMap_stages.
  assert (Hpre :
    foldl (prefixStep windows ToUpper Environ (buildDenyMap ToUpper cfg proxy windows)
             (prefixNames cfg proxy))
      (listedMap windows ToUpper Environ cfg proxy)
      (range1 _ (buildParentMap windows ToUpper Environ)) =
    foldl (prefixStep windows ToUpper Environ (buildDenyMap ToUpper cfg proxy windows)
             (prefixNames cfg proxy))
      (listedMap windows ToUpper Environ cfg proxy)
      (range2 _ (buildParentMap windows ToUpper Environ))).
  { apply foldl_permutation_commute; [by rewrite H1, H2|].
    intros [lk1 v1] [lk2 v2] b Hx Hy.
    destruct (decide (lk1 = lk2)) as [->|Hne].
    - by rewrite (range_functional range1 H1 _ _ _ _ Hx Hy).
    - by apply prefixStep_commute. }
  rewrite Hpre.
  apply foldl_permutation_commute; [by rewrite H1, H2|].
  intros [k1 v1] [k2 v2] b Hx Hy.
  destruct (decide (k1 = k2)) as [->|Hne].
  - by rewrite (range_functional range1 H1 _ _ _ _ Hx Hy).
  - simpl. apply insert_insert_ne.
    apply (range_elem range1 H1) in Hx, Hy. intros Hn. apply Hne. symmetry.
    destruct Hinj as [->|Hinj]; [exact Hn|].
    destruct windows; [|exact Hn]. apply Hinj; [by eexists..|exact Hn].
Qed.

(** X9.  The order of Go's map iteration does not matter.  For any two
    orders in which [range] may visit the maps, [BuildEnvironment]
    returns the same lines, in some order, provided that the host is
    not Windows or that no two names of the [env] overrides have the
    same upper-case form. *)
Theorem BuildEnvironment_order_independent range1 range2 cfg proxy :
  (forall (A : Type) (m : gmap string A), range1 A m ≡ₚ map_to_list m) ->
  (forall (A : Type) (m : gmap string A), range2 A m ≡ₚ map_to_list m) ->
  (windows = false \/
   forall k1 k2, is_Some (ServerConfig.Env cfg !! k1) ->
                 is_Some (ServerConfig.Env cfg !! k2) ->
                 ToUpper k1 = ToUpper k2 -> k1 = k2) ->
  BuildEnvironment windows ToUpper Environ range1 cfg proxy ≡ₚ
  BuildEnvironment windows ToUpper Environ range2 cfg proxy.
Proof.
  intros H1 H2 Hinj. unfold BuildEnvironment, buildEntries.
  rewrite (buildEnvMap_order range1 range2 cfg proxy H1 H2 Hinj).
  by rewrite H1, H2.
Qed.

End Order.

(** *** On a concrete host *)

Lemma reverseOrder_perm (A : Type) (m : gmap string A) :
  reverseOrder A m ≡ₚ map_to_list m.
Proof. unfold reverseOrder. apply reverse_Permutation. Defined.



(** The prefix [SEC] on the parent environment of scenario S1. *)
Lemma BuildEnvironment_prefix_included_witness :
  let cfg := exampleServer ∅ (Some (InheritConfig.mk "tier1" [] ["SEC"] [] false)) in
  (forall (A : Type) (m : gmap string A), listingOrder A m ≡ₚ map_to_list m) /\
  buildParentMap false asciiToUpper exampleEnviron !! "SECRET" = Some "s" /\
  denied (buildDenyMap asciiToUpper cfg None false) "SECRET" = false /\
  prefixMatches false asciiToUpper (prefixNames cfg None) "SECRET" /\
  exists entry,
    entry ∈ exampleEnviron /\
    entry ∈ BuildEnvironment false asciiToUpper exampleEnviron listingOrder cfg None.
Proof.
  intros cfg.
  assert (H1 : buildParentMap false asciiToUpper exampleEnviron !! "SECRET" = Some "s")
    by (vm_compute; reflexivity).
  assert (H2 : denied (buildDenyMap asciiToUpper cfg None false) "SECRET" = false)
    by (vm_compute; reflexivity).
  assert (H3 : prefixMatches false asciiToUpper (prefixNames cfg None) "SECRET")
    by (exists "SEC"; split; [left|reflexivity]).
  assert (H4 : normalizeKey asciiToUpper "" false <> "SECRET") by discriminate.
  assert (H5 : forall k, is_Some (ServerConfig.Env cfg !! k) ->
                         normalizeKey asciiToUpper k false <> "SECRET").
  { intros k [v Hv]. simpl in Hv. by rewrite lookup_empty in Hv. }
  split; [exact listingOrder_perm|]. split; [exact H1|]. split; [exact H2|].
  split; [exact H3|].
  destruct (BuildEnvironment_prefix_included false asciiToUpper exampleEnviron
              listingOrder listingOrder_perm cfg None "SECRET" "s" H1 H2 H3 H4 H5)
    as (entry&Hin&_&_&Hout).
  by exists entry.
Defined.


(** The listing order and its reverse, on a host that is not Windows. *)
Lemma BuildEnvironment_order_independent_witness :
  let cfg := exampleServer (<["A" := "1"]> (<["B" := "2"]> ∅))
               (Some (examplePolicy "all" ["SECRET"] [] false)) in
  (forall (A : Type) (m : gmap string A), listingOrder A m ≡ₚ map_to_list m) /\
  (forall (A : Type) (m : gmap string A), reverseOrder A m ≡ₚ map_to_list m) /\
  BuildEnvironment false asciiToUpper exampleEnviron listingOrder cfg None ≡ₚ
  BuildEnvironment false asciiToUpper exampleEnviron reverseOrder cfg None.
Proof.
  intros cfg. split; [exact listingOrder_perm|]. split; [exact reverseOrder_perm|].
  exact (BuildEnvironment_order_independent false asciiToUpper exampleEnviron
           listingOrder reverseOrder cfg None listingOrder_perm reverseOrder_perm
           (or_introl eq_refl)).
Defined.

End EnvBuilderMore.

Module EnvMergeFacts.

Import EnvBuilder EnvBuilderFacts SplitFacts EnvBuilderMore EnvMerge.

Section Merged.
Variable windows : bool.
Variable ToUpper : string -> string.
Variable Environ : list string.
Variable range : forall A : Type, gmap string A -> list (string * A).
Hypothesis range_perm :
  forall (A : Type) (m : gmap string A), range A m ≡ₚ map_to_list m.

Local Abbreviation norm k := (normalizeKey ToUpper k windows).

(** The two maps of [MergeEnvironment] read as one map of entries. *)
Local Abbreviation parentStep :=
  (fun (acc : gmap string envEntry) entry =>
     let '(key, value) := splitEnvEntry entry in
     if decide (key = "") then acc
     else <[norm key := mkEntry key value]> acc).
Local Abbreviation parentEntries := (foldl parentStep ∅ Environ).
Local Abbreviation mergedEntries overrides :=
  (foldl (overrideStep windows ToUpper) parentEntries (range _ overrides)).

Lemma loadParent_zip l (z : gmap string envEntry) :
  foldl (loadParent windows ToUpper) (value <$> z, key <$> z) l =
  (value <$> foldl parentStep z l, key <$> foldl parentStep z l).
Proof.
  revert z. induction l as [|e l IH]; intros z; simpl; [done|].
  destruct (splitEnvEntry e) as [k v]. case_decide; [apply IH|].
  rewrite <- IH. by rewrite !fmap_insert.
Qed.

Lemma applyOverride_zip l (z : gmap string envEntry) :
  foldl (applyOverride windows ToUpper) (value <$> z, key <$> z) l =
  (value <$> foldl (overrideStep windows ToUpper) z l,
   key <$> foldl (overrideStep windows ToUpper) z l).
Proof.
  revert z. induction l as [|[k v] l IH]; intros z; simpl; [done|].
  rewrite <- IH. by rewrite !fmap_insert.
Qed.

Lemma mergedMaps_zip overrides :
  mergedMaps windows ToUpper Environ range overrides =
  (value <$> mergedEntries overrides, key <$> mergedEntries overrides).
Proof.
  unfold mergedMaps. cbv zeta.
  rewrite <- applyOverride_zip, <- loadParent_zip. by rewrite !fmap_empty.
Qed.

Lemma mergeLine_zip (z : gmap string envEntry) lk e :
  z !! lk = Some e -> mergeLine (key <$> z) (lk, value e) = render e.
Proof. intros H. unfold mergeLine. by rewrite lookup_fmap, H. Qed.

Lemma MergeEnvironment_elem overrides line :
  line ∈ MergeEnvironment windows ToUpper Environ range overrides <->
  exists lk e, mergedEntries overrides !! lk = Some e /\ line = render e.
Proof.
  unfold MergeEnvironment. rewrite mergedMaps_zip, list_elem_of_fmap. split.
  - intros ([lk v]&->&Hin). apply (range_elem range range_perm) in Hin.
    rewrite lookup_fmap in Hin.
    destruct (mergedEntries overrides !! lk) as [e|] eqn:He; [|done].
    injection Hin as <-. exists lk, e. split; [done|]. by apply mergeLine_zip.
  - intros (lk&e&He&->). exists (lk, value e). split; [by rewrite (mergeLine_zip _ lk)|].
    apply (range_elem range range_perm). by rewrite lookup_fmap, He.
Qed.

Lemma parentEntries_lookup lk e :
  parentEntries !! lk = Some e <->
  exists pre entry post,
    Environ = pre ++ entry :: post /\
    (splitEnvEntry entry).1 <> "" /\ norm (splitEnvEntry entry).1 = lk /\
    mkEntry (splitEnvEntry entry).1 (splitEnvEntry entry).2 = e /\
    forall e', e' ∈ post -> (splitEnvEntry e').1 <> "" ->
               norm (splitEnvEntry e').1 <> lk.
Proof.
  rewrite (environFold_lookup windows ToUpper mkEntry).
  rewrite lookup_empty. split; [|by left]. by intros [?|[? _]].
Qed.

(** X10.  [MergeEnvironment], line by line.  On a host that is not
    Windows, or when no two names of the overrides have the same
    upper-case form, the result consists of exactly these lines: for
    every override its name, an equals sign and its value; and every
    well-formed line of the parent environment that no later line of
    the same name follows and whose name no override has.  (No deny
    list applies: proxy variables pass like any other.) *)
Theorem MergeEnvironment_exact overrides line :
  (windows = false \/
   forall k1 k2, is_Some (overrides !! k1) -> is_Some (overrides !! k2) ->
                 ToUpper k1 = ToUpper k2 -> k1 = k2) ->
  line ∈ MergeEnvironment windows ToUpper Environ range overrides <->
  (exists k v, overrides !! k = Some v /\ line = k +:+ "=" +:+ v) \/
  (exists pre post,
      Environ = pre ++ line :: post /\
      (splitEnvEntry line).1 <> "" /\
      (forall e, e ∈ post -> (splitEnvEntry e).1 <> "" ->
                 normalizeKey ToUpper (splitEnvEntry e).1 windows <>
                 normalizeKey ToUpper (splitEnvEntry line).1 windows) /\
      (forall k, is_Some (overrides !! k) ->
                 normalizeKey ToUpper k windows <>
                 normalizeKey ToUpper (splitEnvEntry line).1 windows)).
Proof.
  intros Hinj. rewrite MergeEnvironment_elem. split.
  - intros (lk&e&He&->).
    apply overrideFold_cases in He as [[Hin _]|[He Hno]].
    + left. exists (key e), (value e). split; [|done].
      by apply (range_elem range range_perm) in Hin.
    + right. apply parentEntries_lookup in He as (pre&entry&post&HE&Hne&Hn&<-&Hlast).
      destruct (splitEnvEntry entry) as [k v] eqn:Hs. simpl in *.
      destruct (splitEnvEntry_inverse entry k v Hs Hne) as [Hentry _].
      unfold render. simpl. rewrite <- Hentry, Hs. simpl.
      exists pre, post. split; [done|]. split; [done|]. rewrite Hn.
      split; [done|]. intros k' [v' Hv']. apply (Hno k' v').
      by apply (range_elem range range_perm).
  - intros [(k&v&Hk&->)|(pre&post&HE&Hne&Hlast&Hno)].
    + exists (norm k), (mkEntry k v). split; [|done].
      apply overrideFold_exact.
      * by apply (range_elem range range_perm).
      * intros k' v' Hin Hn. apply (range_elem range range_perm) in Hin.
        assert (k' = k) as ->.
        { destruct Hinj as [Hw|Hinj].
          - subst windows. exact Hn.
          - destruct windows; [|exact Hn]. apply Hinj; [by eexists..|exact Hn]. }
        split; [done|congruence].
    + destruct (splitEnvEntry line) as [k v] eqn:Hs. simpl in *.
      destruct (splitEnvEntry_inverse line k v Hs Hne) as [Hline _].
      exists (norm k), (mkEntry k v). split; [|done].
      rewrite overrideFold_other.
      * apply parentEntries_lookup. exists pre, line, post. by rewrite Hs.
      * intros k' v' Hin. apply (range_elem range range_perm) in Hin.
        apply Hno. by eexists.
Qed.

Lemma parentEntries_list l (m : gmap string envEntry) :
  (forall entry, entry ∈ l -> (splitEnvEntry entry).1 <> "") ->
  NoDup ((fun entry => norm (splitEnvEntry entry).1) <$> l) ->
  (forall entry, entry ∈ l -> m !! norm (splitEnvEntry entry).1 = None) ->
  map_to_list (foldl parentStep m l) ≡ₚ
  map_to_list m ++
  ((fun entry => (norm (splitEnvEntry entry).1,
                  mkEntry (splitEnvEntry entry).1 (splitEnvEntry entry).2)) <$> l).
Proof.
  revert m. induction l as [|e l IH]; intros m Hwf Hnd Hfresh; simpl.
  - by rewrite app_nil_r.
  - rewrite fmap_cons in Hnd. apply NoDup_cons in Hnd as [Hnotin Hnd].
    pose proof (Hwf e ltac:(left)) as He. pose proof (Hfresh e ltac:(left)) as Hm.
    destruct (splitEnvEntry e) as [k v] eqn:Hs. simpl in *.
    destruct (decide (k = "")); [done|].
    rewrite IH; [| |done|].
    + rewrite map_to_list_insert by done. simpl. by rewrite Permutation_middle.
    + intros e' He'. apply Hwf. by right.
    + intros e' He'. rewrite lookup_insert_ne; [apply Hfresh; by right|].
      intros Heq. apply Hnotin. rewrite Heq. apply list_elem_of_fmap.
      by exists e'.
Qed.

(** X11.  [MergeEnvironment] without overrides, on a parent environment
    whose lines are all well formed and name each variable once (names
    compared through [normalizeKey]), returns the lines of the parent
    environment, each once, in some order. *)
Theorem MergeEnvironment_identity :
  (forall entry, entry ∈ Environ -> (splitEnvEntry entry).1 <> "") ->
  NoDup ((fun entry => normalizeKey ToUpper (splitEnvEntry entry).1 windows)
           <$> Environ) ->
  MergeEnvironment windows ToUpper Environ range ∅ ≡ₚ Environ.
Proof.
  intros Hwf Hnd. unfold MergeEnvironment. rewrite mergedMaps_zip.
  assert (Hnil : range string ∅ = []).
  { apply Permutation_nil_r. by rewrite range_perm, map_to_list_empty. }
  rewrite Hnil. simpl.
  rewrite range_perm, map_to_list_fmap, <- list_fmap_compose.
  rewrite (list_fmap_ext _ (fun kv => render kv.2) (map_to_list parentEntries)).
  2:{ intros i [lk e] Hi. simpl. apply mergeLine_zip.
      apply elem_of_map_to_list. by eapply list_elem_of_lookup_2. }
  rewrite (parentEntries_list Environ ∅ Hwf Hnd) by (intros; apply lookup_empty).
  rewrite map_to_list_empty. simpl. rewrite <- list_fmap_compose.
  rewrite <- (list_fmap_id Environ) at 2.
  match goal with |- ?a ≡ₚ ?b => assert (a = b) as ->; [|done] end.
  apply list_fmap_ext. intros i entry Hi. simpl.
  pose proof (Hwf entry (list_elem_of_lookup_2 _ _ _ Hi)) as Hne.
  destruct (splitEnvEntry entry) as [k v] eqn:Hs. simpl in *.
  by destruct (splitEnvEntry_inverse entry k v Hs Hne) as [-> _].
Qed.

End Merged.

(** *** On a concrete host *)

(** An override of [HOME]; the proxy variable passes. *)
Lemma MergeEnvironment_exact_witness :
  let overrides : gmap string string := <["HOME" := "/srv"]> ∅ in
  (forall (A : Type) (m : gmap string A), listingOrder A m ≡ₚ map_to_list m) /\
  "HOME=/srv" ∈ MergeEnvironment false asciiToUpper exampleEnviron listingOrder overrides /\
  "HTTP_PROXY=http://evil:1"
    ∈ MergeEnvironment false asciiToUpper exampleEnviron listingOrder overrides /\
  ~ "HOME=/h" ∈ MergeEnvironment false asciiToUpper exampleEnviron listingOrder overrides.
Proof.
  intros overrides.
  pose proof (fun line =>
    MergeEnvironment_exact false asciiToUpper exampleEnviron listingOrder
      listingOrder_perm overrides line (or_introl eq_refl)) as H.
  split; [exact listingOrder_perm|]. split; [|split].
  - apply H. left. exists "HOME", "/srv". split; reflexivity.
  - apply H. right.
    exists ["PATH=/bin"; "HOME=/h"; "SECRET=s"], ["SSL_CERT_FILE=/c"].
    split; [reflexivity|]. split; [vm_compute; discriminate|]. split.
    + intros e He _. apply list_elem_of_singleton in He as ->. vm_compute. discriminate.
    + intros k [v Hv]. apply lookup_insert_Some in Hv as [[<- _]|[_ Hv]];
        [vm_compute; discriminate|]. by rewrite lookup_empty in Hv.
  - intros Hin. apply H in Hin as [(k&v&Hk&Heq)|(pre&post&_&_&_&Hno)].
    + apply lookup_insert_Some in Hk as [[<- <-]|[_ Hk]]; [discriminate Heq|].
      by rewrite lookup_empty in Hk.
    + apply (Hno "HOME"); [by eexists|reflexivity].
Defined.

(** Without overrides, on the parent environment of scenario S1. *)
Lemma MergeEnvironment_identity_witness :
  (forall (A : Type) (m : gmap string A), listingOrder A m ≡ₚ map_to_list m) /\
  (forall entry, entry ∈ exampleEnviron -> (splitEnvEntry entry).1 <> "") /\
  MergeEnvironment false asciiToUpper exampleEnviron listingOrder ∅ ≡ₚ exampleEnviron.
Proof.
  assert (H1 : forall entry, entry ∈ exampleEnviron -> (splitEnvEntry entry).1 <> "").
  { intros entry Hin. unfold exampleEnviron in Hin.
    repeat (apply elem_of_cons in Hin as [->|Hin]; [vm_compute; discriminate|]).
    by apply elem_of_nil in Hin. }
  assert (H2 : NoDup ((fun entry => normalizeKey asciiToUpper (splitEnvEntry entry).1 false)
                        <$> exampleEnviron)).
  { refine (bool_decide_unpack _ _). vm_compute. exact I. }
  split; [exact listingOrder_perm|]. split; [exact H1|].
  exact (MergeEnvironment_identity false asciiToUpper exampleEnviron listingOrder
           listingOrder_perm H1 H2).
Defined.

End EnvMergeFacts.

(** * The list that [BuildEnvironment] returns, line by line *)

Module EnvLinesFacts.

Import EnvBuilder EnvBuilderFacts SplitFacts EnvBuilderMore.

(** *** The variable that a returned line sets

    The child reads a line of the returned list as a name, the text
    before the first equals sign, and a value, the text after it: what
    [splitEnvEntry] computes. *)

Lemma splitEnvEntry_render (k v : string) :
  k <> "" -> String.index 0 "=" k = None ->
  splitEnvEntry (k +:+ "=" +:+ v) = (k, v).
Proof.
  intros Hk Hno. unfold splitEnvEntry.
  rewrite (index_equals_append k v Hno).
  destruct k as [|c k]; [done|].
  change (String.length (String c k)) with (S (String.length k)) at 1 2.
  cbv iota beta.
  change (S (String.length k)) with (String.length (String c k)).
  by rewrite substring_append_left, substring_append_right.
Qed.

(** A key without an equals sign is the name of its line (for the empty
    key the line is malformed, and its name is empty too). *)
Lemma render_name (e : envEntry) :
  String.index 0 "=" (key e) = None -> (splitEnvEntry (render e)).1 = key e.
Proof.
  intros Hno. unfold render. destruct (decide (key e = "")) as [->|Hne].
  - unfold splitEnvEntry.
    change ("" +:+ "=" +:+ value e) with (String "=" (value e)).
    rewrite index_equals_cons. by destruct (Ascii.ascii_dec "=" "=").
  - by rewrite splitEnvEntry_render.
Qed.

Lemma tier1_plain (k : string) :
  k ∈ Tier1Vars -> k <> "" /\ String.index 0 "=" k = None.
Proof.
  unfold Tier1Vars. intros Hk.
  repeat (apply elem_of_cons in Hk as [->|Hk]; [by split|]).
  by apply elem_of_nil in Hk.
Qed.

Section Lines.
Variable windows : bool.
Variable ToUpper : string -> string.
Variable Environ : list string.
Variable range : forall A : Type, gmap string A -> list (string * A).
Hypothesis range_perm :
  forall (A : Type) (m : gmap string A), range A m ≡ₚ map_to_list m.
(** [strings.ToUpper] neither makes nor removes an equals sign. *)
Hypothesis ToUpper_equals :
  forall s, String.index 0 "=" (ToUpper s) = None <-> String.index 0 "=" s = None.

Local Abbreviation norm k := (normalizeKey ToUpper k windows).
Local Abbreviation parentMapOf := (buildParentMap windows ToUpper Environ).
Local Abbreviation denyMapOf cfg proxy := (buildDenyMap ToUpper cfg proxy windows).
Local Abbreviation envMapOf cfg proxy :=
  (buildEnvMap windows ToUpper Environ range cfg proxy).
Local Abbreviation entriesOf cfg proxy :=
  (buildEntries windows ToUpper Environ range cfg proxy).
Local Abbreviation BuildEnv cfg proxy :=
  (BuildEnvironment windows ToUpper Environ range cfg proxy).

Lemma BuildEnvironment_lines cfg proxy line :
  line ∈ BuildEnv cfg proxy <-> exists e, e ∈ entriesOf cfg proxy /\ line = render e.
Proof.
  unfold BuildEnvironment. rewrite list_elem_of_fmap. split.
  - intros (e&->&He). by exists e.
  - intros (e&He&->). by exists e.
Qed.

Lemma norm_equals s :
  String.index 0 "=" (norm s) = None <-> String.index 0 "=" s = None.
Proof. unfold normalizeKey. destruct windows; [apply ToUpper_equals|done]. Qed.

(** The lookup keys of the parent map have no equals sign. *)
Lemma parent_key_plain lk :
  is_Some (parentMapOf !! lk) -> String.index 0 "=" lk = None.
Proof.
  intros H. apply buildParentMap_is_Some in H as (entry&_&Hne&<-).
  apply norm_equals.
  destruct (splitEnvEntry entry) as [k v] eqn:Hs. simpl in *.
  by destruct (splitEnvEntry_inverse entry k v Hs Hne).
Qed.

(** So the key of an inherited entry is the name of its line. *)
Lemma inherited_name e :
  is_Some (parentMapOf !! norm (key e)) -> (splitEnvEntry (render e)).1 = key e.
Proof.
  intros H. apply render_name. apply norm_equals. by apply parent_key_plain.
Qed.

(** X6.  Where the lines come from.  Every line of the list that
    [BuildEnvironment] returns is either an [env] override, its name, an
    equals sign and its value as configured, or a name, an equals sign
    and the value that the parent environment has for that name, and
    then no override has that name: an override always replaces the
    inherited value, and no value is made up. *)
Theorem BuildEnvironment_values cfg proxy line :
  line ∈ BuildEnvironment windows ToUpper Environ range cfg proxy ->
  (exists k v, ServerConfig.Env cfg !! k = Some v /\ line = k +:+ "=" +:+ v) \/
  (exists k v,
      line = k +:+ "=" +:+ v /\
      buildParentMap windows ToUpper Environ !! normalizeKey ToUpper k windows = Some v /\
      forall k', is_Some (ServerConfig.Env cfg !! k') ->
                 normalizeKey ToUpper k' windows <> normalizeKey ToUpper k windows).
Proof.
  clear ToUpper_equals.
  intros Hl. apply BuildEnvironment_lines in Hl as (e&He&->).
  destruct (buildEntries_values windows ToUpper Environ range range_perm cfg proxy e He)
    as [Ho|[Hp Hno]].
  - left. by exists (key e), (value e).
  - right. by exists (key e), (value e).
Qed.

(** X8.  The listed names.  Let a Tier 1 name that is not denied, a
    Tier 2 name that is not denied when a mode enables the second tier,
    or an [extra] item that is not denied or is allowed by a flag, have
    a value in the parent environment.  Then the list that
    [BuildEnvironment] returns has a line for that name: the line of an
    [env] override of that name, or else a spelling of the name, an
    equals sign and the parent's value. *)
Theorem BuildEnvironment_listed_included cfg proxy k val :
  let lookupKey := normalizeKey ToUpper k windows in
  let isDenied := denied (buildDenyMap ToUpper cfg proxy windows) lookupKey in
  (k ∈ Tier1Vars /\ isDenied = false) \/
  (k ∈ Tier2Vars /\ tier2Enabled cfg proxy = true /\ isDenied = false) \/
  (k ∈ extraNames cfg proxy /\
   (isDenied = false \/ allowDeniedEither cfg proxy = true)) ->
  buildParentMap windows ToUpper Environ !! lookupKey = Some val ->
  exists k' v',
    normalizeKey ToUpper k' windows = lookupKey /\
    (k' +:+ "=" +:+ v') ∈ BuildEnvironment windows ToUpper Environ range cfg proxy /\
    (ServerConfig.Env cfg !! k' = Some v' \/
     (v' = val /\
      forall k'', is_Some (ServerConfig.Env cfg !! k'') ->
                  normalizeKey ToUpper k'' windows <> lookupKey)).
Proof.
  clear ToUpper_equals.
  cbv zeta. intros Hk Hp.
  destruct (buildEntries_listed_included windows ToUpper Environ range range_perm
              cfg proxy k Hk) as (e&He&Hn); [by eexists|].
  exists (key e), (value e). split; [exact Hn|]. split.
  { apply BuildEnvironment_lines. by exists e. }
  destruct (buildEntries_values windows ToUpper Environ range range_perm cfg proxy e He)
    as [Ho|[Hv Hno]]; [by left|right].
  rewrite Hn in Hv, Hno. split; [congruence|exact Hno].
Qed.

(** An entry that no override wrote has the name of its line as key,
    and that name is its lookup key. *)
Lemma line_cases cfg proxy e :
  e ∈ entriesOf cfg proxy ->
  ServerConfig.Env cfg !! key e = Some (value e) \/
  ((splitEnvEntry (render e)).1 = key e /\
   parentMapOf !! norm (key e) = Some (value e) /\
   forall k, is_Some (ServerConfig.Env cfg !! k) -> norm k <> norm (key e)).
Proof.
  intros He.
  destruct (buildEntries_values windows ToUpper Environ range range_perm cfg proxy e He)
    as [Ho|[Hv Hno]]; [by left|right].
  split; [|done]. apply inherited_name. by eexists.
Qed.

(** X5.  A denied name stays out.  Let a lookup key be in the deny map,
    let no [env] override be written as a line of that name, and let
    either no flag [allow_denied_if_explicit] be set or no [extra] item
    have that name.  Then no line of the list that [BuildEnvironment]
    returns has that name: neither the tiers nor a prefix bring a denied
    variable in. *)
Theorem BuildEnvironment_denied_stays_out cfg proxy lk :
  denied (buildDenyMap ToUpper cfg proxy windows) lk = true ->
  (forall k v, ServerConfig.Env cfg !! k = Some v ->
               normalizeKey ToUpper (splitEnvEntry (k +:+ "=" +:+ v)).1 windows <> lk) ->
  (allowDeniedEither cfg proxy = false \/
   forall k, k ∈ extraNames cfg proxy -> normalizeKey ToUpper k windows <> lk) ->
  forall line,
    line ∈ BuildEnvironment windows ToUpper Environ range cfg proxy ->
    normalizeKey ToUpper (splitEnvEntry line).1 windows <> lk.
Proof.
  intros Hd Hover Hex line Hl.
  apply BuildEnvironment_lines in Hl as (e&He&->).
  destruct (line_cases cfg proxy e He) as [Ho|(Hname&Hv&Hno)].
  { by apply (Hover (key e) (value e)). }
  rewrite Hname. intros Hk.
  apply (buildEntries_elem windows ToUpper Environ range range_perm) in He.
  rewrite Hk in He.
  apply (buildEnvMap_sound windows ToUpper Environ range range_perm) in He
    as [_ [H|_ _ H|_ _ _ H|Hin _ Ha|_ H _]]; try congruence.
  - apply (Hno (key e)); [by eexists|done].
  - unfold letsThrough in Ha. rewrite Hd in Ha. simpl in Ha.
    destruct Hex as [Hex|Hex]; [congruence|]. by apply (Hex (key e)).
Qed.

(** C10, amended.  When no name of the [env] overrides contains an
    equals sign, no two lines of the list that [BuildEnvironment]
    returns have the same variable name: the name of a line is its text
    before the first equals sign, and names are compared through
    [normalizeKey], that is after upper-casing on Windows and exactly
    elsewhere.  (Every stage writes into the one map keyed by the
    normalized name.) *)
Theorem BuildEnvironment_one_line_per_name cfg proxy :
  (forall k, is_Some (ServerConfig.Env cfg !! k) -> String.index 0 "=" k = None) ->
  NoDup ((fun line => normalizeKey ToUpper (splitEnvEntry line).1 windows)
           <$> BuildEnvironment windows ToUpper Environ range cfg proxy).
Proof.
  intros Hplain. unfold BuildEnvironment. rewrite <- list_fmap_compose.
  rewrite (list_fmap_ext _ (fun e => norm (key e)) (entriesOf cfg proxy)).
  { apply (buildEntries_one_entry_per_name windows ToUpper Environ range range_perm). }
  intros i e Hi. simpl. f_equal.
  assert (He : e ∈ entriesOf cfg proxy) by (by eapply list_elem_of_lookup_2).
  destruct (line_cases cfg proxy e He) as [Ho|(Hname&_)]; [|exact Hname].
  apply render_name. apply Hplain. by eexists.
Qed.

(** C3, amended.  Let a name be listed in an [extra] list, of the
    server or of the proxy, have a value in the parent environment and
    be in the combined deny set, and let no [env] override be written
    as a line of that name.  Then the list that [BuildEnvironment]
    returns has a line of that name if and only if
    [allow_denied_if_explicit] is set at the server level or at the
    proxy level, whichever list contributed the name; and when it is,
    the line is the name, in the spelling of an [extra] item, an equals
    sign and the parent's value. *)
Theorem BuildEnvironment_denied_extra cfg proxy name v :
  let lookupKey k := normalizeKey ToUpper k windows in
  let output := BuildEnvironment windows ToUpper Environ range cfg proxy in
  name ∈ extraNames cfg proxy ->
  buildParentMap windows ToUpper Environ !! lookupKey name = Some v ->
  denied (buildDenyMap ToUpper cfg proxy windows) (lookupKey name) = true ->
  (forall k v', ServerConfig.Env cfg !! k = Some v' ->
                lookupKey (splitEnvEntry (k +:+ "=" +:+ v')).1 <> lookupKey name) ->
  ((exists line, line ∈ output /\ lookupKey (splitEnvEntry line).1 = lookupKey name) <->
   allowDeniedEither cfg proxy = true) /\
  (allowDeniedEither cfg proxy = true ->
   exists k,
     k ∈ extraNames cfg proxy /\ lookupKey k = lookupKey name /\
     (k +:+ "=" +:+ v) ∈ output /\ (splitEnvEntry (k +:+ "=" +:+ v)).1 = k).
Proof.
  cbv zeta. intros Hin Hp Hd Hover.
  assert (Hplain : String.index 0 "=" (norm name) = None)
    by (apply parent_key_plain; by eexists).
  assert (Hno : forall k, is_Some (ServerConfig.Env cfg !! k) -> norm k <> norm name).
  { intros k [v' Hk] Hn. apply (Hover k v' Hk).
    change (k +:+ "=" +:+ v') with (render (mkEntry k v')).
    rewrite render_name; [exact Hn|]. simpl. apply norm_equals. by rewrite Hn. }
  destruct (buildEntries_denied_extra windows ToUpper Environ range range_perm
              cfg proxy name v Hin Hp Hd Hno) as [Hiff Hline].
  split; [split|].
  - intros (line&Hl&Hn). apply Hiff.
    apply BuildEnvironment_lines in Hl as (e&He&->).
    destruct (line_cases cfg proxy e He) as [Ho|(Hname&_)].
    + by destruct (Hover (key e) (value e) Ho).
    + exists e. split; [exact He|]. by rewrite <- Hname.
  - intros Ha. apply Hiff in Ha as (e&He&Hn).
    exists (render e). split; [apply BuildEnvironment_lines; by exists e|].
    destruct (line_cases cfg proxy e He) as [Ho|(Hname&_)].
    + destruct (Hno (key e)); [by eexists|exact Hn].
    + by rewrite Hname.
  - intros Ha. destruct (Hline Ha) as (k&Hk&Hn&Hl).
    exists k. split; [exact Hk|]. split; [exact Hn|]. split; [exact Hl|].
    change (k +:+ "=" +:+ v) with (render (mkEntry k v)).
    apply render_name. simpl. apply norm_equals. by rewrite Hn.
Qed.

(** C5, amended.  For a server whose policy has mode [tier1], no [extra]
    and no [prefix], without a proxy-level policy, and whose [env]
    override names are not empty, have no equals sign and, on Windows,
    differ in their upper-case forms, the variables on the list that
    [BuildEnvironment] returns, each line read as a name and a value,
    are exactly: the [env] overrides with their values; and the Tier 1
    names that have a value in the parent environment, are not in the
    combined deny set and are the name of no override, with the
    parent's value.  No other variable appears.  (The Tier 1 names are
    upper-case: [normalizeKey] leaves them as they are.) *)
Theorem BuildEnvironment_tier1_exact cfg ic :
  ServerConfig.Inherit cfg = Some ic ->
  InheritConfig.Mode ic = InheritConfig.InheritTier1 ->
  InheritConfig.Extra ic = [] ->
  InheritConfig.Prefix ic = [] ->
  (forall k, is_Some (ServerConfig.Env cfg !! k) ->
             k <> "" /\ String.index 0 "=" k = None) ->
  (windows = false \/
   forall k1 k2, is_Some (ServerConfig.Env cfg !! k1) ->
                 is_Some (ServerConfig.Env cfg !! k2) ->
                 ToUpper k1 = ToUpper k2 -> k1 = k2) ->
  (forall t, t ∈ Tier1Vars -> normalizeKey ToUpper t windows = t) ->
  let lookupKey k := normalizeKey ToUpper k windows in
  let parentMap := buildParentMap windows ToUpper Environ in
  let denyMap := buildDenyMap ToUpper cfg None windows in
  forall n v,
    (n, v) ∈ splitEnvEntry <$> BuildEnvironment windows ToUpper Environ range cfg None <->
    ServerConfig.Env cfg !! n = Some v \/
    (n ∈ Tier1Vars /\ parentMap !! lookupKey n = Some v /\
     denied denyMap (lookupKey n) = false /\
     forall k, is_Some (ServerConfig.Env cfg !! k) -> lookupKey k <> lookupKey n).
Proof.
  clear ToUpper_equals.
  intros Hic Hmode Hextra Hprefix Hwf Hinj Hfix. cbv zeta. intros n v.
  destruct (buildEntries_tier1_exact windows ToUpper Environ range range_perm
              cfg ic Hic Hmode Hextra Hprefix) as [Hnames Hentries].
  cbv zeta in Hnames, Hentries.
  assert (Hsplit : forall e, e ∈ entriesOf cfg None ->
                             splitEnvEntry (render e) = (key e, value e)).
  { intros e He. unfold render.
    destruct (Hentries e He) as [Ho|(Ht&_)].
    - destruct (Hwf (key e)) as [? ?]; [by eexists|]. by apply splitEnvEntry_render.
    - destruct (tier1_plain (key e) Ht) as [? ?]. by apply splitEnvEntry_render. }
  rewrite list_elem_of_fmap. split.
  - intros (line&Heq&Hl). apply BuildEnvironment_lines in Hl as (e&He&->).
    rewrite (Hsplit e He) in Heq. injection Heq as -> ->.
    destruct (Hentries e He) as [Ho|(Ht&Hp&Hno)]; [by left|right].
    split; [exact Ht|]. split; [exact Hp|]. split; [|exact Hno].
    destruct (proj1 (Hnames (norm (key e)))) as [(k&_&_&_&Hd)|(k&Hk&Hn)];
      [by exists e|exact Hd|].
    by destruct (Hno k Hk).
  - intros [Ho|(Ht&Hp&Hd&Hno)].
    + assert (Hexact : envMapOf cfg None !! norm n = Some (mkEntry n v)).
      { rewrite (buildEnvMap_stages windows ToUpper Environ range).
        apply overrideFold_exact.
        - by apply (range_elem range range_perm).
        - intros k' v' Hin Hn. apply (range_elem range range_perm) in Hin.
          assert (k' = n) as ->.
          { destruct Hinj as [Hw|Hinj].
            - subst windows. exact Hn.
            - destruct windows; [|exact Hn]. apply Hinj; [by eexists..|exact Hn]. }
          split; [done|congruence]. }
      assert (He : mkEntry n v ∈ entriesOf cfg None)
        by (by apply (buildEntries_elem windows ToUpper Environ range range_perm)).
      exists (render (mkEntry n v)). split; [by rewrite (Hsplit _ He)|].
      apply BuildEnvironment_lines. by eexists.
    + destruct (proj2 (Hnames (norm n))) as (e&He&Hn).
      { left. exists n. split; [exact Ht|]. split; [done|]. split; [by eexists|exact Hd]. }
      exists (render e). split; [|apply BuildEnvironment_lines; by exists e].
      rewrite (Hsplit e He).
      destruct (Hentries e He) as [Ho|(Ht'&Hp'&_)].
      { destruct (Hno (key e)); [by eexists|exact Hn]. }
      assert (key e = n) as <- by (by rewrite <- (Hfix _ Ht'), <- (Hfix _ Ht)).
      f_equal. congruence.
Qed.

End Lines.

(** *** On a concrete host *)

(** ASCII upper-casing neither makes nor removes an equals sign. *)
Lemma upperAscii_equals (c : ascii) : upperAscii c = "="%char <-> c = "="%char.
Proof.
  destruct c as [[] [] [] [] [] [] [] []]; vm_compute; split; congruence.
Qed.

Lemma asciiToUpper_equals (s : string) :
  String.index 0 "=" (asciiToUpper s) = None <-> String.index 0 "=" s = None.
Proof.
  induction s as [|c s IH]; [done|].
  change (asciiToUpper (String c s)) with (String (upperAscii c) (asciiToUpper s)).
  rewrite !index_equals_cons.
  destruct (Ascii.ascii_dec "=" (upperAscii c)) as [Hu|Hu];
    destruct (Ascii.ascii_dec "=" c) as [Hc|Hc].
  - done.
  - symmetry in Hu. apply (proj1 (upperAscii_equals c)) in Hu. by destruct Hc.
  - subst c. by destruct Hu.

  - destruct (String.index 0 "=" (asciiToUpper s)), (String.index 0 "=" s);
      split; intros H; try done.
    + apply IH in H. discriminate.
    + apply IH in H. discriminate.
Qed.

(** X5 on a server with a prefix that matches the proxy variable. *)
Lemma BuildEnvironment_denied_stays_out_witness :
  let cfg := exampleServer (<["CUSTOM" := "value"]> ∅)
               (Some (InheritConfig.mk "all" [] ["HTTP"] [] false)) in
  (forall (A : Type) (m : gmap string A), listingOrder A m ≡ₚ map_to_list m) /\
  denied (buildDenyMap asciiToUpper cfg None false) "HTTP_PROXY" = true /\
  forall line,
    line ∈ BuildEnvironment false asciiToUpper exampleEnviron listingOrder cfg None ->
    (splitEnvEntry line).1 <> "HTTP_PROXY".
Proof.
  intros cfg.
  assert (H1 : denied (buildDenyMap asciiToUpper cfg None false) "HTTP_PROXY" = true)
    by (vm_compute; reflexivity).
  assert (H2 : forall k v, ServerConfig.Env cfg !! k = Some v ->
                 normalizeKey asciiToUpper (splitEnvEntry (k +:+ "=" +:+ v)).1 false
                 <> "HTTP_PROXY").
  { intros k v Hk. simpl in Hk.
    apply lookup_insert_Some in Hk as [[<- <-]|[_ Hk]]; [vm_compute; discriminate|].
    by rewrite lookup_empty in Hk. }
  split; [exact listingOrder_perm|]. split; [exact H1|].
  exact (BuildEnvironment_denied_stays_out false asciiToUpper exampleEnviron listingOrder
           listingOrder_perm asciiToUpper_equals cfg None "HTTP_PROXY" H1 H2
           (or_introl eq_refl)).
Defined.

(** X6 on the parent environment of scenario S1, with an override of
    [HOME]. *)
Lemma BuildEnvironment_values_witness :
  let cfg := exampleServer (<["HOME" := "/srv"]> ∅)
               (Some (examplePolicy "tier1" [] [] false)) in
  (forall (A : Type) (m : gmap string A), listingOrder A m ≡ₚ map_to_list m) /\
  "PATH=/bin" ∈ BuildEnvironment false asciiToUpper exampleEnviron listingOrder cfg None /\
  exists k v,
    "PATH=/bin" = k +:+ "=" +:+ v /\
    buildParentMap false asciiToUpper exampleEnviron !! k = Some v.
Proof.
  intros cfg.
  assert (H1 : "PATH=/bin"
                 ∈ BuildEnvironment false asciiToUpper exampleEnviron listingOrder cfg None).
  { apply list_elem_of_In. vm_compute. tauto. }
  split; [exact listingOrder_perm|]. split; [exact H1|].
  destruct (BuildEnvironment_values false asciiToUpper exampleEnviron listingOrder
              listingOrder_perm cfg None "PATH=/bin" H1)
    as [(k&v&Hk&Heq)|(k&v&Heq&Hp&_)].
  - exfalso. simpl in Hk.
    apply lookup_insert_Some in Hk as [[<- <-]|[_ Hk]]; [discriminate Heq|].
    by rewrite lookup_empty in Hk.
  - by exists k, v.
Defined.

(** X8 for [HOME] under mode [none]. *)
Lemma BuildEnvironment_listed_included_witness :
  let cfg := exampleServer ∅ (Some (examplePolicy "none" [] [] false)) in
  (forall (A : Type) (m : gmap string A), listingOrder A m ≡ₚ map_to_list m) /\
  "HOME" ∈ Tier1Vars /\
  denied (buildDenyMap asciiToUpper cfg None false) "HOME" = false /\
  buildParentMap false asciiToUpper exampleEnviron !! "HOME" = Some "/h" /\
  "HOME=/h" ∈ BuildEnvironment false asciiToUpper exampleEnviron listingOrder cfg None.
Proof.
  intros cfg.
  assert (H1 : "HOME" ∈ Tier1Vars) by (right; left).
  assert (H2 : denied (buildDenyMap asciiToUpper cfg None false) "HOME" = false)
    by (vm_compute; reflexivity).
  assert (H3 : buildParentMap false asciiToUpper exampleEnviron !! "HOME" = Some "/h")
    by (vm_compute; reflexivity).
  split; [exact listingOrder_perm|]. split; [exact H1|]. split; [exact H2|].
  split; [exact H3|].
  destruct (BuildEnvironment_listed_included false asciiToUpper exampleEnviron
              listingOrder listingOrder_perm cfg None "HOME" "/h"
              (or_introl (conj H1 H2)) H3) as (k'&v'&Hn&Hl&[Ho|[-> _]]).
  - simpl in Ho. by rewrite lookup_empty in Ho.
  - simpl in Hn. by rewrite Hn in Hl.
Defined.

(** C10, counterexample.  The overrides [A] and [A=B]: the returned list
    has two lines of the variable name [A]. *)
Lemma override_name_with_equals_duplicates :
  let env : gmap string string := <["A" := "1"]> (<["A=B" := "2"]> ∅) in
  ~ NoDup ((fun line => normalizeKey asciiToUpper (splitEnvEntry line).1 false)
             <$> BuildEnvironment false asciiToUpper [] listingOrder
                   (exampleServer env None) None).
Proof.
  intros env H.
  assert (Hlist :
    (fun line => normalizeKey asciiToUpper (splitEnvEntry line).1 false)
      <$> BuildEnvironment false asciiToUpper [] listingOrder
            (exampleServer env None) None = ["A"; "A"]) by (vm_compute; reflexivity).
  rewrite Hlist in H. apply NoDup_cons in H as [H _]. apply H. left.
Qed.

(** C10 on Windows, with an override [Path] of the Tier 1 name [PATH]. *)
Lemma BuildEnvironment_one_line_per_name_witness :
  let cfg := exampleServer (<["Path" := "/custom"]> ∅)
               (Some (examplePolicy "all" ["SECRET"] [] false)) in
  (forall (A : Type) (m : gmap string A), listingOrder A m ≡ₚ map_to_list m) /\
  (forall k, is_Some (ServerConfig.Env cfg !! k) -> String.index 0 "=" k = None) /\
  BuildEnvironment true asciiToUpper exampleEnviron listingOrder cfg None =
    ["SSL_CERT_FILE=/c"; "SECRET=s"; "HOME=/h"; "Path=/custom"] /\
  NoDup ((fun line => normalizeKey asciiToUpper (splitEnvEntry line).1 true)
           <$> BuildEnvironment true asciiToUpper exampleEnviron listingOrder cfg None).
Proof.
  intros cfg.
  assert (H1 : forall k, is_Some (ServerConfig.Env cfg !! k) ->
                         String.index 0 "=" k = None).
  { intros k [v Hk]. simpl in Hk.
    apply lookup_insert_Some in Hk as [[<- _]|[_ Hk]]; [reflexivity|].
    by rewrite lookup_empty in Hk. }
  split; [exact listingOrder_perm|]. split; [exact H1|].
  split; [vm_compute; reflexivity|].
  exact (BuildEnvironment_one_line_per_name true asciiToUpper exampleEnviron
           listingOrder listingOrder_perm asciiToUpper_equals cfg None H1).
Defined.

(** C3 on the input of its counterexample: the name is listed by the
    server's [extra], the flag is set at the proxy level only. *)
Lemma BuildEnvironment_denied_extra_witness :
  let cfg := exampleServer ∅ (Some (examplePolicy "tier1" ["HTTP_PROXY"] [] false)) in
  let proxy := Some (examplePolicy "tier1" [] [] true) in
  (forall (A : Type) (m : gmap string A), listingOrder A m ≡ₚ map_to_list m) /\
  "HTTP_PROXY" ∈ extraNames cfg proxy /\
  buildParentMap false asciiToUpper exampleEnviron !! "HTTP_PROXY" = Some "http://evil:1" /\
  denied (buildDenyMap asciiToUpper cfg proxy false) "HTTP_PROXY" = true /\
  ((exists line,
       line ∈ BuildEnvironment false asciiToUpper exampleEnviron listingOrder cfg proxy /\
       (splitEnvEntry line).1 = "HTTP_PROXY") <->
   allowDeniedEither cfg proxy = true).
Proof.
  intros cfg proxy.
  assert (H1 : "HTTP_PROXY" ∈ extraNames cfg proxy) by left.
  assert (H2 : buildParentMap false asciiToUpper exampleEnviron !! "HTTP_PROXY"
               = Some "http://evil:1") by (vm_compute; reflexivity).
  assert (H3 : denied (buildDenyMap asciiToUpper cfg proxy false) "HTTP_PROXY" = true)
    by (vm_compute; reflexivity).
  assert (H4 : forall k v', ServerConfig.Env cfg !! k = Some v' ->
                 normalizeKey asciiToUpper (splitEnvEntry (k +:+ "=" +:+ v')).1 false
                 <> normalizeKey asciiToUpper "HTTP_PROXY" false).
  { intros k v' Hk. simpl in Hk. by rewrite lookup_empty in Hk. }
  split; [exact listingOrder_perm|]. split; [exact H1|]. split; [exact H2|].
  split; [exact H3|].
  exact (proj1 (BuildEnvironment_denied_extra false asciiToUpper exampleEnviron
                  listingOrder listingOrder_perm asciiToUpper_equals cfg proxy
                  "HTTP_PROXY" "http://evil:1" H1 H2 H3 H4)).
Defined.

(** C3 and X5 need their hypothesis on the overrides: an override
    written under the name [HTTP_PROXY=x] gives a line of the denied
    name without any flag. *)
Lemma override_written_under_denied_name :
  let env : gmap string string := <["HTTP_PROXY=x" := "y"]> ∅ in
  let cfg := exampleServer env (Some (examplePolicy "tier1" ["HTTP_PROXY"] [] false)) in
  allowDeniedEither cfg None = false /\
  "HTTP_PROXY=x=y" ∈ BuildEnvironment false asciiToUpper exampleEnviron listingOrder cfg None /\
  splitEnvEntry "HTTP_PROXY=x=y" = ("HTTP_PROXY", "x=y").
Proof.
  intros env cfg. split; [reflexivity|]. split; [|reflexivity].
  apply list_elem_of_In. vm_compute. tauto.
Qed.

(** C5, counterexample.  Mode [tier1] and the override [X=PATH]: the
    returned list has a line of the variable [X], which is neither a
    Tier 1 name nor the name of an override. *)
Lemma override_name_with_equals_adds_variable :
  let env : gmap string string := <["X=PATH" := "2"]> ∅ in
  let cfg := exampleServer env (Some (examplePolicy "tier1" [] [] false)) in
  ~ (forall line,
       line ∈ BuildEnvironment false asciiToUpper exampleEnviron listingOrder cfg None ->
       (splitEnvEntry line).1 ∈ Tier1Vars \/
       is_Some (ServerConfig.Env cfg !! (splitEnvEntry line).1)).
Proof.
  intros env cfg H.
  destruct (H "X=PATH=2") as [Ht|[v Hv]].
  - apply list_elem_of_In. vm_compute. tauto.
  - vm_compute in Ht. unfold Tier1Vars in Ht.
    repeat (apply elem_of_cons in Ht as [Ht|Ht]; [discriminate Ht|]).
    by apply elem_of_nil in Ht.
  - change ((splitEnvEntry "X=PATH=2").1) with "X" in Hv. simpl in Hv.
    apply lookup_insert_Some in Hv as [[Hk _]|[_ Hv]]; [discriminate Hk|].
    by rewrite lookup_empty in Hv.
Qed.

(** C5 on the parent environment of scenario S1, with [HOME] denied and
    one override. *)
Lemma BuildEnvironment_tier1_exact_witness :
  let ic := examplePolicy "tier1" [] ["HOME"] false in
  let cfg := exampleServer (<["CUSTOM" := "value"]> ∅) (Some ic) in
  (forall (A : Type) (m : gmap string A), listingOrder A m ≡ₚ map_to_list m) /\
  (forall k, is_Some (ServerConfig.Env cfg !! k) ->
             k <> "" /\ String.index 0 "=" k = None) /\
  (forall t, t ∈ Tier1Vars -> normalizeKey asciiToUpper t false = t) /\
  (forall n v,
      (n, v) ∈ splitEnvEntry
                 <$> BuildEnvironment false asciiToUpper exampleEnviron listingOrder cfg None
      <-> (n, v) ∈ [("CUSTOM", "value"); ("PATH", "/bin")]).
Proof.
  intros ic cfg.
  assert (H1 : forall k, is_Some (ServerConfig.Env cfg !! k) ->
                         k <> "" /\ String.index 0 "=" k = None).
  { intros k [v Hk]. simpl in Hk.
    apply lookup_insert_Some in Hk as [[<- _]|[_ Hk]]; [by split|].
    by rewrite lookup_empty in Hk. }
  assert (H2 : forall t, t ∈ Tier1Vars -> normalizeKey asciiToUpper t false = t)
    by reflexivity.
  split; [exact listingOrder_perm|]. split; [exact H1|]. split; [exact H2|].
  intros n v.
  rewrite (BuildEnvironment_tier1_exact false asciiToUpper exampleEnviron listingOrder
             listingOrder_perm cfg ic eq_refl eq_refl eq_refl eq_refl H1
             (or_introl eq_refl) H2 n v).
  split.
  - intros [Ho|(Ht&Hp&Hd&_)].
    + simpl in Ho. apply lookup_insert_Some in Ho as [[<- <-]|[_ Ho]]; [left|].
      by rewrite lookup_empty in Ho.
    + right. unfold Tier1Vars in Ht.
      repeat (apply elem_of_cons in Ht as [->|Ht];
              [vm_compute in Hp; vm_compute in Hd; try discriminate Hp;
               try discriminate Hd|]).
      * injection Hp as <-. left.
      * by apply elem_of_nil in Ht.
  - intros Hin. apply elem_of_cons in Hin as [[= -> ->]|Hin].
    + left. reflexivity.
    + apply list_elem_of_singleton in Hin as [= -> ->]. right.
      split; [left|]. split; [vm_compute; reflexivity|].
      split; [vm_compute; reflexivity|].
      intros k [v Hk]. simpl in Hk.
      apply lookup_insert_Some in Hk as [[<- _]|[_ Hk]]; [discriminate|].
      by rewrite lookup_empty in Hk.
Defined.

End EnvLinesFacts.

(** * Properties of the configuration *)

Module ConfigFacts.

Import InheritValidation ServerTimeout ProxyConfig.

Section Validation.
Variable ParseDuration : string -> string + Z.
Variable Quote : string -> string.

(** The modes that [InheritConfig.Validate] accepts. *)
Local Abbreviation validMode m :=
  (m ∈ [""; InheritConfig.InheritNone; InheritConfig.InheritTier1;
        InheritConfig.InheritTier1Tier2; InheritConfig.InheritAll]).

(** A duration field that is empty or parses. *)
Local Abbreviation durationOk s :=
  ((s = "")%string \/ exists d, ParseDuration s = inr d).

Lemma andThen_None a b : andThen a b = None <-> a = None /\ b = None.
Proof. destruct a; simpl; [|tauto]. split; [done|]. by intros [? _]. Qed.

Lemma failIf_None (P : Prop) `{!Decision P} msg : failIf P msg = None <-> ~ P.
Proof. unfold failIf. case_decide; [|tauto]. split; [done|tauto]. Qed.

Lemma inherit_Validate_None ic :
  InheritValidation.Validate Quote ic = None <-> validMode (InheritConfig.Mode ic).
Proof.
  unfold InheritValidation.Validate. rewrite !elem_of_cons, elem_of_nil.
  case_decide; [tauto|]. split; [done|tauto].
Qed.

Lemma checkInherit_None ic wrap :
  checkInherit Quote ic wrap = None <->
  forall p, ic = Some p -> validMode (InheritConfig.Mode p).
Proof.
  unfold checkInherit. destruct ic as [p|]; [|by split].
  destruct (InheritValidation.Validate Quote p) eqn:Hv.
  - split; [done|]. intros H. specialize (H p eq_refl).
    apply inherit_Validate_None in H. congruence.
  - split; [|done]. intros _ p' [= <-]. by apply inherit_Validate_None.
Qed.

Lemma checkDuration_None s wrap :
  checkDuration ParseDuration s wrap = None <-> durationOk s.
Proof.
  unfold checkDuration. case_decide as Hs.
  - destruct (ParseDuration s) as [err|d] eqn:Hp.
    + split; [done|]. intros [?|[d Hd]]; [done|congruence].
    + split; [|done]. intros _. right. by exists d.
  - split; [|done]. intros _. left. by destruct (decide (s = "")).
Qed.

Lemma seen_insert (m : gmap string bool) k k' :
  seen (<[k := true]> m) k' = true <-> k = k' \/ seen m k' = true.
Proof.
  unfold seen. destruct (decide (k = k')) as [->|Hne].
  - rewrite lookup_insert_eq. simpl. tauto.
  - rewrite lookup_insert_ne by done. tauto.
Qed.

(** What one server must satisfy, apart from the uniqueness of its name
    and prefix. *)
Local Abbreviation serverOk s :=
  (ServerConfig.Name s <> "" /\ ServerConfig.Prefix s <> "" /\
   (ServerConfig.Transport s = "stdio" /\ ServerConfig.Command s <> "" \/
    ServerConfig.Transport s = "http" /\ ServerConfig.URL s <> "") /\
   (ServerConfig.Timeout s = "" \/
    exists d, ParseDuration (ServerConfig.Timeout s) = inr d) /\
   (forall ic, ServerConfig.Inherit s = Some ic -> validMode (InheritConfig.Mode ic))).

Lemma validateServers_None i names prefixes servers :
  validateServers ParseDuration Quote i names prefixes servers = None <->
  NoDup (ServerConfig.Name <$> servers) /\
  NoDup (ServerConfig.Prefix <$> servers) /\
  (forall s, s ∈ servers ->
     seen names (ServerConfig.Name s) = false /\
     seen prefixes (ServerConfig.Prefix s) = false /\ serverOk s).
Proof.
  revert i names prefixes.
  induction servers as [|s rest IH]; intros i names prefixes.
  - simpl. split; [|done]. intros _. split; [constructor|]. split; [constructor|].
    intros s Hs. by apply elem_of_nil in Hs.
  - cbn [validateServers]. cbv zeta.
    rewrite !andThen_None, !failIf_None, checkDuration_None, checkInherit_None, IH.
    rewrite !fmap_cons, !NoDup_cons.
    assert (Htransport :
      (if decide (ServerConfig.Transport s = "stdio")
       then failIf (ServerConfig.Command s = "")
              ("server " +:+ ServerConfig.Name s +:+
               ": command is required for stdio transport")
       else if decide (ServerConfig.Transport s = "http")
            then failIf (ServerConfig.URL s = "")
                   ("server " +:+ ServerConfig.Name s +:+
                    ": url is required for http transport")
            else None) = None /\
      ~ (ServerConfig.Transport s <> "stdio" /\ ServerConfig.Transport s <> "http") <->
      (ServerConfig.Transport s = "stdio" /\ ServerConfig.Command s <> "" \/
       ServerConfig.Transport s = "http" /\ ServerConfig.URL s <> "")).
    { destruct (decide (ServerConfig.Transport s = "stdio")) as [Hst|Hst].
      - rewrite failIf_None. split; [tauto|].
        intros [[_ ?]|[Hh _]]; [tauto|]. rewrite Hh in Hst. discriminate.
      - destruct (decide (ServerConfig.Transport s = "http")) as [Hh|Hh].
        + rewrite failIf_None. tauto.
        + tauto. }
    split.
    + intros (Hname & Hdup & Hprefix & Hpdup & Htr & Hfields & Htimeout & Hinh &
              Hnd1 & Hnd2 & Hrest).
      assert (Hsn : seen names (ServerConfig.Name s) = false)
        by (by destruct (seen names (ServerConfig.Name s))).
      assert (Hsp : seen prefixes (ServerConfig.Prefix s) = false)
        by (by destruct (seen prefixes (ServerConfig.Prefix s))).
      split; [|split].
      * split; [|done]. intros Hin. apply list_elem_of_fmap in Hin as (s'&Heq&Hs').
        destruct (Hrest s' Hs') as (Hseen&_).
        assert (seen (<[ServerConfig.Name s:=true]> names) (ServerConfig.Name s') = true)
          by (apply seen_insert; by left).
        congruence.
      * split; [|done]. intros Hin. apply list_elem_of_fmap in Hin as (s'&Heq&Hs').
        destruct (Hrest s' Hs') as (_&Hseen&_).
        assert (seen (<[ServerConfig.Prefix s:=true]> prefixes) (ServerConfig.Prefix s')
                = true) by (apply seen_insert; by left).
        congruence.
      * intros s' Hs'. apply elem_of_cons in Hs' as [->|Hs'].
        -- split; [done|]. split; [done|]. split; [done|]. split; [done|].
           split; [by apply Htransport|]. done.
        -- destruct (Hrest s' Hs') as (H1&H2&H3). split; [|split; [|done]].
           ++ destruct (seen names (ServerConfig.Name s')) eqn:Hx; [|done].
              assert (seen (<[ServerConfig.Name s:=true]> names) (ServerConfig.Name s')
                      = true) by (apply seen_insert; by right).
              congruence.
           ++ destruct (seen prefixes (ServerConfig.Prefix s')) eqn:Hx; [|done].
              assert (seen (<[ServerConfig.Prefix s:=true]> prefixes)
                        (ServerConfig.Prefix s') = true)
                by (apply seen_insert; by right).
              congruence.
    + intros ([Hn1 Hnd1] & [Hn2 Hnd2] & Hall).
      destruct (Hall s ltac:(left)) as (Hsn & Hsp & Hname & Hprefix & Htr & Htimeout & Hinh).
      split; [done|]. split; [congruence|]. split; [done|]. split; [congruence|].
      apply Htransport in Htr as [Hfields Htr].
      split; [done|]. split; [done|]. split; [done|]. split; [done|].
      split; [done|]. split; [done|].
      intros s' Hs'. destruct (Hall s' ltac:(by right)) as (H1&H2&H3).
      split; [|split; [|done]].
      * destruct (seen (<[ServerConfig.Name s:=true]> names) (ServerConfig.Name s'))
          eqn:Hx; [|done].
        apply seen_insert in Hx as [Hx|Hx]; [|congruence].
        exfalso. apply Hn1. apply list_elem_of_fmap. by exists s'.
      * destruct (seen (<[ServerConfig.Prefix s:=true]> prefixes)
                    (ServerConfig.Prefix s')) eqn:Hx; [|done].
        apply seen_insert in Hx as [Hx|Hx]; [|congruence].
        exfalso. apply Hn2. apply list_elem_of_fmap. by exists s'.
Qed.

Lemma Validate_None c :
  ProxyConfig.Validate ParseDuration Quote c = None <->
  Servers c = [] \/
  (NoDup (ServerConfig.Name <$> Servers c) /\
   NoDup (ServerConfig.Prefix <$> Servers c) /\
   (forall s, s ∈ Servers c -> serverOk s) /\
   durationOk (ProxySettings.HealthCheckInterval (Proxy c)) /\
   durationOk (ProxySettings.ConnectionTimeout (Proxy c)) /\
   (forall ic, Inherit c = Some ic -> validMode (InheritConfig.Mode ic))).
Proof.
  unfold ProxyConfig.Validate. case_decide as Hlen.
  - split; [|done]. intros _. left. by apply nil_length_inv.
  - rewrite !andThen_None, validateServers_None, !checkDuration_None,
      checkInherit_None.
    split.
    + intros ((Hn1&Hn2&Hall)&Hh&Hc&Hi&_). right.
      split; [done|]. split; [done|]. split; [|done].
      intros s Hs. by destruct (Hall s Hs) as (_&_&?).
    + intros [Hnil|(Hn1&Hn2&Hall&Hh&Hc&Hi)]; [by rewrite Hnil in Hlen|].
      split; [|done]. split; [done|]. split; [done|].
      intros s Hs. split; [done|]. split; [done|]. by apply Hall.
Qed.

(** X12.  What [ProxyConfig.Validate] accepts.  It returns no error
    exactly when the list of servers is empty (nothing else is looked at
    then, neither the proxy settings nor the proxy-level inherit policy),
    or when: the server names are pairwise different, the prefixes are
    pairwise different, every server has a name, a prefix, transport
    [stdio] with a command or transport [http] with a URL, a timeout that
    is empty or parses, and an inherit policy, if any, of a known mode;
    both durations of the proxy settings are empty or parse; and the
    proxy-level inherit policy, if any, has a known mode. *)
Theorem Validate_accepts c :
  ProxyConfig.Validate ParseDuration Quote c = None <->
  Servers c = [] \/
  (NoDup (ServerConfig.Name <$> Servers c) /\
   NoDup (ServerConfig.Prefix <$> Servers c) /\
   (forall s, s ∈ Servers c ->
      ServerConfig.Name s <> "" /\ ServerConfig.Prefix s <> "" /\
      (ServerConfig.Transport s = "stdio" /\ ServerConfig.Command s <> "" \/
       ServerConfig.Transport s = "http" /\ ServerConfig.URL s <> "") /\
      (ServerConfig.Timeout s = "" \/
       exists d, ParseDuration (ServerConfig.Timeout s) = inr d) /\
      (forall ic, ServerConfig.Inherit s = Some ic ->
         InheritConfig.Mode ic ∈
           [""; InheritConfig.InheritNone; InheritConfig.InheritTier1;
            InheritConfig.InheritTier1Tier2; InheritConfig.InheritAll])) /\
   (ProxySettings.HealthCheckInterval (Proxy c) = "" \/
    exists d, ParseDuration (ProxySettings.HealthCheckInterval (Proxy c)) = inr d) /\
   (ProxySettings.ConnectionTimeout (Proxy c) = "" \/
    exists d, ParseDuration (ProxySettings.ConnectionTimeout (Proxy c)) = inr d) /\
   (forall ic, Inherit c = Some ic ->
      InheritConfig.Mode ic ∈
        [""; InheritConfig.InheritNone; InheritConfig.InheritTier1;
         InheritConfig.InheritTier1Tier2; InheritConfig.InheritAll])).
Proof. apply Validate_None. Qed.

(** X13.  After validation no timeout falls back silently.  For a
    configuration that [Validate] accepts, [GetServerTimeout] of each of
    its servers is thirty seconds when the server sets no timeout and
    otherwise the duration that its timeout parses to; the fallback to
    thirty seconds for a text that does not parse is never taken. *)
Theorem GetServerTimeout_after_Validate c s :
  ProxyConfig.Validate ParseDuration Quote c = None ->
  s ∈ Servers c ->
  (ServerConfig.Timeout s = "" /\
   GetServerTimeout ParseDuration s = (30 * 1000000000)%Z) \/
  (ServerConfig.Timeout s <> "" /\
   ParseDuration (ServerConfig.Timeout s) = inr (GetServerTimeout ParseDuration s)).
Proof.
  intros Hv Hs. apply Validate_None in Hv as [Hnil|(_&_&Hall&_)].
  { rewrite Hnil in Hs. by apply elem_of_nil in Hs. }
  destruct (Hall s Hs) as (_&_&_&Ht&_). unfold GetServerTimeout.
  case_decide as Hempty; [by left|]. right. split; [done|].
  destruct Ht as [?|[d Hd]]; [done|]. by rewrite Hd.
Qed.

(** X14.  The effective inherit policy of a validated server.  For a
    configuration with at least one server that [Validate] accepts, the
    policy that [ResolveInheritConfig] gives a server (its own, else the
    proxy's, else the built-in [tier1] default) passes
    [InheritConfig.Validate]. *)
Theorem ResolveInheritConfig_after_Validate c s :
  ProxyConfig.Validate ParseDuration Quote c = None ->
  s ∈ Servers c ->
  InheritValidation.Validate Quote (ServerConfig.ResolveInheritConfig s (Inherit c)) = None.
Proof.
  intros Hv Hs. apply Validate_None in Hv as [Hnil|(_&_&Hall&_&_&Hp)].
  { rewrite Hnil in Hs. by apply elem_of_nil in Hs. }
  destruct (Hall s Hs) as (_&_&_&_&Hi). apply inherit_Validate_None.
  unfold ServerConfig.ResolveInheritConfig.
  destruct (ServerConfig.Inherit s) as [ic|]; [by apply Hi|].
  destruct (Inherit c) as [ic|]; [by apply Hp|].
  simpl. rewrite !elem_of_cons. auto.
Qed.

(** X15.  The proxy settings in effect after validation.  For a
    configuration with at least one server that [Validate] accepts, on a
    host whose [time.ParseDuration] reads the two defaults ["30s"] and
    ["10s"], both durations of [GetProxySettings] parse and its retry
    count is not zero; a duration or a retry count that the file sets is
    kept. *)
Theorem GetProxySettings_after_Validate c d30 d10 :
  ProxyConfig.Validate ParseDuration Quote c = None ->
  Servers c <> [] ->
  ParseDuration "30s" = inr d30 ->
  ParseDuration "10s" = inr d10 ->
  let settings := GetProxySettings c in
  (exists d, ParseDuration (ProxySettings.HealthCheckInterval settings) = inr d) /\
  (exists d, ParseDuration (ProxySettings.ConnectionTimeout settings) = inr d) /\
  ProxySettings.MaxRetries settings <> 0%Z /\
  (ProxySettings.HealthCheckInterval (Proxy c) <> "" ->
   ProxySettings.HealthCheckInterval settings =
   ProxySettings.HealthCheckInterval (Proxy c)) /\
  (ProxySettings.ConnectionTimeout (Proxy c) <> "" ->
   ProxySettings.ConnectionTimeout settings =
   ProxySettings.ConnectionTimeout (Proxy c)) /\
  (ProxySettings.MaxRetries (Proxy c) <> 0%Z ->
   ProxySettings.MaxRetries settings = ProxySettings.MaxRetries (Proxy c)).
Proof.
  intros Hv Hne H30 H10. apply Validate_None in Hv as [Hnil|(_&_&_&Hh&Hc&_)]; [done|].
  unfold GetProxySettings. destruct (Proxy c) as [h ct r].
  cbn [ProxySettings.HealthCheckInterval ProxySettings.ConnectionTimeout
       ProxySettings.MaxRetries] in Hh, Hc |- *.
  cbv zeta.
  repeat (case_decide;
          cbn [ProxySettings.HealthCheckInterval ProxySettings.ConnectionTimeout
               ProxySettings.MaxRetries] in *);
    subst; repeat split; try done; eauto;
    try (by destruct Hh as [?|?]); try (by destruct Hc as [?|?]).
Qed.

End Validation.

(** *** On a concrete host *)

Lemma exampleConfig_valid :
  ProxyConfig.Validate exampleParseDuration exampleQuote exampleConfig = None.
Proof. vm_compute. reflexivity. Defined.

(** The server of [exampleConfig] waits five seconds. *)
Lemma GetServerTimeout_after_Validate_witness :
  let s := ServerConfig.mk "echo" "e" "stdio" "/usr/bin/echo-mcp" [] ∅ None "" "5s" in
  ProxyConfig.Validate exampleParseDuration exampleQuote exampleConfig = None /\
  s ∈ Servers exampleConfig /\
  exampleParseDuration "5s" = inr (GetServerTimeout exampleParseDuration s).
Proof.
  intros s. assert (Hs : s ∈ Servers exampleConfig) by left.
  split; [exact exampleConfig_valid|]. split; [exact Hs|].
  destruct (GetServerTimeout_after_Validate exampleParseDuration exampleQuote
              exampleConfig s exampleConfig_valid Hs) as [[H _]|[_ H]].
  - discriminate H.
  - exact H.
Defined.

(** The server of [exampleConfig] falls to the proxy's policy. *)
Lemma ResolveInheritConfig_after_Validate_witness :
  let s := ServerConfig.mk "echo" "e" "stdio" "/usr/bin/echo-mcp" [] ∅ None "" "5s" in
  ProxyConfig.Validate exampleParseDuration exampleQuote exampleConfig = None /\
  s ∈ Servers exampleConfig /\
  InheritValidation.Validate exampleQuote
    (ServerConfig.ResolveInheritConfig s (Inherit exampleConfig)) = None.
Proof.
  intros s. assert (Hs : s ∈ Servers exampleConfig) by left.
  split; [exact exampleConfig_valid|]. split; [exact Hs|].
  exact (ResolveInheritConfig_after_Validate exampleParseDuration exampleQuote
           exampleConfig s exampleConfig_valid Hs).
Defined.

(** The settings of [exampleConfig] are the three defaults. *)
Lemma GetProxySettings_after_Validate_witness :
  ProxyConfig.Validate exampleParseDuration exampleQuote exampleConfig = None /\
  Servers exampleConfig <> [] /\
  (exists d, exampleParseDuration
               (ProxySettings.HealthCheckInterval (GetProxySettings exampleConfig))
             = inr d) /\
  ProxySettings.MaxRetries (GetProxySettings exampleConfig) <> 0%Z.
Proof.
  assert (Hne : Servers exampleConfig <> []) by discriminate.
  split; [exact exampleConfig_valid|]. split; [exact Hne|].
  destruct (GetProxySettings_after_Validate exampleParseDuration exampleQuote
              exampleConfig _ _ exampleConfig_valid Hne eq_refl eq_refl)
    as (Hh&_&Hr&_).
  split; [exact Hh|exact Hr].
Defined.

End ConfigFacts.

(** * Further properties of the dynamic wrapper *)

Module ManagementFacts.

Import mcp Wrapper WrapperFacts Management.

(** *** Lists of clients *)

Lemma NoDup_fmap_inj {A B} (f : A -> B) (l : list A) x y :
  NoDup (f <$> l) -> x ∈ l -> y ∈ l -> f x = f y -> x = y.
Proof.
  induction l as [|a l IH]; intros Hnd Hx Hy Hf.
  - by apply elem_of_nil in Hx.
  - rewrite fmap_cons in Hnd. apply NoDup_cons in Hnd as [Hnotin Hnd].
    apply elem_of_cons in Hx as [->|Hx], Hy as [->|Hy].
    + done.
    + exfalso. apply Hnotin. rewrite Hf. apply list_elem_of_fmap. by exists y.
    + exfalso. apply Hnotin. rewrite <- Hf. apply list_elem_of_fmap. by exists x.
    + by apply IH.
Qed.

Lemma findClient_Some name clients c :
  findClient name clients = Some c -> MCPClient.ServerName c = name /\ c ∈ clients.
Proof.
  induction clients as [|c' rest IH]; simpl; [done|].
  case_decide.
  - intros [= <-]. split; [done|left].
  - intros H'. destruct (IH H') as [? ?]. split; [done|by right].
Qed.

Lemma findClient_None name clients :
  findClient name clients = None <->
  forall c, c ∈ clients -> MCPClient.ServerName c <> name.
Proof.
  induction clients as [|c' rest IH]; simpl.
  - split; [|done]. intros _ c Hc. by apply elem_of_nil in Hc.
  - case_decide as Hn.
    + split; [done|]. intros H'. exfalso. apply (H' c'); [left|done].
    + rewrite IH. split.
      * intros H' c Hc. apply elem_of_cons in Hc as [->|Hc]; [done|by apply H'].
      * intros H' c Hc. apply H'. by right.
Qed.

Lemma replaceClient_elem name c clients x :
  x ∈ replaceClient name c clients ->
  x = c \/ (x ∈ clients).
Proof.
  induction clients as [|c' rest IH]; simpl.
  - intros Hx. apply list_elem_of_singleton in Hx. by left.
  - case_decide.
    + intros Hx. apply elem_of_cons in Hx as [->|Hx]; [by left|].
      right. by right.
    + intros Hx. apply elem_of_cons in Hx as [->|Hx]; [right; left|].
      destruct (IH Hx) as [->|?]; [by left|]. right. by right.
Qed.

Lemma replaceClient_new name c clients : c ∈ replaceClient name c clients.
Proof.
  induction clients as [|c' rest IH]; simpl; [left|].
  case_decide; [left|by right].
Qed.

Lemma replaceClient_other name c clients x :
  x ∈ clients -> MCPClient.ServerName x <> name -> x ∈ replaceClient name c clients.
Proof.
  induction clients as [|c' rest IH]; simpl; intros Hx Hn.
  - by apply elem_of_nil in Hx.
  - apply elem_of_cons in Hx as [->|Hx].
    + case_decide; [done|left].
    + case_decide.
      * by right.
      * right. by apply IH.
Qed.

Lemma replaceClient_NoDup name c clients :
  NoDup (MCPClient.id <$> clients) ->
  (forall x, x ∈ clients -> MCPClient.id x <> MCPClient.id c) ->
  NoDup (MCPClient.id <$> replaceClient name c clients).
Proof.
  induction clients as [|c' rest IH]; simpl; intros Hnd Hfresh.
  - apply NoDup_singleton.
  - apply NoDup_cons in Hnd as [Hnotin Hnd]. case_decide.
    + rewrite fmap_cons. apply NoDup_cons. split; [|done].
      intros Hin. apply list_elem_of_fmap in Hin as (x&Heq&Hx).
      apply (Hfresh x); [by right|done].
    + rewrite fmap_cons. apply NoDup_cons. split.
      * intros Hin. apply list_elem_of_fmap in Hin as (x&Heq&Hx).
        apply replaceClient_elem in Hx as [->|Hx].
        -- apply (Hfresh c'); [left|done].
        -- apply Hnotin. apply list_elem_of_fmap. by exists x.
      * apply IH; [done|]. intros x Hx. apply Hfresh. by right.
Qed.

Section Cases.
Variable Abs : string -> option string.
Variable Fields : string -> list string.
Variable ToLower : string -> string.
Variable range : forall A : Type, gmap string A -> list (string * A).
Variable Connect : list Event -> MCPClient.t -> option string.
Variable Initialize : list Event -> MCPClient.t -> option string.
Variable ListTools : list Event -> MCPClient.t -> string + list ToolInfo.t.
Variable CallTool :
  list Event -> MCPClient.t -> string -> gmap string Arg -> string + UpstreamResult.t.

Local Abbreviation metadata := (addRecordingMetadata Abs).
Local Abbreviation proxyHandler := (createDynamicProxyHandler Abs ToLower CallTool).
Local Abbreviation disconnect := (handleServerDisconnect Abs).
Local Abbreviation reconnect :=
  (handleServerReconnect Abs Fields range Connect Initialize ListTools).
Local Abbreviation add := (handleServerAdd Abs Fields Connect Initialize ListTools).

Local Arguments addRecordingMetadata : simpl never.

(** The tool that [server_add] and [server_reconnect] register for a
    tool of the upstream, the name under which it is bound, and its
    handler. *)
Local Abbreviation prefixed name tool := (name +:+ "_" +:+ ToolInfo.Name tool).
Local Abbreviation remoteTool name tool :=
  (RemoteTool.mk (ToolInfo.Name tool) (prefixed name tool) (ToolInfo.Description tool)
     (ToolInfo.InputSchema tool) name).
Local Abbreviation bindTools name tools bound :=
  (foldl (fun m tool => <[prefixed name tool := mkHandler name (ToolInfo.Name tool)]> m)
     bound tools).

Lemma register_fold name c tools w ts n :
  foldl (registerOne name c) (w, ts, n) tools =
  (mkWrapper (dynamicServers w) (proxyInherit w) (proxyClients w)
     (registry w ++ ((fun tool => (remoteTool name tool, c)) <$> tools))
     (bindTools name tools (baseTools w))
     (recordEnabled w) (recordFilename w) (recordFile w) (events w) (nextClient w),
   ts ++ ((fun tool => prefixed name tool) <$> tools), n + length tools).
Proof.
  revert w ts n. induction tools as [|t tools IH]; intros w ts n.
  - simpl. rewrite !app_nil_r, Nat.add_0_r. by destruct w.
  - simpl. rewrite IH. simpl. rewrite <- !app_assoc. simpl.
    by rewrite Nat.add_succ_r.
Qed.

Lemma reRegister_registry name c registered tools w :
  registry (foldl (reRegisterOne name c registered) w tools) =
  registry w ++
  ((fun tool => (remoteTool name tool, c))
     <$> filter (fun tool => prefixed name tool ∈ registered) tools).
Proof.
  revert w. induction tools as [|t tools IH]; intros w; simpl.
  - by rewrite app_nil_r.
  - rewrite IH. unfold reRegisterOne. rewrite filter_cons.
    destruct (decide (prefixed name t ∈ registered)); simpl; [|done].
    by rewrite <- app_assoc.
Qed.

(** *** [server_add], case by case *)

Lemma add_cases request w :
  let out := add request w in
  out.2.2 = None /\
  ((IsError out.2.1 = true /\
    dynamicServers out.1 = dynamicServers w /\ proxyClients out.1 = proxyClients w /\
    registry out.1 = registry w /\ baseTools out.1 = baseTools w /\
    nextClient w <= nextClient out.1) \/
   (exists name command command0 args tools,
       RequireString request "name" = Some name /\
       RequireString request "command" = Some command /\
       dynamicServers w !! name = None /\
       Fields command = command0 :: args /\
       let c := MCPClient.mk (nextClient w) name command0 args in
       let spawn :=
         [EvNewStdioClient c;
          EvSetInheritConfig c
            (ServerConfig.ResolveInheritConfig (addedConfig name command0 args)
               (proxyInherit w));
          EvConnect c] in
       ListTools (events w ++ spawn ++ [EvInitialize c; EvListTools c]) c = inr tools /\
       IsError out.2.1 = false /\
       dynamicServers out.1 =
         <[name := DynamicServerInfo.mk name (Some c)
                     ((fun tool => prefixed name tool) <$> tools)
                     (addedConfig name command0 args) true ""]> (dynamicServers w) /\
       proxyClients out.1 = proxyClients w ++ [c] /\
       registry out.1 =
         registry w ++ ((fun tool => (remoteTool name tool, c)) <$> tools) /\
       baseTools out.1 = bindTools name tools (baseTools w) /\
       events out.1 = events w ++ spawn ++ [EvInitialize c; EvListTools c] /\
       nextClient out.1 = S (nextClient w))).
Proof.
  intros out. subst out. unfold handleServerAdd.
  destruct w as [ds pi pc rg bt en fn rf ev nc]; simpl.
  destruct en; simpl.
  all: destruct (RequireString request "name") as [name|] eqn:Hname; simpl;
    [|split; [done|left; rewrite ?metadata_IsError; repeat split; (done || lia)]].
  all: destruct (RequireString request "command") as [command|] eqn:Hcommand; simpl;
    [|split; [done|left; rewrite ?metadata_IsError; repeat split; (done || lia)]].
  all: case_decide as Hex; simpl;
    [split; [done|left; rewrite ?metadata_IsError; repeat split; (done || lia)]|].
  all: destruct (Fields command) as [|command0 args] eqn:Hfields; simpl;
    [split; [done|left; rewrite ?metadata_IsError; repeat split; (done || lia)]|].
  all: destruct (Connect _ _); simpl;
    [split; [done|left; rewrite ?metadata_IsError; repeat split; (done || lia)]|].
  all: destruct (Initialize _ _); simpl;
    [split; [done|left; rewrite ?metadata_IsError; repeat split; (done || lia)]|].
  all: rewrite <- ?app_assoc; simpl.
  all: destruct (ListTools _ _) as [?|tools] eqn:Htools; simpl;
    [split; [done|left; rewrite ?metadata_IsError; repeat split; (done || lia)]|].
  all: rewrite register_fold; simpl.
  all: split; [done|right].
  all: exists name, command, command0, args, tools.
  all: assert (ds !! name = None)
    by (destruct (ds !! name) eqn:Hd; [exfalso; apply Hex; by eexists|done]).
  all: rewrite ?metadata_IsError, ?app_nil_r, <- ?app_assoc; simpl; repeat split; done.
Qed.

(** *** [server_reconnect], case by case *)

Lemma reconnect_cases request w :
  let out := reconnect request w in
  out.2.2 = None /\ baseTools out.1 = baseTools w /\
  ((IsError out.2.1 = true /\
    dynamicServers out.1 = dynamicServers w /\ proxyClients out.1 = proxyClients w /\
    registry out.1 = registry w /\ nextClient out.1 = nextClient w /\
    events out.1 = events w /\
    (RequireString request "name" = None \/
     (exists name, RequireString request "name" = Some name /\
                   dynamicServers w !! name = None) \/
     (exists name info,
         RequireString request "name" = Some name /\
         dynamicServers w !! name = Some info /\
         (DynamicServerInfo.IsConnected info = true \/
          (GetString request "command" "" <> "" /\
           Fields (GetString request "command" "") = []) \/
          (GetString request "command" "" = "" /\
           ServerConfig.Command (DynamicServerInfo.Config info) = ""))))) \/
   (exists name info serverConfig,
       RequireString request "name" = Some name /\
       dynamicServers w !! name = Some info /\
       DynamicServerInfo.IsConnected info = false /\
       ((exists command0 args,
            GetString request "command" "" <> "" /\
            Fields (GetString request "command" "") = command0 :: args /\
            serverConfig =
              ServerConfig.mk name
                (ServerConfig.Prefix (DynamicServerInfo.Config info))
                "stdio" command0 args ∅ None "" "30s") \/
        (GetString request "command" "" = "" /\
         ServerConfig.Command (DynamicServerInfo.Config info) <> "" /\
         serverConfig = DynamicServerInfo.Config info)) /\
       let c :=
         MCPClient.mk (nextClient w) (ServerConfig.Name serverConfig)
           (ServerConfig.Command serverConfig) (ServerConfig.Args serverConfig) in
       let spawn :=
         [EvNewStdioClient c;
          EvSetInheritConfig c
            (ServerConfig.ResolveInheritConfig serverConfig (proxyInherit w))] ++
         (if decide (size (ServerConfig.Env serverConfig) = 0) then []
          else [EvSetEnvironment c
                  ((fun kv => kv.1 +:+ "=" +:+ kv.2)
                     <$> range _ (ServerConfig.Env serverConfig))]) ++
         [EvConnect c] in
       nextClient out.1 = S (nextClient w) /\
       (exists rest, events out.1 = events w ++ spawn ++ rest) /\
       ((exists msg,
            IsError out.2.1 = true /\
            out.2.1 = metadata w (NewToolResultError msg) /\
            dynamicServers out.1 =
              <[name := reconnectFailed info msg serverConfig]> (dynamicServers w) /\
            proxyClients out.1 = proxyClients w /\ registry out.1 = registry w) \/
        (exists tools,
            IsError out.2.1 = false /\
            dynamicServers out.1 =
              <[name := DynamicServerInfo.mk (DynamicServerInfo.Name info) (Some c)
                          (DynamicServerInfo.Tools info) serverConfig true ""]>
                (dynamicServers w) /\
            proxyClients out.1 = replaceClient name c (proxyClients w) /\
            registry out.1 =
              registry w ++
              ((fun tool => (remoteTool name tool, c))
                 <$> filter (fun tool => prefixed name tool ∈ DynamicServerInfo.Tools info)
                       tools))))).
Proof.
  intros out. subst out. unfold handleServerReconnect.
  destruct w as [ds pi pc rg bt en fn rf ev nc]; simpl.
  destruct en; simpl.
  all: destruct (RequireString request "name") as [name|] eqn:Hname; simpl;
    [|split; [done|split; [done|left; rewrite ?metadata_IsError; repeat split;
                                 try done; by left]]].
  all: destruct (ds !! name) as [info|] eqn:Hinfo; simpl;
    [|split; [done|split; [done|left; rewrite ?metadata_IsError; repeat split;
                                 try done; right; left; by exists name]]].
  all: destruct (DynamicServerInfo.IsConnected info) eqn:Hconn; simpl;
    [split; [done|split; [done|left; rewrite ?metadata_IsError; repeat split;
                                try done; right; right; exists name, info;
                                split; [done|split; [done|by left]]]]|].
  all: destruct (decide (GetString request "command" "" <> "")) as [Hcmd|Hcmd]; simpl.
  all: try (destruct (Fields _) as [|command0 args] eqn:Hfields; simpl;
    [split; [done|split; [done|left; rewrite ?metadata_IsError; repeat split;
                                try done; right; right; exists name, info;
                                split; [done|split; [done|right; left; done]]]]|]).
  all: try (destruct (decide (ServerConfig.Command _ = "")) as [Hstored|Hstored]; simpl;
    [split; [done|split; [done|left; rewrite ?metadata_IsError; repeat split;
                                try done; right; right; exists name, info;
                                split; [done|split; [done|right; right; split; [|done];
                                  by destruct (decide (GetString request "command" "" = ""));
                                    [|exfalso; apply Hcmd]]]]]|]).
  all: try (destruct (decide (size _ = 0)) as [Hsize|Hsize]; simpl).
  all: try (exfalso; apply Hsize; apply map_size_empty).
  all: match goal with
       | |- context [Connect ?h ?c] =>
           destruct (Connect h c) as [err|] eqn:Hconnect; simpl
       end.
  all: try match goal with
       | |- context [Initialize ?h ?c] =>
           destruct (Initialize h c) as [err|] eqn:Hinit; simpl
       end.
  all: try match goal with
       | |- context [ListTools ?h ?c] =>
           destruct (ListTools h c) as [err|tools] eqn:Htools; simpl
       end.
  all: try match goal with
       | |- context [foldl (reRegisterOne ?n ?c ?r) ?w0 ?tl] =>
           pose proof (reRegister_registry n c r tl w0) as Hreg;
           destruct (reRegister_tables n c r tl w0)
             as (Hs&He&Hpc&Hnc&Hen&Hfn&Hrf&Hpi&Hbt);
           cbv zeta in Hs, He, Hpc, Hnc, Hen, Hfn, Hrf, Hpi, Hbt;
           unfold respond, recordMessage;
           repeat (rewrite ?Hs, ?He, ?Hpc, ?Hnc, ?Hen, ?Hfn, ?Hrf, ?Hpi, ?Hbt, ?Hreg; simpl)
       end.
  all: split; [done|]; split; [done|]; right.
  all: eexists name, info, _.
  all: split; [done|]; split; [done|]; split; [done|].
  all: split;
    [first [right; split; [by destruct (decide (GetString request "command" "" = ""));
                             [|exfalso; apply Hcmd]|split; [done|reflexivity]]
           |left; eexists _, _; split; [done|split; [done|reflexivity]]]|].
  all: simpl; split; [done|].
  all: rewrite ?Hsize; simpl.
  all: try (destruct (decide (size (ServerConfig.Env (DynamicServerInfo.Config info)) = 0));
            [done|]).
  all: try (destruct (decide (size (∅ : gmap string string) = 0)) as [_|Hne];
            [|exfalso; apply Hne; apply map_size_empty]).
  all: rewrite <- ?app_assoc; simpl.
  all: split; [by eexists|].
  all: first [left; eexists; split; [rewrite ?metadata_IsError; reflexivity|];
              split; [by apply metadata_same|]; repeat split; reflexivity
             |right; eexists; rewrite ?metadata_IsError, ?insert_insert_eq;
              repeat split; reflexivity].
Qed.

(** *** [server_disconnect] and the proxy handlers, case by case *)

Lemma disconnect_cases request w :
  let out := disconnect request w in
  out.2.2 = None /\ registry out.1 = registry w /\ baseTools out.1 = baseTools w /\
  nextClient out.1 = nextClient w /\
  ((dynamicServers out.1 = dynamicServers w /\ proxyClients out.1 = proxyClients w /\
    events out.1 = events w /\
    forall name info, RequireString request "name" = Some name ->
                      dynamicServers w !! name = Some info ->
                      DynamicServerInfo.IsConnected info = false) \/
   (exists name info,
       RequireString request "name" = Some name /\
       dynamicServers w !! name = Some info /\
       DynamicServerInfo.IsConnected info = true /\
       IsError out.2.1 = false /\
       dynamicServers out.1 = <[name := disconnected info]> (dynamicServers w) /\
       proxyClients out.1 =
         match DynamicServerInfo.Client info with
         | Some _ => filter (fun c => MCPClient.ServerName c <> name) (proxyClients w)
         | None => proxyClients w
         end /\
       events out.1 =
         events w ++ match DynamicServerInfo.Client info with
                     | Some c => [EvClose c]
                     | None => []
                     end)).
Proof.
  intros out. subst out. unfold handleServerDisconnect.
  destruct w as [ds pi pc rg bt en fn rf ev nc]; simpl.
  destruct en; simpl.
  all: destruct (RequireString request "name") as [name|] eqn:Hname; simpl;
    [|repeat (split; [done|]); left; repeat split; done].
  all: destruct (ds !! name) as [info|] eqn:Hinfo; simpl;
    [|repeat (split; [done|]); left; repeat split; try done; congruence].
  all: destruct (DynamicServerInfo.IsConnected info) eqn:Hconn; simpl;
    [|repeat (split; [done|]); left; repeat split; try done; congruence].
  all: destruct (DynamicServerInfo.Client info) as [c|] eqn:Hc; simpl.
  all: repeat (split; [done|]); right; exists name, info.
  all: rewrite ?metadata_IsError, ?Hc, ?app_nil_r; repeat split; done.
Qed.

Lemma proxy_cases serverName tool request w :
  let out := proxyHandler serverName tool request w in
  out.2.2 = None /\ registry out.1 = registry w /\ baseTools out.1 = baseTools w /\
  nextClient out.1 = nextClient w /\ proxyClients out.1 = proxyClients w /\
  (dynamicServers out.1 = dynamicServers w \/
   exists info c err,
     dynamicServers w !! serverName = Some info /\
     DynamicServerInfo.IsConnected info = true /\
     DynamicServerInfo.Client info = Some c /\
     isConnectionError ToLower err = true /\
     dynamicServers out.1 =
       <[serverName :=
           DynamicServerInfo.mk (DynamicServerInfo.Name info) (Some c)
             (DynamicServerInfo.Tools info) (DynamicServerInfo.Config info)
             false err]> (dynamicServers w)).
Proof.
  intros out. subst out. unfold createDynamicProxyHandler. cbv zeta.
  destruct w as [ds pi pc rg bt en fn rf ev nc]; simpl.
  destruct en; simpl.
  all: destruct (ds !! serverName) as [info|] eqn:Hinfo; simpl;
    [|repeat (split; [done|]); by left].
  all: destruct (DynamicServerInfo.IsConnected info) eqn:Hconn; simpl;
    [|repeat (split; [done|]); by left].
  all: destruct (DynamicServerInfo.Client info) as [c|] eqn:Hc; simpl;
    [|repeat (split; [done|]); by left].
  all: destruct (CallTool _ c tool _) as [err|res]; simpl;
    [|repeat (split; [done|]); by left].
  all: destruct (isConnectionError ToLower err) eqn:Herr; simpl;
    [|repeat (split; [done|]); by left].
  all: repeat (split; [done|]); right; exists info, c, err; by rewrite Hc.
Qed.

(** *** [server_remove], case by case *)

Lemma remove_cases request w :
  match handleServerRemove Abs request w with
  | Panicked w' =>
      exists name info,
        RequireString request "name" = Some name /\
        dynamicServers w !! name = Some info /\
        (DynamicServerInfo.Client info = None \/ proxyClients w = [])
  | Returned w' r =>
      r.2 = None /\ registry w' = registry w /\ baseTools w' = baseTools w /\
      nextClient w' = nextClient w /\
      ((IsError r.1 = true /\
        dynamicServers w' = dynamicServers w /\ proxyClients w' = proxyClients w /\
        events w' = events w /\
        (RequireString request "name" = None \/
         exists name, RequireString request "name" = Some name /\
                      dynamicServers w !! name = None)) \/
       (exists name info c,
           RequireString request "name" = Some name /\
           dynamicServers w !! name = Some info /\
           DynamicServerInfo.Client info = Some c /\
           IsError r.1 = false /\
           dynamicServers w' = delete name (dynamicServers w) /\
           proxyClients w' =
             filter (fun c' => MCPClient.id c' <> MCPClient.id c) (proxyClients w) /\
           events w' = events w ++ [EvClose c]))
  end.
Proof.
  unfold handleServerRemove.
  destruct w as [ds pi pc rg bt en fn rf ev nc]; simpl.
  destruct en; simpl.
  all: destruct (RequireString request "name") as [name|] eqn:Hname; simpl;
    [|repeat (split; [done|]); left; rewrite ?metadata_IsError; repeat split;
      try done; by left].
  all: destruct (ds !! name) as [info|] eqn:Hinfo; simpl;
    [|repeat (split; [done|]); left; rewrite ?metadata_IsError; repeat split;
      try done; right; by exists name].
  all: destruct (DynamicServerInfo.Client info) as [c|] eqn:Hc; simpl;
    [|exists name, info; repeat split; try done; by left].
  all: destruct pc as [|c0 pc]; simpl;
    [exists name, info; repeat split; try done; by right|].
  all: repeat (split; [done|]); right; exists name, info, c.
  all: rewrite ?metadata_IsError; repeat split; done.
Qed.

(** *** The invariant *)

Lemma filter_ids_NoDup (P : MCPClient.t -> Prop) `{!forall c, Decision (P c)} clients :
  NoDup (MCPClient.id <$> clients) -> NoDup (MCPClient.id <$> filter P clients).
Proof.
  intros Hnd. eapply sublist_NoDup; [exact Hnd|].
  apply fmap_sublist, sublist_filter.
Qed.

Lemma wf_same w w' :
  dynamicServers w' = dynamicServers w -> proxyClients w' = proxyClients w ->
  nextClient w <= nextClient w' ->
  wellFormed w -> wellFormed w'.
Proof.
  intros Hs Hc Hn (H1&H2&H3). unfold wellFormed. rewrite Hs, Hc.
  split; [done|]. split; [done|]. intros c Hin. specialize (H3 c Hin). lia.
Qed.

Lemma wf_add request w : wellFormed w -> wellFormed (add request w).1.
Proof.
  intros Hwf. destruct (add_cases request w) as
    [_ [(_&Hs&Hc&_&_&Hn)|(name&command&command0&args&tools&_&_&Hnone&_&_&_&Hs&Hc&_&_&_&Hn)]].
  { by apply (wf_same w). }
  destruct Hwf as (H1&H2&H3). unfold wellFormed. rewrite Hs, Hc, Hn.
  split; [|split].
  - intros name' info' Hl. apply lookup_insert_Some in Hl as [[<- <-]|[Hne Hl]].
    + simpl. split; [done|]. split; [done|]. split; [by eexists|].
      intros c [= <-]. split; [done|]. apply elem_of_app. right. left.
    + destruct (H1 name' info' Hl) as (?&?&?&Hcl). split; [done|]. split; [done|].
      split; [done|]. intros c Hcc. destruct (Hcl c Hcc). split; [done|].
      apply elem_of_app. by left.
  - rewrite fmap_app. apply NoDup_app. split; [done|]. split; [|apply NoDup_singleton].
    intros i Hi Hi'. apply list_elem_of_fmap in Hi as (c&->&Hc').
    apply list_elem_of_singleton in Hi'. simpl in Hi'. specialize (H3 c Hc'). lia.
  - intros c Hin. apply elem_of_app in Hin as [Hin|Hin].
    + specialize (H3 c Hin). lia.
    + apply list_elem_of_singleton in Hin as ->. simpl. lia.
Qed.

Lemma wf_disconnect request w : wellFormed w -> wellFormed (disconnect request w).1.
Proof.
  intros Hwf. destruct (disconnect_cases request w) as
    (_&_&_&Hn&[(Hs&Hc&_)|(name&info&_&Hinfo&_&_&Hs&Hc&_)]).
  { apply (wf_same w); [done..|lia|done]. }
  destruct Hwf as (H1&H2&H3). unfold wellFormed. rewrite Hs, Hc, Hn.
  split; [|split].
  - intros name' info' Hl. apply lookup_insert_Some in Hl as [[<- <-]|[Hne Hl]].
    + destruct (H1 name info Hinfo) as (?&?&_). simpl. done.
    + destruct (H1 name' info' Hl) as (?&?&?&Hcl). split; [done|]. split; [done|].
      split; [done|]. intros c Hcc. destruct (Hcl c Hcc) as [Hsn Hin]. split; [done|].
      destruct (DynamicServerInfo.Client info); [|done].
      apply list_elem_of_filter. split; [congruence|done].
  - destruct (DynamicServerInfo.Client info); [|done]. by apply filter_ids_NoDup.
  - intros c Hin. apply H3. destruct (DynamicServerInfo.Client info); [|done].
    by apply list_elem_of_filter in Hin as [_ ?].
Qed.

Lemma wf_proxy serverName tool request w :
  wellFormed w -> wellFormed (proxyHandler serverName tool request w).1.
Proof.
  intros Hwf. destruct (proxy_cases serverName tool request w) as
    (_&_&_&Hn&Hc&[Hs|(info&c&err&Hinfo&_&Hcl&_&Hs)]).
  { apply (wf_same w); [done..|lia|done]. }
  destruct Hwf as (H1&H2&H3). unfold wellFormed. rewrite Hs, Hc, Hn.
  split; [|done].
  intros name' info' Hl. apply lookup_insert_Some in Hl as [[<- <-]|[Hne Hl]].
  - destruct (H1 serverName info Hinfo) as (?&?&_&Hcc). simpl.
    split; [done|]. split; [done|]. split; [done|].
    intros c' [= <-]. by apply Hcc.
  - by apply H1.
Qed.

Lemma wf_reconnect request w : wellFormed w -> wellFormed (reconnect request w).1.
Proof.
  intros Hwf. destruct (reconnect_cases request w) as
    (_&_&[(_&Hs&Hc&_&Hn&_)|(name&info&cfg&_&Hinfo&_&Hcfg&Hn&_&Hcase)]).
  { apply (wf_same w); [done..|lia|done]. }
  destruct Hwf as (H1&H2&H3).
  destruct (H1 name info Hinfo) as (HN&HC&_&Hcl).
  assert (Hcn : ServerConfig.Name cfg = name).
  { destruct Hcfg as [(c0&args&_&_&->)|(_&_&->)]; done. }
  destruct Hcase as [(msg&_&_&Hs&Hc&_)|(tools&_&Hs&Hc&_)];
    unfold wellFormed; rewrite Hs, Hc, Hn.
  - split; [|split; [done|]].
    + intros name' info' Hl. apply lookup_insert_Some in Hl as [[<- <-]|[Hne Hl]].
      * simpl. done.
      * by apply H1.
    + intros c Hin. specialize (H3 c Hin). lia.
  - split; [|split].
    + intros name' info' Hl. apply lookup_insert_Some in Hl as [[<- <-]|[Hne Hl]].
      * simpl. split; [done|]. split; [done|]. split; [by eexists|].
        intros c [= <-]. split; [done|]. apply replaceClient_new.
      * destruct (H1 name' info' Hl) as (?&?&?&Hcl'). split; [done|]. split; [done|].
        split; [done|]. intros c Hcc. destruct (Hcl' c Hcc) as [Hsn Hin].
        split; [done|]. apply replaceClient_other; [done|congruence].
    + apply replaceClient_NoDup; [done|]. intros x Hx. specialize (H3 x Hx).
      simpl. lia.
    + intros c Hin. apply replaceClient_elem in Hin as [->|Hin]; [simpl; lia|].
      specialize (H3 c Hin). lia.
Qed.

Lemma wf_remove request w w' r :
  wellFormed w -> handleServerRemove Abs request w = Returned w' r -> wellFormed w'.
Proof.
  intros Hwf Hr. pose proof (remove_cases request w) as Hcases. rewrite Hr in Hcases.
  destruct Hcases as (_&_&_&Hn&[(_&Hs&Hc&_)|(name&info&c&_&Hinfo&Hcl&_&Hs&Hc&_)]).
  { apply (wf_same w); [done..|lia|done]. }
  destruct Hwf as (H1&H2&H3). unfold wellFormed. rewrite Hs, Hc, Hn.
  destruct (H1 name info Hinfo) as (_&_&_&Hcc). destruct (Hcc c Hcl) as [Hsn Hin].
  split; [|split].
  - intros name' info' Hl. apply lookup_delete_Some in Hl as [Hne Hl].
    destruct (H1 name' info' Hl) as (?&?&?&Hcl'). split; [done|]. split; [done|].
    split; [done|]. intros c' Hc'. destruct (Hcl' c' Hc') as [Hsn' Hin'].
    split; [done|]. apply list_elem_of_filter. split; [|done].
    intros Hid. apply Hne.
    assert (c' = c) as -> by (by apply (NoDup_fmap_inj MCPClient.id (proxyClients w))).
    congruence.
  - by apply filter_ids_NoDup.
  - intros c' Hin'. apply H3. by apply list_elem_of_filter in Hin' as [_ ?].
Qed.

End Cases.

Section Listing.
Variable Abs : string -> option string.
Variable range : forall A : Type, gmap string A -> list (string * A).
Hypothesis range_perm :
  forall (A : Type) (m : gmap string A), range A m ≡ₚ map_to_list m.
Variable configServers : list ServerConfig.t.
Variable GetAllTools : list (RemoteTool.t * MCPClient.t) -> list RemoteTool.t.
Variable discoveryResults : list DiscoveryResult.

Local Arguments addRecordingMetadata : simpl never.

(** The line of a dynamic server and the line of a static server in the
    listing. *)
Local Abbreviation serverLine name info :=
  ("- " +:+ name +:+ " [" +:+ statusOf info +:+ "] - " +:+
   pretty (length (DynamicServerInfo.Tools info)) +:+ " tools" +:+ newline).
Local Abbreviation staticLine server :=
  ("- " +:+ ServerConfig.Name server +:+ " [static]" +:+ newline).

Lemma append_nil_r (a : string) : a +:+ "" = a.
Proof. induction a as [|x a IH]; [done|]. by rewrite append_String, IH. Qed.

Lemma writeTools_extends result tools :
  exists s, writeTools result tools = result +:+ s.
Proof.
  unfold writeTools. revert result.
  induction tools as [|t tools IH]; intros result; simpl.
  - exists "". by rewrite append_nil_r.
  - destruct (IH (WriteString result ("  " +:+ bullet +:+ " " +:+ t +:+ newline)))
      as [s ->].
    unfold WriteString. rewrite append_assoc. by eexists.
Qed.

Lemma writeServer_extends result name info :
  exists s, writeServer result (name, info) = result +:+ serverLine name info +:+ s.
Proof.
  unfold writeServer. cbv zeta.
  set (line := serverLine name info).
  case_decide; [|case_decide].
  - destruct (writeTools_extends (WriteString result line)
                (DynamicServerInfo.Tools info)) as [s ->].
    unfold WriteString. rewrite append_assoc. by exists s.
  - destruct (writeTools_extends (WriteString result line)
                (take 3 (DynamicServerInfo.Tools info))) as [s ->].
    unfold WriteString. rewrite !append_assoc. by eexists.
  - exists "". unfold WriteString. by rewrite append_nil_r.
Qed.

Lemma writeServers_extends l result :
  exists s,
    foldl writeServer result l = result +:+ s /\
    forall name info, (name, info) ∈ l ->
      exists pre post, s = pre +:+ serverLine name info +:+ post.
Proof.
  revert result. induction l as [|[name info] l IH]; intros result; cbn [foldl].
  - exists "". split; [by rewrite append_nil_r|]. intros ? ? Hin.
    by apply elem_of_nil in Hin.
  - destruct (writeServer_extends result name info) as [s1 ->].
    destruct (IH (result +:+ serverLine name info +:+ s1)) as (s2&->&Hall).
    exists (serverLine name info +:+ s1 +:+ s2). split.
    + by rewrite !append_assoc.
    + intros name' info' Hin. apply elem_of_cons in Hin as [[= -> ->]|Hin].
      * exists "", (s1 +:+ s2). by rewrite !append_assoc.
      * destruct (Hall name' info' Hin) as (pre&post&->).
        exists (serverLine name info +:+ s1 +:+ pre), post. by rewrite !append_assoc.
Qed.

Lemma writeStatic_extends l result :
  exists s,
    foldl (fun result server => WriteString result (staticLine server)) result l =
      result +:+ s /\
    forall server, server ∈ l -> exists pre post, s = pre +:+ staticLine server +:+ post.
Proof.
  revert result. induction l as [|x l IH]; intros result; cbn [foldl].
  - exists "". split; [by rewrite append_nil_r|]. intros ? Hin.
    by apply elem_of_nil in Hin.
  - destruct (IH (WriteString result (staticLine x))) as (s2&->&Hall).
    unfold WriteString. exists (staticLine x +:+ s2). split.
    + by rewrite !append_assoc.
    + intros server Hin. apply elem_of_cons in Hin as [->|Hin].
      * exists "", s2. by rewrite !append_assoc.
      * destruct (Hall server Hin) as (pre&post&->).
        exists (staticLine x +:+ pre), post. by rewrite !append_assoc.
Qed.

Lemma Contains_middle (pre line post : string) :
  Contains (pre +:+ line +:+ post) line = true.
Proof. apply Contains_spec. by exists pre, post. Qed.

(** A line that the text built so far contains stays in it. *)
Local Abbreviation has line text := (exists pre post, text = pre +:+ line +:+ post).

Lemma has_append line text s : has line text -> has line (text +:+ s).
Proof. intros (pre&post&->). exists pre, (post +:+ s). by rewrite !append_assoc. Qed.

Lemma has_suffix line text s : has line s -> has line (text +:+ s).
Proof. intros (pre&post&->). exists (text +:+ pre), post. by rewrite !append_assoc. Qed.

Lemma listingText_servers w :
  let text := listingText range configServers w in
  (forall name info,
      dynamicServers w !! name = Some info -> has (serverLine name info) text) /\
  (forall server, server ∈ configServers -> has (staticLine server) text).
Proof.
  unfold listingText. cbv zeta. split.
  - intros name info Hinfo.
    assert (Hsize : 0 < size (dynamicServers w)).
    { destruct (decide (size (dynamicServers w) = 0)) as [H0|H0]; [|lia].
      apply map_size_empty_inv in H0. rewrite H0 in Hinfo.
      by rewrite lookup_empty in Hinfo. }
    assert (Hin : (name, info) ∈ range _ (dynamicServers w)).
    { rewrite range_perm. by apply elem_of_map_to_list. }
    destruct (decide (size (dynamicServers w) = 0 /\ length configServers = 0))
      as [[H0 _]|_]; [lia|].
    destruct (decide (0 < size (dynamicServers w))) as [_|]; [|done].
    unfold WriteString at 1. apply has_append.
    match goal with
    | |- context [foldl writeServer ?r ?l] =>
        destruct (writeServers_extends l r) as (s&->&Hall)
    end.
    apply has_suffix. by apply Hall.
  - intros server Hin.
    assert (Hlen : 0 < length configServers).
    { destruct configServers; [by apply elem_of_nil in Hin|simpl; lia]. }
    destruct (decide (0 < length configServers)) as [_|]; [|done].
    unfold WriteString at 1. apply has_append.
    match goal with
    | |- context [foldl ?f ?r configServers] =>
        destruct (writeStatic_extends configServers r) as (s&->&Hall)
    end.
    assert (Hstatic : forall r, has (staticLine server) (WriteString (r +:+ s) newline)).
    { intros r. unfold WriteString. apply has_append, has_suffix. by apply Hall. }
    match goal with
    | |- context [if ?c then _ else _] => destruct c
    end; [|match goal with
           | |- context [if ?c then _ else _] => destruct c
           end].
    + unfold WriteString at 1. apply has_append. apply Hstatic.
    + match goal with
      | |- context [foldl writeServer ?r ?l] =>
          destruct (writeServers_extends l r) as (s'&->&_)
      end.
      apply has_append. unfold WriteString at 1. apply has_append. apply Hstatic.
    + apply Hstatic.
Qed.

Lemma listingText_total w :
  exists pre,
    listingText range configServers w =
    pre +:+ newline +:+ "Total servers: " +:+
    pretty (length configServers + size (dynamicServers w)) +:+ " (static: " +:+
    pretty (length configServers) +:+ ", dynamic: " +:+
    pretty (size (dynamicServers w)) +:+ ")" +:+ newline.
Proof. unfold listingText. cbv zeta. unfold WriteString at 1. by eexists. Qed.

(** *** [populateStaticServers] *)

Local Abbreviation populate := (populateOne GetAllTools discoveryResults).

Lemma populateOne_frame w server :
  let w' := populate w server in
  proxyClients w' = proxyClients w /\ registry w' = registry w /\
  baseTools w' = baseTools w /\ nextClient w' = nextClient w /\
  events w' = events w /\ proxyInherit w' = proxyInherit w /\
  recordEnabled w' = recordEnabled w /\ recordFilename w' = recordFilename w /\
  recordFile w' = recordFile w.
Proof.
  cbv zeta. unfold populateOne.
  by destruct (findClient (ServerConfig.Name server) (proxyClients w)).
Qed.

Lemma populate_frame l w :
  let w' := foldl populate w l in
  proxyClients w' = proxyClients w /\ registry w' = registry w /\
  baseTools w' = baseTools w /\ nextClient w' = nextClient w /\
  events w' = events w /\ proxyInherit w' = proxyInherit w /\
  recordEnabled w' = recordEnabled w /\ recordFilename w' = recordFilename w /\
  recordFile w' = recordFile w.
Proof.
  cbv zeta. revert w. induction l as [|x l IH]; intros w; cbn [foldl]; [done|].
  destruct (IH (populate w x)) as (->&->&->&->&->&->&->&->&->).
  apply populateOne_frame.
Qed.

(** The record that the loop leaves for a server of the configuration. *)
Local Abbreviation populated w server :=
  (match findClient (ServerConfig.Name server) (proxyClients w) with
   | Some matchingClient =>
       DynamicServerInfo.mk (ServerConfig.Name server) (Some matchingClient)
         (RemoteTool.PrefixedName
            <$> filter (fun tool => RemoteTool.ServerName tool = ServerConfig.Name server)
                  (GetAllTools (registry w)))
         server true ""
   | None =>
       DynamicServerInfo.mk (ServerConfig.Name server) None [] server false
         (if decide (discoveryError (ServerConfig.Name server) discoveryResults = "")
          then "Failed to connect during initialization"
          else discoveryError (ServerConfig.Name server) discoveryResults)
   end).

Lemma populateOne_servers w server :
  dynamicServers (populate w server) =
  <[ServerConfig.Name server := populated w server]> (dynamicServers w).
Proof.
  unfold populateOne.
  by destruct (findClient (ServerConfig.Name server) (proxyClients w)).
Qed.

Lemma populate_other l w name :
  (forall server, server ∈ l -> ServerConfig.Name server <> name) ->
  dynamicServers (foldl populate w l) !! name = dynamicServers w !! name.
Proof.
  revert w. induction l as [|x l IH]; intros w Hno; cbn [foldl]; [done|].
  rewrite IH by (intros s Hs; apply Hno; by right).
  rewrite populateOne_servers. apply lookup_insert_ne. apply Hno. left.
Qed.

Lemma populate_lookup l w server :
  NoDup (ServerConfig.Name <$> l) -> server ∈ l ->
  dynamicServers (foldl populate w l) !! ServerConfig.Name server =
  Some (populated w server).
Proof.
  revert w. induction l as [|x l IH]; intros w Hnd Hin; cbn [foldl].
  - by apply elem_of_nil in Hin.
  - rewrite fmap_cons in Hnd. apply NoDup_cons in Hnd as [Hnotin Hnd].
    destruct (populateOne_frame w x) as (Hc&Hr&_).
    apply elem_of_cons in Hin as [->|Hin].
    + rewrite populate_other.
      * rewrite populateOne_servers. apply lookup_insert_eq.
      * intros s Hs Heq. apply Hnotin. rewrite <- Heq. apply list_elem_of_fmap.
        by exists s.
    + rewrite (IH _ Hnd Hin). cbv zeta in Hc, Hr. by rewrite Hc, Hr.
Qed.

Lemma populate_size l w :
  NoDup (ServerConfig.Name <$> l) ->
  (forall server, server ∈ l -> dynamicServers w !! ServerConfig.Name server = None) ->
  size (dynamicServers (foldl populate w l)) = size (dynamicServers w) + length l.
Proof.
  revert w. induction l as [|x l IH]; intros w Hnd Hfresh; cbn [foldl].
  - simpl. lia.
  - rewrite fmap_cons in Hnd. apply NoDup_cons in Hnd as [Hnotin Hnd].
    rewrite IH; [|done|].
    + rewrite populateOne_servers, map_size_insert_None by (apply Hfresh; left).
      simpl. lia.
    + intros s Hs. rewrite populateOne_servers, lookup_insert_ne.
      * apply Hfresh. by right.
      * intros Heq. apply Hnotin. rewrite Heq. apply list_elem_of_fmap. by exists s.
Qed.

Lemma wf_populateOne w server : wellFormed w -> wellFormed (populate w server).
Proof.
  intros (H1&H2&H3). destruct (populateOne_frame w server) as (Hc&_&_&Hn&_).
  cbv zeta in Hc, Hn. unfold wellFormed.
  rewrite populateOne_servers, Hc, Hn. split; [|done].
  intros name info Hl. apply lookup_insert_Some in Hl as [[<- <-]|[Hne Hl]].
  - destruct (findClient (ServerConfig.Name server) (proxyClients w)) as [c|] eqn:Hf;
      simpl.
    + apply findClient_Some in Hf as [Hsn Hin].
      split; [done|]. split; [done|]. split; [by eexists|]. by intros c' [= <-].
    + done.
  - by apply H1.
Qed.

Lemma wf_populate l w : wellFormed w -> wellFormed (foldl populate w l).
Proof.
  revert w. induction l as [|x l IH]; intros w Hwf; cbn [foldl]; [done|].
  by apply IH, wf_populateOne.
Qed.

End Listing.

Section Lifecycle.
Variable Abs : string -> option string.
Variable Fields : string -> list string.
Variable ToLower : string -> string.
Variable range : forall A : Type, gmap string A -> list (string * A).
Hypothesis range_perm :
  forall (A : Type) (m : gmap string A), range A m ≡ₚ map_to_list m.
Variable configServers : list ServerConfig.t.
Variable GetAllTools : list (RemoteTool.t * MCPClient.t) -> list RemoteTool.t.
Variable discoveryResults : list DiscoveryResult.
Variable Connect : list Event -> MCPClient.t -> option string.
Variable Initialize : list Event -> MCPClient.t -> option string.
Variable ListTools : list Event -> MCPClient.t -> string + list ToolInfo.t.
Variable CallTool :
  list Event -> MCPClient.t -> string -> gmap string Arg -> string + UpstreamResult.t.

Local Abbreviation metadata := (addRecordingMetadata Abs).
Local Abbreviation proxyHandler := (createDynamicProxyHandler Abs ToLower CallTool).
Local Abbreviation disconnect := (handleServerDisconnect Abs).
Local Abbreviation reconnect :=
  (handleServerReconnect Abs Fields range Connect Initialize ListTools).
Local Abbreviation add := (handleServerAdd Abs Fields Connect Initialize ListTools).
Local Abbreviation remove := (handleServerRemove Abs).
Local Abbreviation list := (handleServerList Abs range configServers).
Local Abbreviation callTool :=
  (call Abs Fields ToLower range configServers Connect Initialize ListTools CallTool).

Local Arguments addRecordingMetadata : simpl never.

Lemma list_tables request w : sameTables w (list request w).1.
Proof.
  unfold handleServerList, sameTables.
  destruct (recordMessage_tables "request" "tool_call" "server_list" "proxy"
              (PRequest request) w) as (H1&H2&H3&H4&H5&H6&H7&H8&H9).
  cbv zeta in *.
  destruct (respond_tables Abs "server_list" "proxy"
              (NewToolResultText
                 (listingText range configServers
                    (recordMessage "request" "tool_call" "server_list" "proxy"
                       (PRequest request) w)))
              (recordMessage "request" "tool_call" "server_list" "proxy"
                 (PRequest request) w)) as (G1&G2&G3&G4&G5&G6&G7&G8&G9).
  cbv zeta in *.
  rewrite G1, G2, G3, G4, G5, G6, G7, G8, G9. done.
Qed.

Lemma remove_panics request name w info :
  RequireString request "name" = Some name ->
  dynamicServers w !! name = Some info ->
  DynamicServerInfo.Client info = None ->
  exists w', remove request w = Panicked w'.
Proof.
  intros Hname Hinfo Hc. unfold handleServerRemove.
  destruct w as [ds pi pc rg bt en fn rf ev nc]; simpl in *.
  destruct en; simpl; rewrite Hname; simpl; rewrite Hinfo; simpl; rewrite Hc;
    by eexists.
Qed.

Lemma disconnectPanic_wellFormed request w :
  wellFormed w -> disconnectPanic request w = None.
Proof.
  intros (H1&_&_). unfold disconnectPanic.
  destruct (recordMessage_tables "request" "tool_call" "server_disconnect" "proxy"
              (PRequest request) w) as (Hs&_&Hc&_).
  cbv zeta in Hs, Hc |- *. rewrite Hs, Hc.
  destruct (RequireString request "name") as [name|]; [|done].
  destruct (dynamicServers w !! name) as [info|] eqn:Hinfo; [|done].
  destruct (DynamicServerInfo.IsConnected info); [|done]. simpl.
  destruct (DynamicServerInfo.Client info) as [c|] eqn:Hcl; [|done].
  destruct (H1 name info Hinfo) as (_&_&_&Hin). destruct (Hin c Hcl) as [_ Hin'].
  destruct (proxyClients w); [|done]. by apply elem_of_nil in Hin'.
Qed.

Lemma disconnectPanic_refused request w :
  RequireString request "name" = None \/
  (exists name, RequireString request "name" = Some name /\
                dynamicServers w !! name = None) ->
  disconnectPanic request w = None.
Proof.
  intros H. unfold disconnectPanic.
  destruct (recordMessage_tables "request" "tool_call" "server_disconnect" "proxy"
              (PRequest request) w) as (Hs&_).
  cbv zeta in Hs |- *. rewrite Hs.
  destruct H as [->|(name&->&->)]; done.
Qed.

(** X16.  The handlers keep the table and the client list consistent.
    If every record of the table sits under its own name with a
    configuration of that name, every connected record has a client,
    the client of a record carries the record's name and is in the
    client list, and the clients of the list are distinct objects
    created before the next one to come, then the same holds after any
    call of a management tool or of a proxied tool that returns, and
    after [populateStaticServers]. *)
Theorem handlers_keep_wellFormed w :
  wellFormed w ->
  (forall t request w' r, callTool t request w = Returned w' r -> wellFormed w') /\
  wellFormed (populateStaticServers configServers GetAllTools discoveryResults w).1.
Proof.
  intros Hwf. split.
  - intros t request w' r Hcall. destruct t as [| | | | |h]; simpl in Hcall.
    4: rewrite (disconnectPanic_wellFormed request w Hwf) in Hcall.
    + injection Hcall as <- _. by apply wf_add.
    + by apply (wf_remove Abs request w w' r).
    + injection Hcall as <- _. destruct (list_tables request w) as (Hs&_&Hc&_&_&_&_&_&Hn).
      apply (wf_same w); [exact Hs|exact Hc| |exact Hwf].
      apply Nat.eq_le_incl. symmetry. exact Hn.
    + injection Hcall as <- _. by apply wf_disconnect.
    + injection Hcall as <- _. by apply wf_reconnect.
    + injection Hcall as <- _. by apply wf_proxy.
  - simpl. by apply wf_populate.
Qed.

(** X17.  The one panic.  In a consistent state a call of a tool panics
    exactly when it is [server_remove] for a server whose record has no
    client (the handler calls [Close] on the nil client): the record of
    a server that was disconnected, or of a static server that did not
    start.  The two [make] calls with the capacity
    [len(w.proxyServer.clients)-1] are not reached with an empty client
    list there, and no other statement of a handler panics (the calls
    into the libraries are taken to return). *)
Theorem panic_only_on_remove_without_client t request w :
  wellFormed w ->
  (exists w', callTool t request w = Panicked w') <->
  t = server_remove /\
  exists name info,
    RequireString request "name" = Some name /\
    dynamicServers w !! name = Some info /\
    DynamicServerInfo.Client info = None.
Proof.
  intros Hwf. pose proof Hwf as (H1&_&_). split.
  - intros [w' Hcall]. destruct t as [| | | | |h]; simpl in Hcall;
      rewrite ?(disconnectPanic_wellFormed request w Hwf) in Hcall; try discriminate.
    split; [done|]. pose proof (remove_cases Abs request w) as Hcases.
    rewrite Hcall in Hcases. destruct Hcases as (name&info&Hname&Hinfo&Hc).
    exists name, info. split; [done|]. split; [done|].
    destruct (DynamicServerInfo.Client info) as [c|] eqn:Hcl; [|done].
    destruct Hc as [Hc|Hc]; [done|].
    destruct (H1 name info Hinfo) as (_&_&_&Hin). destruct (Hin c Hcl) as [_ Hin'].
    rewrite Hc in Hin'. by apply elem_of_nil in Hin'.
  - intros [-> (name&info&Hname&Hinfo&Hc)]. simpl. by eapply remove_panics.
Qed.

(** X18.  [server_remove] after [server_disconnect].  Disconnecting a
    connected server and then removing it does not return: the
    disconnect leaves the record without a client, and the remove
    handler panics on it. *)
Theorem server_remove_after_disconnect_panics reqD reqR name w info :
  RequireString reqD "name" = Some name ->
  RequireString reqR "name" = Some name ->
  dynamicServers w !! name = Some info ->
  DynamicServerInfo.IsConnected info = true ->
  exists w', handleServerRemove Abs reqR (handleServerDisconnect Abs reqD w).1 = Panicked w'.
Proof.
  intros HnameD HnameR Hinfo Hconn.
  destruct (disconnect_connected Abs reqD name w info HnameD Hinfo Hconn) as (Hs&_).
  apply (remove_panics reqR name _ (disconnected info)); [done| |done].
  rewrite Hs. apply lookup_insert_eq.
Qed.

Lemma proxy_unknown serverName tool request w :
  dynamicServers w !! serverName = None ->
  let out := proxyHandler serverName tool request w in
  events out.1 = events w /\ dynamicServers out.1 = dynamicServers w /\
  out.2.1 = metadata w (NewToolResultError ("Server '" +:+ serverName +:+ "' not found")).
Proof.
  intros Hnone out. subst out. unfold createDynamicProxyHandler.
  destruct w as [ds pi pc rg bt en fn rf ev nc]; simpl in *.
  destruct en; simpl; rewrite Hnone; simpl; repeat split; by apply metadata_same.
Qed.

(** X19.  [server_remove] of a server with a client.  The handler closes
    the client, deletes the record and takes the client out of the
    client list; the registry and the bound tools stay as they are.
    Afterwards a call through any tool of that server makes no call on
    any client and answers [Server '<name>' not found], and a second
    [server_remove] of the name answers with an error and changes
    nothing. *)
Theorem server_remove_unbinds request name w info c :
  RequireString request "name" = Some name ->
  dynamicServers w !! name = Some info ->
  DynamicServerInfo.Client info = Some c ->
  c ∈ proxyClients w ->
  exists w' r,
    handleServerRemove Abs request w = Returned w' r /\
    r.2 = None /\ IsError r.1 = false /\
    dynamicServers w' = delete name (dynamicServers w) /\
    proxyClients w' =
      filter (fun c' => MCPClient.id c' <> MCPClient.id c) (proxyClients w) /\
    events w' = events w ++ [EvClose c] /\
    registry w' = registry w /\ baseTools w' = baseTools w /\
    (forall tool req,
        let out := createDynamicProxyHandler Abs ToLower CallTool name tool req w' in
        events out.1 = events w' /\ IsError out.2.1 = true /\
        out.2.1 =
          addRecordingMetadata Abs w
            (NewToolResultError ("Server '" +:+ name +:+ "' not found"))) /\
    (exists w'' r',
        handleServerRemove Abs request w' = Returned w'' r' /\
        IsError r'.1 = true /\ dynamicServers w'' = dynamicServers w' /\
        events w'' = events w').
Proof.
  intros Hname Hinfo Hc Hin.
  pose proof (remove_cases Abs request w) as Hcases.
  destruct (remove request w) as [w' r|w'] eqn:Hr.
  2:{ destruct Hcases as (n&i&Hn&Hi&[Hcl|Hnil]).
      - congruence.
      - rewrite Hnil in Hin. by apply elem_of_nil in Hin. }
  rename Hin into Hin0.
  destruct Hcases as (Hnil&Hrg&Hbt&_&[(_&_&_&_&[Hn|(n&Hn&Hi)])|
                                       (n&i&c'&Hn&Hi&Hc'&Herr&Hs&Hpc&Hev)]);
    [congruence|congruence|].
  rename Hn into Hn0.
  assert (n = name) as -> by congruence. assert (i = info) as -> by congruence.
  assert (c' = c) as -> by congruence.
  exists w', r. do 8 (split; [done|]).
  assert (Hgone : dynamicServers w' !! name = None) by (rewrite Hs; apply lookup_delete_eq).
  assert (Hmeta : forall res, metadata w' res = metadata w res).
  { intros res. pose proof Hr as Hr'. unfold handleServerRemove in Hr'.
    destruct w as [ds pi pc rg bt en fn rf ev nc]; simpl in *.
    destruct en; simpl in Hr'; rewrite Hname in Hr'; simpl in Hr'; rewrite Hinfo in Hr';
      simpl in Hr'; rewrite Hc in Hr'; destruct pc; simpl in Hr'; try discriminate;
      injection Hr' as <- _; by apply metadata_same. }
  split.
  - intros tool req out. subst out.
    destruct (proxy_unknown name tool req w' Hgone) as (He&_&Hres).
    split; [done|]. rewrite Hres, Hmeta. split; [|done]. by rewrite metadata_IsError.
  - pose proof (remove_cases Abs request w') as Hcases'.
    destruct (remove request w') as [w'' r'|w''] eqn:Hr'.
    + destruct Hcases' as (_&_&_&_&[(He&Hs'&_&Hev'&_)|(n&i&c'&Hn&Hi'&_)]).
      * by exists w'', r'.
      * congruence.
    + destruct Hcases' as (n&i&Hn&Hi'&_). congruence.
Qed.

(** X20.  [server_list] only reads.  The handler returns a success
    result and changes nothing but the recording; its text has, for
    every record of the table, the line of that server with its status
    and its number of tools, for every server of the configuration file
    its [static] line, and at the end the line of totals, in which the
    total is the number of configured servers plus the number of
    records. *)
Theorem server_list_lists request w :
  let out := handleServerList Abs range configServers request w in
  let text := listingText range configServers w in
  out.2.2 = None /\ IsError out.2.1 = false /\ sameTables w out.1 /\
  out.2.1 = addRecordingMetadata Abs w (NewToolResultText text) /\
  (forall name info,
      dynamicServers w !! name = Some info ->
      Contains text
        ("- " +:+ name +:+ " [" +:+ statusOf info +:+ "] - " +:+
         pretty (length (DynamicServerInfo.Tools info)) +:+ " tools" +:+ newline)
      = true) /\
  (forall server,
      server ∈ configServers ->
      Contains text ("- " +:+ ServerConfig.Name server +:+ " [static]" +:+ newline)
      = true) /\
  exists pre,
    text =
    pre +:+ newline +:+ "Total servers: " +:+
    pretty (length configServers + size (dynamicServers w)) +:+ " (static: " +:+
    pretty (length configServers) +:+ ", dynamic: " +:+
    pretty (size (dynamicServers w)) +:+ ")" +:+ newline.
Proof.
  intros out text. subst out text.
  split; [done|]. split; [unfold handleServerList; simpl; by rewrite metadata_IsError|].
  split; [apply list_tables|]. split.
  - unfold handleServerList.
    destruct w as [ds pi pc rg bt en fn rf ev nc]; simpl.
    destruct en; simpl; by apply metadata_same.
  - destruct (listingText_servers range range_perm configServers w) as [Hd Hs].
    split; [|split; [|apply listingText_total]].
    + intros name info Hinfo. apply Contains_spec. by apply Hd.
    + intros server Hin. apply Contains_spec. by apply Hs.
Qed.

(** X21.  [populateStaticServers].  When the names of the configured
    servers are pairwise different, the table has afterwards, for every
    server of the configuration, a record under its name that stores
    its configuration: connected, with the first client of that server
    name in the client list and the prefixed names of its registered
    tools, when there is such a client; and otherwise not connected,
    without client and without tools, with a non-empty error text.
    Records of other names are untouched and the call returns no
    error. *)
Theorem populateStaticServers_records w :
  NoDup (ServerConfig.Name <$> configServers) ->
  let out := populateStaticServers configServers GetAllTools discoveryResults w in
  out.2 = None /\
  (forall name,
      (forall server, server ∈ configServers -> ServerConfig.Name server <> name) ->
      dynamicServers out.1 !! name = dynamicServers w !! name) /\
  (forall server,
      server ∈ configServers ->
      exists info,
        dynamicServers out.1 !! ServerConfig.Name server = Some info /\
        DynamicServerInfo.Name info = ServerConfig.Name server /\
        DynamicServerInfo.Config info = server /\
        match DynamicServerInfo.Client info with
        | Some c =>
            DynamicServerInfo.IsConnected info = true /\
            findClient (ServerConfig.Name server) (proxyClients w) = Some c /\
            c ∈ proxyClients w /\ MCPClient.ServerName c = ServerConfig.Name server /\
            DynamicServerInfo.Tools info =
              RemoteTool.PrefixedName
                <$> filter (fun tool =>
                              RemoteTool.ServerName tool = ServerConfig.Name server)
                      (GetAllTools (registry w)) /\
            DynamicServerInfo.ErrorMessage info = ""
        | None =>
            DynamicServerInfo.IsConnected info = false /\
            (forall c, c ∈ proxyClients w ->
                       MCPClient.ServerName c <> ServerConfig.Name server) /\
            DynamicServerInfo.Tools info = [] /\
            DynamicServerInfo.ErrorMessage info <> ""
        end).
Proof.
  intros Hnd out. subst out. simpl. split; [done|]. split.
  - intros name Hno. by apply populate_other.
  - intros server Hin. eexists. split; [by apply populate_lookup|].
    destruct (findClient (ServerConfig.Name server) (proxyClients w)) as [c|] eqn:Hf;
      simpl.
    + destruct (findClient_Some _ _ _ Hf) as [Hsn Hc]. done.
    + split; [done|]. split; [done|]. split; [done|].
      split; [by apply findClient_None|]. split; [done|]. by case_decide.
Qed.

(** X22.  Static servers are listed and counted twice.  After
    [populateStaticServers] on an empty table, for a configuration of
    [n] servers with pairwise different names, the text of
    [server_list] has for every configured server both its [static]
    line and the line of its record, and ends with the totals
    [2n (static: n, dynamic: n)]. *)
Theorem server_list_counts_static_twice w :
  NoDup (ServerConfig.Name <$> configServers) ->
  dynamicServers w = ∅ ->
  let w1 := (populateStaticServers configServers GetAllTools discoveryResults w).1 in
  let text := listingText range configServers w1 in
  let n := length configServers in
  (forall server,
      server ∈ configServers ->
      Contains text ("- " +:+ ServerConfig.Name server +:+ " [static]" +:+ newline)
      = true /\
      exists info,
        dynamicServers w1 !! ServerConfig.Name server = Some info /\
        Contains text
          ("- " +:+ ServerConfig.Name server +:+ " [" +:+ statusOf info +:+ "] - " +:+
           pretty (length (DynamicServerInfo.Tools info)) +:+ " tools" +:+ newline)
        = true) /\
  exists pre,
    text =
    pre +:+ newline +:+ "Total servers: " +:+ pretty (n + n) +:+ " (static: " +:+
    pretty n +:+ ", dynamic: " +:+ pretty n +:+ ")" +:+ newline.
Proof.
  intros Hnd Hempty w1 text n. subst text.
  destruct (listingText_servers range range_perm configServers w1) as [Hd Hs].
  split.
  - intros server Hin. split; [apply Contains_spec; by apply Hs|].
    eexists. split; [by apply populate_lookup|].
    apply Contains_spec. apply Hd. by apply populate_lookup.
  - destruct (listingText_total range configServers w1) as [pre Hpre].
    exists pre. rewrite Hpre.
    assert (size (dynamicServers w1) = n) as ->; [|done].
    subst w1 n. simpl. rewrite populate_size; [|done|].
    + rewrite Hempty, map_size_empty. lia.
    + intros server _. rewrite Hempty. apply lookup_empty.
Qed.

(** *** Tools bound by [server_add] *)

Lemma append_inj_r (p a b : string) : p +:+ a = p +:+ b -> a = b.
Proof.
  induction p as [|x p IH]; [done|]. rewrite !append_String. intros [= H]. by apply IH.
Qed.

Lemma bindTools_other name tools (bound : gmap string ProxyHandler) key :
  (forall tool, tool ∈ tools -> name +:+ "_" +:+ ToolInfo.Name tool <> key) ->
  foldl (fun m tool =>
           <[name +:+ "_" +:+ ToolInfo.Name tool := mkHandler name (ToolInfo.Name tool)]> m)
        bound tools !! key = bound !! key.
Proof.
  revert bound. induction tools as [|t tools IH]; intros bound Hno; cbn [foldl]; [done|].
  rewrite IH by (intros t' Ht'; apply Hno; by right).
  apply lookup_insert_ne. apply Hno. left.
Qed.

Lemma bindTools_lookup name tools (bound : gmap string ProxyHandler) toolName :
  toolName ∈ (ToolInfo.Name <$> tools) ->
  foldl (fun m tool =>
           <[name +:+ "_" +:+ ToolInfo.Name tool := mkHandler name (ToolInfo.Name tool)]> m)
        bound tools !! (name +:+ "_" +:+ toolName) = Some (mkHandler name toolName).
Proof.
  revert bound. induction tools as [|t tools IH]; intros bound Hin; cbn [foldl].
  - by apply elem_of_nil in Hin.
  - destruct (decide (toolName ∈ (ToolInfo.Name <$> tools))) as [Hl|Hl].
    + by apply IH.
    + rewrite fmap_cons in Hin. apply elem_of_cons in Hin as [->|Hin]; [|done].
      rewrite bindTools_other.
      * apply lookup_insert_eq.
      * intros t' Ht' Heq. apply Hl. apply list_elem_of_fmap. exists t'.
        split; [|done]. symmetry.
        apply (append_inj_r "_"), (append_inj_r name). exact Heq.
Qed.

(** X23.  The tools that [server_add] binds.  After a successful
    [server_add] the table has a connected record of the new name with
    a client created by the call and, as its tools, the names of the
    tools that the upstream listed, each prefixed by the server name
    and an underscore.  Under each of these prefixed names a handler is
    bound, and a call through it calls [CallTool] on that client with
    the tool's own name, without the prefix. *)
Theorem server_add_binds_tools request w :
  let out := handleServerAdd Abs Fields Connect Initialize ListTools request w in
  IsError out.2.1 = false ->
  exists name c tools info,
    RequireString request "name" = Some name /\
    dynamicServers w !! name = None /\
    dynamicServers out.1 !! name = Some info /\
    DynamicServerInfo.IsConnected info = true /\
    DynamicServerInfo.Client info = Some c /\
    MCPClient.id c = nextClient w /\ MCPClient.ServerName c = name /\
    EvListTools c ∈ events out.1 /\
    ListTools (events out.1) c = inr tools /\
    DynamicServerInfo.Tools info =
      (fun tool => name +:+ "_" +:+ ToolInfo.Name tool) <$> tools /\
    forall tool,
      tool ∈ tools ->
      baseTools out.1 !! (name +:+ "_" +:+ ToolInfo.Name tool) =
        Some (mkHandler name (ToolInfo.Name tool)) /\
      forall req,
        events (runProxyHandler Abs ToLower CallTool
                  (mkHandler name (ToolInfo.Name tool)) req out.1).1 =
        events out.1 ++ [EvCallTool c (ToolInfo.Name tool) (GetArguments req)].
Proof.
  intros out Hok. subst out.
  destruct (add_cases Abs Fields Connect Initialize ListTools request w) as
    [_ [(Herr&_)|(name&command&command0&args&tools&Hname&_&Hnone&_&Htools&_&Hs&_&_&Hbt&Hev&_)]].
  { congruence. }
  eexists name, _, tools, _.
  split; [done|]. split; [done|]. split; [rewrite Hs; apply lookup_insert_eq|].
  simpl. do 4 (split; [done|]).
  split; [rewrite Hev; rewrite !elem_of_app, !elem_of_cons; tauto|].
  split; [by rewrite Hev|]. split; [done|].
  intros tool Hin. split.
  - rewrite Hbt. apply bindTools_lookup. apply list_elem_of_fmap. by exists tool.
  - intros req. unfold runProxyHandler. simpl.
    rewrite proxyHandler_events. unfold currentClient.
    by rewrite Hs, lookup_insert_eq.
Qed.

(** X24.  What [server_reconnect] leaves alone.  Whatever the request and
    however the call ends, [server_reconnect] binds no tool and changes
    the tool list of no record; the only entries it adds to the
    registry are for tools whose prefixed name is already in the tool
    list of the reconnected record.  So a tool that the new process
    offers for the first time gets no handler, and for a record without
    tools the registry is unchanged. *)
Theorem server_reconnect_registers_known_tools_only request w :
  let out := handleServerReconnect Abs Fields range Connect Initialize ListTools request w in
  baseTools out.1 = baseTools w /\
  (forall name info',
      dynamicServers out.1 !! name = Some info' ->
      exists info,
        dynamicServers w !! name = Some info /\
        DynamicServerInfo.Tools info' = DynamicServerInfo.Tools info) /\
  (forall tool c,
      (tool, c) ∈ registry out.1 ->
      (tool, c) ∈ registry w \/
      exists info,
        RequireString request "name" = Some (RemoteTool.ServerName tool) /\
        dynamicServers w !! RemoteTool.ServerName tool = Some info /\
        RemoteTool.PrefixedName tool ∈ DynamicServerInfo.Tools info) /\
  (forall name info,
      RequireString request "name" = Some name ->
      dynamicServers w !! name = Some info ->
      DynamicServerInfo.Tools info = [] ->
      registry out.1 = registry w).
Proof.
  intros out. subst out.
  destruct (reconnect_cases Abs Fields range Connect Initialize ListTools request w) as
    (_&Hbt&[(_&Hs&_&Hrg&_)|(name&info&cfg&Hname&Hinfo&_&_&_&_&Hcase)]).
  { split; [done|]. rewrite Hs, Hrg. split; [by eauto|]. split; [by left|done]. }
  split; [done|].
  destruct Hcase as [(msg&_&_&Hs&_&Hrg)|(tools&_&Hs&_&Hrg)]; rewrite Hs, Hrg.
  - split; [|split; [by left|done]].
    intros name' info' Hl. apply lookup_insert_Some in Hl as [[<- <-]|[Hne Hl]]; eauto.
  - split; [|split].
    + intros name' info' Hl. apply lookup_insert_Some in Hl as [[<- <-]|[Hne Hl]]; eauto.
    + intros tool c Hin. apply elem_of_app in Hin as [Hin|Hin]; [by left|].
      apply list_elem_of_fmap in Hin as (t&[= -> ->]&Ht).
      apply list_elem_of_filter in Ht as [Ht _]. right. exists info. done.
    + intros name' info' Hname' Hinfo' Hnil.
      assert (name' = name) as -> by congruence.
      assert (info' = info) as -> by congruence.
      rewrite Hnil.
      assert (filter (fun tool => name +:+ "_" +:+ ToolInfo.Name tool ∈ @nil string) tools = [])
        as ->; [|by rewrite app_nil_r].
      clear. induction tools as [|t tools IH]; [done|].
      rewrite filter_cons. destruct (decide _) as [Hin|_]; [|exact IH].
      by apply elem_of_nil in Hin.
Qed.

(** X25.  The configuration of a reconnect.  For a record that is not
    connected: with a [command], the client is created for the first
    field of the command with the other fields as arguments; it gets the
    proxy's inherit policy (or the [tier1] default) and no environment,
    and the stored configuration is replaced by the new one, which has
    no [env] overrides and no inherit policy, whether or not the
    connection then succeeds.  Without a [command], the client is
    created from the stored configuration, gets the policy that
    [ResolveInheritConfig] gives it and, when the stored [env] map is
    not empty, its pairs as [KEY=value] lines; the stored configuration
    stays. *)
Theorem server_reconnect_configuration request name w info :
  RequireString request "name" = Some name ->
  dynamicServers w !! name = Some info ->
  DynamicServerInfo.IsConnected info = false ->
  let commandStr := GetString request "command" "" in
  let out := handleServerReconnect Abs Fields range Connect Initialize ListTools request w in
  (forall command0 args,
      commandStr <> "" -> Fields commandStr = command0 :: args ->
      let cfg :=
        ServerConfig.mk name (ServerConfig.Prefix (DynamicServerInfo.Config info))
          "stdio" command0 args ∅ None "" "30s" in
      let c := MCPClient.mk (nextClient w) name command0 args in
      (exists info', dynamicServers out.1 !! name = Some info' /\
                     DynamicServerInfo.Config info' = cfg) /\
      exists rest,
        events out.1 =
        events w ++
        [EvNewStdioClient c;
         EvSetInheritConfig c (ServerConfig.ResolveInheritConfig cfg (proxyInherit w));
         EvConnect c] ++ rest) /\
  (commandStr = "" ->
   ServerConfig.Command (DynamicServerInfo.Config info) <> "" ->
   let cfg := DynamicServerInfo.Config info in
   let c :=
     MCPClient.mk (nextClient w) (ServerConfig.Name cfg) (ServerConfig.Command cfg)
       (ServerConfig.Args cfg) in
   (exists info', dynamicServers out.1 !! name = Some info' /\
                  DynamicServerInfo.Config info' = cfg) /\
   exists rest,
     events out.1 =
     events w ++
     [EvNewStdioClient c;
      EvSetInheritConfig c (ServerConfig.ResolveInheritConfig cfg (proxyInherit w))] ++
     (if decide (size (ServerConfig.Env cfg) = 0) then []
      else [EvSetEnvironment c
              ((fun kv => kv.1 +:+ "=" +:+ kv.2) <$> range _ (ServerConfig.Env cfg))]) ++
     [EvConnect c] ++ rest).
Proof.
  intros Hname Hinfo Hconn commandStr out. subst commandStr out.
  destruct (reconnect_cases Abs Fields range Connect Initialize ListTools request w) as
    (_&_&[(_&_&_&_&_&_&Hwhy)|(name'&info'&cfg&Hname'&Hinfo'&_&Hcfg&_&Hev&Hcase)]).
  - (* refused before a client is created *)
    destruct Hwhy as [Hn|[(n&Hn&Hi)|(n&i&Hn&Hi&Hwhy)]]; [congruence|congruence|].
    assert (n = name) as -> by congruence. assert (i = info) as -> by congruence.
    destruct Hwhy as [Hc|[[Hcmd Hf]|[Hcmd Hst]]]; [congruence| |].
    + split; [|done]. intros command0 args _ Hfields. congruence.
    + split; [by intros command0 args Hne|]. done.
  - assert (name' = name) as -> by congruence.
    assert (info' = info) as -> by congruence.
    assert (Hstored : exists i, dynamicServers
              (handleServerReconnect Abs Fields range Connect Initialize ListTools
                 request w).1 !! name = Some i /\ DynamicServerInfo.Config i = cfg).
    { destruct Hcase as [(msg&_&_&->&_)|(tools&_&->&_)];
        rewrite lookup_insert_eq; by eexists. }
    destruct Hev as [rest Hev]. split.
    + intros command0 args Hcmd Hfields.
      destruct Hcfg as [(c0&a0&_&Hf&->)|(Hempty&_)]; [|done].
      assert (c0 = command0 /\ a0 = args) as [-> ->] by (split; congruence).
      split; [done|]. exists rest. rewrite Hev. simpl.
      destruct (decide (size (∅ : gmap string string) = 0)) as [_|Hne];
        [done|]. exfalso. apply Hne, map_size_empty.
    + intros Hcmd Hcommand.
      destruct Hcfg as [(c0&a0&Hne&_)|(_&_&->)]; [done|].
      split; [done|]. exists rest. rewrite Hev. by rewrite <- !app_assoc.
Qed.

(** X26.  A static server that did not start, reconnected.  For a
    server of the configuration that has no client after start-up,
    [populateStaticServers] stores a record without tools; a successful
    [server_reconnect] of it from the stored configuration marks the
    record connected, with a new client, but its tool list stays empty
    and neither the registry nor the bound tools change: none of the
    tools of the reconnected server can be called. *)
Theorem failed_static_server_reconnects_without_tools request server w :
  NoDup (ServerConfig.Name <$> configServers) ->
  server ∈ configServers ->
  (forall c, c ∈ proxyClients w -> MCPClient.ServerName c <> ServerConfig.Name server) ->
  RequireString request "name" = Some (ServerConfig.Name server) ->
  let w1 := (populateStaticServers configServers GetAllTools discoveryResults w).1 in
  let out := handleServerReconnect Abs Fields range Connect Initialize ListTools request w1 in
  IsError out.2.1 = false ->
  exists info c,
    dynamicServers out.1 !! ServerConfig.Name server = Some info /\
    DynamicServerInfo.IsConnected info = true /\
    DynamicServerInfo.Client info = Some c /\
    MCPClient.id c = nextClient w /\
    DynamicServerInfo.Tools info = [] /\
    registry out.1 = registry w /\ baseTools out.1 = baseTools w.
Proof.
  intros Hnd Hin Hno Hname w1 out Hok. subst out.
  assert (Hrec : dynamicServers w1 !! ServerConfig.Name server =
                 Some (DynamicServerInfo.mk (ServerConfig.Name server) None [] server false
                         (if decide (discoveryError (ServerConfig.Name server)
                                       discoveryResults = "")
                          then "Failed to connect during initialization"
                          else discoveryError (ServerConfig.Name server)
                                 discoveryResults))).
  { subst w1. simpl. rewrite (populate_lookup _ _ _ _ _ Hnd Hin).
    by rewrite (proj2 (findClient_None _ _) Hno). }
  destruct (populate_frame GetAllTools discoveryResults configServers w)
    as (_&Hrg1&Hbt1&Hn1&_).
  cbv zeta in Hrg1, Hbt1, Hn1. fold w1 in Hrg1, Hbt1, Hn1.
  destruct (reconnect_cases Abs Fields range Connect Initialize ListTools request w1) as
    (_&Hbt&[(Herr&_)|(name&info&cfg&Hname'&Hinfo&_&_&_&_&Hcase)]); [congruence|].
  assert (name = ServerConfig.Name server) as -> by congruence.
  rewrite Hrec in Hinfo. injection Hinfo as <-.
  destruct Hcase as [(msg&Herr&_)|(tools&_&Hs&_&Hrg)]; [congruence|].
  eexists _, _. split; [rewrite Hs; apply lookup_insert_eq|]. simpl.
  split; [done|]. split; [done|]. split; [done|]. split; [done|].
  split; [|rewrite Hbt; exact Hbt1]. rewrite Hrg. simpl.
  change (registry w1) with
    (registry (foldl (populateOne GetAllTools discoveryResults) w configServers)).
  rewrite Hrg1.
  assert (filter (fun tool => ServerConfig.Name server +:+ "_" +:+ ToolInfo.Name tool
                              ∈ @nil string) tools = []) as ->; [|by rewrite app_nil_r].
  clear. induction tools as [|t tools IH]; [done|].
  rewrite filter_cons. destruct (decide _) as [Hin|_]; [|exact IH].
  by apply elem_of_nil in Hin.
Qed.

(** X27.  Refused management calls.  A call of [server_add],
    [server_remove], [server_disconnect] or [server_reconnect] without a
    string argument [name] returns the error result [name is required];
    a call of one of the last three for a name that is not in the table
    returns [Server '<name>' not found].  In both cases the handler
    returns normally, makes no call on any client and changes nothing
    but the recording. *)
Theorem management_refusals t request w :
  t ∈ [server_add; server_remove; server_disconnect; server_reconnect] ->
  (RequireString request "name" = None ->
   exists w',
     callTool t request w =
       Returned w' (addRecordingMetadata Abs w (NewToolResultError "name is required"),
                    None) /\
     sameTables w w') /\
  (forall name,
      t <> server_add ->
      RequireString request "name" = Some name ->
      dynamicServers w !! name = None ->
      exists w',
        callTool t request w =
          Returned w'
            (addRecordingMetadata Abs w
               (NewToolResultError ("Server '" +:+ name +:+ "' not found")), None) /\
        sameTables w w').
Proof.
  intros Ht. split.
  - intros Hname.
    repeat (apply elem_of_cons in Ht as [->|Ht]).
    all: try (by apply elem_of_nil in Ht).
    all: simpl; rewrite ?(disconnectPanic_refused request w) by (by left).
    all: unfold returned, handleServerAdd, handleServerRemove,
           handleServerDisconnect, handleServerReconnect, sameTables.
    all: destruct w as [ds pi pc rg bt en fn rf ev nc]; simpl.
    all: destruct en; simpl; rewrite Hname; simpl; eexists;
           (split; [f_equal; f_equal; by apply metadata_same|done]).
  - intros name Hne Hname Hnone.
    repeat (apply elem_of_cons in Ht as [->|Ht]).
    all: try (by apply elem_of_nil in Ht).
    all: try done.
    all: simpl; rewrite ?(disconnectPanic_refused request w) by (right; by exists name).
    all: unfold returned, handleServerRemove,
           handleServerDisconnect, handleServerReconnect, sameTables.
    all: destruct w as [ds pi pc rg bt en fn rf ev nc]; simpl in *.
    all: destruct en; simpl; rewrite Hname; simpl; rewrite Hnone; simpl; eexists;
           (split; [f_equal; f_equal; by apply metadata_same|done]).
Qed.

Lemma proxy_disconnected serverName tool request w info :
  dynamicServers w !! serverName = Some info ->
  DynamicServerInfo.IsConnected info = false ->
  let out := proxyHandler serverName tool request w in
  let base := "Server '" +:+ serverName +:+ "' is disconnected" in
  events out.1 = events w /\ dynamicServers out.1 = dynamicServers w /\
  proxyClients out.1 = proxyClients w /\
  recordEnabled out.1 = recordEnabled w /\ recordFilename out.1 = recordFilename w /\
  out.2.1 =
    metadata w
      (NewToolResultError
         ((if decide (DynamicServerInfo.ErrorMessage info <> "")
           then base +:+ ": " +:+ DynamicServerInfo.ErrorMessage info
           else base) +:+ newline +:+ "Use server_reconnect to restore connection.")).
Proof.
  intros Hinfo Hconn out base. subst out base. unfold createDynamicProxyHandler.
  destruct w as [ds pi pc rg bt en fn rf ev nc]; simpl in *.
  destruct en; simpl; rewrite Hinfo, Hconn; simpl; repeat split;
    by apply metadata_same.
Qed.

(** X28.  A connection error sticks.  After a proxied call that fails with
    a connection error, every further call through a tool of that
    upstream is answered with an error result that quotes the stored
    error, without any call on a client, until the server is
    reconnected; and the client of the failed call is not closed:
    [server_disconnect] then answers that the server is already
    disconnected and closes nothing. *)
Theorem connection_error_sticks serverName tool request w info c err :
  dynamicServers w !! serverName = Some info ->
  DynamicServerInfo.IsConnected info = true ->
  DynamicServerInfo.Client info = Some c ->
  CallTool (events w ++ [EvCallTool c tool (GetArguments request)]) c tool
    (GetArguments request) = inl err ->
  isConnectionError ToLower err = true ->
  let w1 := (createDynamicProxyHandler Abs ToLower CallTool serverName tool request w).1 in
  let base := "Server '" +:+ serverName +:+ "' is disconnected" in
  events w1 = events w ++ [EvCallTool c tool (GetArguments request)] /\
  (forall tool' request',
      let out :=
        createDynamicProxyHandler Abs ToLower CallTool serverName tool' request' w1 in
      events out.1 = events w1 /\ dynamicServers out.1 = dynamicServers w1 /\
      IsError out.2.1 = true /\
      out.2.1 =
        addRecordingMetadata Abs w
          (NewToolResultError
             ((if decide (err <> "") then base +:+ ": " +:+ err else base) +:+
              newline +:+ "Use server_reconnect to restore connection."))) /\
  (forall reqD,
      RequireString reqD "name" = Some serverName ->
      let out := handleServerDisconnect Abs reqD w1 in
      events out.1 = events w1 /\ dynamicServers out.1 = dynamicServers w1 /\
      proxyClients out.1 = proxyClients w /\
      out.2.1 =
        addRecordingMetadata Abs w
          (NewToolResultText ("Server '" +:+ serverName +:+ "' is already disconnected"))).
Proof.
  intros Hinfo Hconn Hc Hcall Herr w1 base.
  assert (Hw1 : events w1 = events w ++ [EvCallTool c tool (GetArguments request)] /\
                dynamicServers w1 =
                  <[serverName :=
                      DynamicServerInfo.mk (DynamicServerInfo.Name info) (Some c)
                        (DynamicServerInfo.Tools info) (DynamicServerInfo.Config info)
                        false err]> (dynamicServers w) /\
                proxyClients w1 = proxyClients w /\
                recordEnabled w1 = recordEnabled w /\
                recordFilename w1 = recordFilename w).
  { subst w1. unfold createDynamicProxyHandler.
    destruct w as [ds pi pc rg bt en fn rf ev nc]; simpl in *.
    destruct en; simpl; rewrite Hinfo, Hconn, Hc; simpl; rewrite Hcall, Herr; simpl;
      rewrite ?Hc; done. }
  destruct Hw1 as (Hev&Hs&Hpc&Hen&Hfn).
  assert (Hinfo1 : dynamicServers w1 !! serverName =
                   Some (DynamicServerInfo.mk (DynamicServerInfo.Name info) (Some c)
                           (DynamicServerInfo.Tools info) (DynamicServerInfo.Config info)
                           false err)).
  { rewrite Hs. apply lookup_insert_eq. }
  split; [done|]. split.
  - intros tool' request' out. subst out.
    destruct (proxy_disconnected serverName tool' request' w1 _ Hinfo1 eq_refl)
      as (He&Hd&_&_&_&Hres).
    split; [done|]. split; [done|]. rewrite Hres. simpl.
    split; [by rewrite metadata_IsError|]. by apply metadata_same.
  - intros reqD HnameD out. subst out.
    destruct (disconnect_cases Abs reqD w1) as
      (_&_&_&_&[(Hd&Hpc'&He&_)|(n&i&Hn&Hi&Hconn'&_)]).
    + split; [done|]. split; [done|]. split; [congruence|].
      destruct (disconnect_noop Abs reqD serverName w1 _ HnameD Hinfo1 eq_refl)
        as [_ Hres].
      rewrite Hres. simpl. by apply metadata_same.
    + assert (n = serverName) as -> by congruence.
      rewrite Hinfo1 in Hi. injection Hi as <-. discriminate.
Qed.

End Lifecycle.

(** *** On a concrete host *)

Lemma exampleWrapper_wellFormed recording : wellFormed (exampleWrapper recording).
Proof.
  split; [|split].
  - intros name info H. simpl in H.
    apply lookup_insert_Some in H as [[<- <-]|[_ H]];
      [|by rewrite lookup_empty in H].
    split; [reflexivity|]. split; [reflexivity|]. split; [by eexists|].
    intros c [= <-]. split; [reflexivity|left].
  - simpl. apply NoDup_singleton.
  - intros c Hc. apply list_elem_of_singleton in Hc as ->. simpl. lia.
Defined.

Lemma startWrapper_wellFormed : wellFormed startWrapper.
Proof.
  split; [|split].
  - intros name info H. simpl in H. by rewrite lookup_empty in H.
  - simpl. apply NoDup_singleton.
  - intros c Hc. apply list_elem_of_singleton in Hc as ->. simpl. lia.
Defined.

Lemma exampleStatic_NoDup : NoDup (ServerConfig.Name <$> exampleStatic).
Proof. refine (bool_decide_unpack _ _). vm_compute. exact I. Defined.

(** [server_disconnect] on the example wrapper. *)
Lemma handlers_keep_wellFormed_witness :
  wellFormed (exampleWrapper false) /\
  wellFormed
    (handleServerDisconnect exampleAbs (exampleRequest [("name", "echo")])
       (exampleWrapper false)).1.
Proof.
  split; [exact (exampleWrapper_wellFormed false)|].
  exact (proj1 (handlers_keep_wellFormed exampleAbs exampleFields asciiToLower
                  EnvBuilder.listingOrder [] exampleGetAllTools [] succeeds succeeds
                  exampleTools (callFails "boom") (exampleWrapper false)
                  (exampleWrapper_wellFormed false))
           server_disconnect (exampleRequest [("name", "echo")]) _ _ eq_refl).
Defined.

(** [server_remove] after [server_disconnect] on the example wrapper. *)
Lemma panic_only_on_remove_without_client_witness :
  let request := exampleRequest [("name", "echo")] in
  let w := (handleServerDisconnect exampleAbs request (exampleWrapper false)).1 in
  wellFormed w /\
  exists w',
    call exampleAbs exampleFields asciiToLower EnvBuilder.listingOrder [] succeeds
      succeeds exampleTools (callFails "boom") server_remove request w
    = Panicked w'.
Proof.
  intros request w.
  assert (Hwf : wellFormed w)
    by (apply wf_disconnect; exact (exampleWrapper_wellFormed false)).
  split; [exact Hwf|].
  apply (proj2 (panic_only_on_remove_without_client exampleAbs exampleFields
                  asciiToLower EnvBuilder.listingOrder [] succeeds succeeds
                  exampleTools (callFails "boom") server_remove request w Hwf)).
  split; [reflexivity|]. exists "echo", (disconnected exampleInfo).
  split; [reflexivity|]. split; [vm_compute; reflexivity|reflexivity].
Defined.

(** The same sequence, through the two handlers. *)
Lemma server_remove_after_disconnect_panics_witness :
  let request := exampleRequest [("name", "echo")] in
  RequireString request "name" = Some "echo" /\
  dynamicServers (exampleWrapper false) !! "echo" = Some exampleInfo /\
  DynamicServerInfo.IsConnected exampleInfo = true /\
  exists w',
    handleServerRemove exampleAbs request
      (handleServerDisconnect exampleAbs request (exampleWrapper false)).1
    = Panicked w'.
Proof.
  intros request.
  assert (H1 : RequireString request "name" = Some "echo") by reflexivity.
  assert (H2 : dynamicServers (exampleWrapper false) !! "echo" = Some exampleInfo)
    by (vm_compute; reflexivity).
  assert (H3 : DynamicServerInfo.IsConnected exampleInfo = true) by reflexivity.
  split; [exact H1|]. split; [exact H2|]. split; [exact H3|].
  exact (server_remove_after_disconnect_panics exampleAbs request request "echo"
           (exampleWrapper false) exampleInfo H1 H1 H2 H3).
Defined.

(** [server_remove] of the connected server of the example wrapper. *)
Lemma server_remove_unbinds_witness :
  let request := exampleRequest [("name", "echo")] in
  RequireString request "name" = Some "echo" /\
  dynamicServers (exampleWrapper false) !! "echo" = Some exampleInfo /\
  DynamicServerInfo.Client exampleInfo = Some exampleClient /\
  exampleClient ∈ proxyClients (exampleWrapper false) /\
  exists w' r,
    handleServerRemove exampleAbs request (exampleWrapper false) = Returned w' r /\
    dynamicServers w' = delete "echo" (dynamicServers (exampleWrapper false)) /\
    events w' = [EvClose exampleClient] /\
    baseTools w' = baseTools (exampleWrapper false).
Proof.
  intros request.
  assert (H1 : RequireString request "name" = Some "echo") by reflexivity.
  assert (H2 : dynamicServers (exampleWrapper false) !! "echo" = Some exampleInfo)
    by (vm_compute; reflexivity).
  assert (H3 : DynamicServerInfo.Client exampleInfo = Some exampleClient)
    by reflexivity.
  assert (H4 : exampleClient ∈ proxyClients (exampleWrapper false)) by left.
  split; [exact H1|]. split; [exact H2|]. split; [exact H3|]. split; [exact H4|].
  destruct (server_remove_unbinds exampleAbs asciiToLower (callFails "boom") request
              "echo" (exampleWrapper false) exampleInfo exampleClient H1 H2 H3 H4)
    as (w'&r&Hr&_&_&Hs&_&He&_&Hb&_).
  exists w', r. split; [exact Hr|]. split; [exact Hs|]. split; [exact He|exact Hb].
Defined.

(** The listing of the example wrapper. *)
Lemma server_list_lists_witness :
  (forall (A : Type) (m : gmap string A),
      EnvBuilder.listingOrder A m ≡ₚ map_to_list m) /\
  Contains (listingText EnvBuilder.listingOrder [] (exampleWrapper false))
    ("- " +:+ "echo" +:+ " [" +:+ statusOf exampleInfo +:+ "] - " +:+
     pretty (length (DynamicServerInfo.Tools exampleInfo)) +:+ " tools" +:+ newline)
  = true.
Proof.
  split; [exact EnvBuilderFacts.listingOrder_perm|].
  destruct (server_list_lists exampleAbs EnvBuilder.listingOrder
              EnvBuilderFacts.listingOrder_perm [] (exampleRequest [])
              (exampleWrapper false)) as (_&_&_&_&H&_).
  apply (H "echo" exampleInfo). vm_compute. reflexivity.
Defined.

(** Two static servers, of which [files] did not start. *)
Lemma populateStaticServers_records_witness :
  let out :=
    populateStaticServers exampleStatic exampleGetAllTools exampleDiscovery
      startWrapper in
  NoDup (ServerConfig.Name <$> exampleStatic) /\
  out.2 = None /\
  forall server, server ∈ exampleStatic ->
    exists info,
      dynamicServers out.1 !! ServerConfig.Name server = Some info /\
      DynamicServerInfo.Config info = server.
Proof.
  intros out. split; [exact exampleStatic_NoDup|].
  destruct (populateStaticServers_records exampleStatic exampleGetAllTools
              exampleDiscovery startWrapper exampleStatic_NoDup) as (H1&_&H3).
  split; [exact H1|]. intros server Hs.
  destruct (H3 server Hs) as (info&Hi&_&Hc&_). exists info. split; [exact Hi|exact Hc].
Defined.

(** The count that [server_list] gives after that start. *)
Lemma server_list_counts_static_twice_witness :
  let w1 :=
    (populateStaticServers exampleStatic exampleGetAllTools exampleDiscovery
       startWrapper).1 in
  (forall (A : Type) (m : gmap string A),
      EnvBuilder.listingOrder A m ≡ₚ map_to_list m) /\
  NoDup (ServerConfig.Name <$> exampleStatic) /\
  dynamicServers startWrapper = ∅ /\
  exists pre,
    listingText EnvBuilder.listingOrder exampleStatic w1 =
    pre +:+ newline +:+ "Total servers: " +:+ pretty (2 + 2) +:+ " (static: " +:+
    pretty 2 +:+ ", dynamic: " +:+ pretty 2 +:+ ")" +:+ newline.
Proof.
  intros w1. split; [exact EnvBuilderFacts.listingOrder_perm|].
  split; [exact exampleStatic_NoDup|]. split; [reflexivity|].
  exact (proj2 (server_list_counts_static_twice EnvBuilder.listingOrder
                  EnvBuilderFacts.listingOrder_perm exampleStatic exampleGetAllTools
                  exampleDiscovery startWrapper exampleStatic_NoDup eq_refl)).
Defined.

(** [server_add] of a second server to the example wrapper. *)
Lemma server_add_binds_tools_witness :
  let request := exampleRequest [("name", "files"); ("command", "/usr/bin/files-mcp")] in
  let out :=
    handleServerAdd exampleAbs exampleFields succeeds succeeds exampleTools request
      (exampleWrapper false) in
  IsError out.2.1 = false /\
  exists info,
    dynamicServers out.1 !! "files" = Some info /\
    DynamicServerInfo.IsConnected info = true /\
    DynamicServerInfo.Tools info = ["files_greet"].
Proof.
  intros request out.
  assert (H : IsError out.2.1 = false) by (vm_compute; reflexivity).
  split; [exact H|].
  destruct (server_add_binds_tools exampleAbs exampleFields asciiToLower succeeds
              succeeds exampleTools (callFails "boom") request (exampleWrapper false) H)
    as (name&c&tools&info&Hn&_&Hi&Hc&_&_&_&_&Hl&Ht&_).
  injection Hn as <-. injection Hl as <-.
  exists info. split; [exact Hi|]. split; [exact Hc|exact Ht].
Defined.

(** [server_reconnect] with a new command, after [server_disconnect]. *)
Lemma server_reconnect_configuration_witness :
  let w :=
    (handleServerDisconnect exampleAbs (exampleRequest [("name", "echo")])
       (exampleWrapper false)).1 in
  let request := exampleRequest [("name", "echo"); ("command", "/opt/echo2")] in
  let out :=
    handleServerReconnect exampleAbs exampleFields EnvBuilder.listingOrder succeeds
      succeeds exampleTools request w in
  RequireString request "name" = Some "echo" /\
  dynamicServers w !! "echo" = Some (disconnected exampleInfo) /\
  DynamicServerInfo.IsConnected (disconnected exampleInfo) = false /\
  exists info',
    dynamicServers out.1 !! "echo" = Some info' /\
    DynamicServerInfo.Config info' =
    ServerConfig.mk "echo" "echo" "stdio" "/opt/echo2" [] ∅ None "" "30s".
Proof.
  intros w request out.
  assert (H1 : RequireString request "name" = Some "echo") by reflexivity.
  assert (H2 : dynamicServers w !! "echo" = Some (disconnected exampleInfo))
    by (vm_compute; reflexivity).
  assert (H3 : DynamicServerInfo.IsConnected (disconnected exampleInfo) = false)
    by reflexivity.
  split; [exact H1|]. split; [exact H2|]. split; [exact H3|].
  destruct (server_reconnect_configuration exampleAbs exampleFields
              EnvBuilder.listingOrder succeeds succeeds exampleTools request "echo" w
              (disconnected exampleInfo) H1 H2 H3) as [H _].
  destruct (H "/opt/echo2" []) as [Hc _]; [discriminate|reflexivity|].
  exact Hc.
Defined.

(** [server_reconnect] of the static server that did not start. *)
Lemma failed_static_server_reconnects_without_tools_witness :
  let server := addedConfig "files" "/usr/bin/files-mcp" [] in
  let request := exampleRequest [("name", "files")] in
  let w1 :=
    (populateStaticServers exampleStatic exampleGetAllTools exampleDiscovery
       startWrapper).1 in
  let out :=
    handleServerReconnect exampleAbs exampleFields EnvBuilder.listingOrder succeeds
      succeeds exampleTools request w1 in
  NoDup (ServerConfig.Name <$> exampleStatic) /\
  server ∈ exampleStatic /\
  IsError out.2.1 = false /\
  exists info,
    dynamicServers out.1 !! "files" = Some info /\
    DynamicServerInfo.IsConnected info = true /\
    DynamicServerInfo.Tools info = [] /\
    baseTools out.1 = ∅.
Proof.
  intros server request w1 out.
  assert (H2 : server ∈ exampleStatic) by (right; left).
  assert (H3 : forall c, c ∈ proxyClients startWrapper ->
                         MCPClient.ServerName c <> ServerConfig.Name server).
  { intros c Hc. apply list_elem_of_singleton in Hc as ->. discriminate. }
  assert (H4 : RequireString request "name" = Some (ServerConfig.Name server))
    by reflexivity.
  assert (H5 : IsError out.2.1 = false) by (vm_compute; reflexivity).
  split; [exact exampleStatic_NoDup|]. split; [exact H2|]. split; [exact H5|].
  destruct (failed_static_server_reconnects_without_tools exampleAbs exampleFields
              EnvBuilder.listingOrder exampleStatic exampleGetAllTools
              exampleDiscovery succeeds succeeds exampleTools request server
              startWrapper exampleStatic_NoDup H2 H3 H4 H5)
    as (info&c&Hi&Hc&_&_&Ht&_&Hb).
  exists info. split; [exact Hi|]. split; [exact Hc|]. split; [exact Ht|exact Hb].
Defined.

(** [server_remove] without a name. *)
Lemma management_refusals_witness :
  server_remove ∈ [server_add; server_remove; server_disconnect; server_reconnect] /\
  exists w',
    call exampleAbs exampleFields asciiToLower EnvBuilder.listingOrder [] succeeds
      succeeds exampleTools (callFails "boom") server_remove (exampleRequest [])
      (exampleWrapper false)
    = Returned w'
        (addRecordingMetadata exampleAbs (exampleWrapper false)
           (NewToolResultError "name is required"), None) /\
    sameTables (exampleWrapper false) w'.
Proof.
  assert (H : server_remove
                ∈ [server_add; server_remove; server_disconnect; server_reconnect])
    by (right; left).
  split; [exact H|].
  exact (proj1 (management_refusals exampleAbs exampleFields asciiToLower
                  EnvBuilder.listingOrder [] succeeds succeeds exampleTools
                  (callFails "boom") server_remove (exampleRequest [])
                  (exampleWrapper false) H) eq_refl).
Defined.

(** A call that fails with a reset connection. *)
Lemma connection_error_sticks_witness :
  let request := exampleRequest [] in
  let CallTool := callFails "read: connection reset by peer" in
  let w1 :=
    (createDynamicProxyHandler exampleAbs asciiToLower CallTool "echo" "greet" request
       (exampleWrapper false)).1 in
  dynamicServers (exampleWrapper false) !! "echo" = Some exampleInfo /\
  isConnectionError asciiToLower "read: connection reset by peer" = true /\
  events w1 = [EvCallTool exampleClient "greet" (GetArguments request)] /\
  forall tool' request',
    events (createDynamicProxyHandler exampleAbs asciiToLower CallTool "echo" tool'
              request' w1).1 = events w1.
Proof.
  intros request CallTool w1.
  assert (H1 : dynamicServers (exampleWrapper false) !! "echo" = Some exampleInfo)
    by (vm_compute; reflexivity).
  assert (H2 : isConnectionError asciiToLower "read: connection reset by peer" = true)
    by (vm_compute; reflexivity).
  split; [exact H1|]. split; [exact H2|].
  destruct (connection_error_sticks exampleAbs asciiToLower CallTool "echo" "greet"
              request (exampleWrapper false) exampleInfo exampleClient
              "read: connection reset by peer" H1 eq_refl eq_refl eq_refl H2)
    as (He&Hcalls&_).
  split; [exact He|]. intros tool' request'. exact (proj1 (Hcalls tool' request')).
Defined.

End ManagementFacts.

(** * Sequences of management calls *)

Module LifecycleFacts.

Import mcp Wrapper WrapperFacts Management ManagementFacts Collision.

Section Sequences.
Variable Abs : string -> option string.
Variable Fields : string -> list string.
Variable ToLower : string -> string.
Variable range : forall A : Type, gmap string A -> list (string * A).
Variable configServers : list ServerConfig.t.
Variable Connect : list Event -> MCPClient.t -> option string.
Variable Initialize : list Event -> MCPClient.t -> option string.
Variable ListTools : list Event -> MCPClient.t -> string + list ToolInfo.t.
Variable CallTool :
  list Event -> MCPClient.t -> string -> gmap string Arg -> string + UpstreamResult.t.

Local Abbreviation callTool :=
  (call Abs Fields ToLower range configServers Connect Initialize ListTools CallTool).

Local Arguments addRecordingMetadata : simpl never.

(** [server_disconnect] reaches its [make] with a client list that has
    the record's client: it does not panic. *)
Lemma disconnectPanic_listed request name w info :
  RequireString request "name" = Some name ->
  dynamicServers w !! name = Some info ->
  (DynamicServerInfo.IsConnected info = false \/
   forall c, DynamicServerInfo.Client info = Some c -> c ∈ proxyClients w) ->
  disconnectPanic request w = None.
Proof.
  intros Hname Hinfo H. unfold disconnectPanic.
  destruct (recordMessage_tables "request" "tool_call" "server_disconnect" "proxy"
              (PRequest request) w) as (Hs&_&Hc&_).
  cbv zeta in Hs, Hc |- *. rewrite Hs, Hc, Hname, Hinfo.
  destruct H as [->|H]; [done|].
  destruct (DynamicServerInfo.IsConnected info); [|done]. simpl.
  destruct (DynamicServerInfo.Client info) as [c|]; [|done].
  specialize (H c eq_refl). destruct (proxyClients w); [|done].
  by apply elem_of_nil in H.
Qed.

(** C8.  [server_disconnect] is idempotent.  For a registered, connected
    upstream whose client, if the record has one, is in the client list
    (as it is in every state that the handlers reach), the first call
    returns a success result; it closes the client and leaves a record
    of the same name, tools and configuration without client, not
    connected and with last error [Server disconnected by user].  A
    second call with the same name returns the success result
    [Server '<name>' is already disconnected] and changes nothing but
    the recording: it closes nothing and the record stays.  For an
    unknown name the call returns the error result
    [Server '<name>' not found] and changes nothing but the recording.
    No call returns a Go error. *)
Theorem server_disconnect_idempotent request name w :
  RequireString request "name" = Some name ->
  let disconnect :=
    call Abs Fields ToLower range configServers Connect Initialize ListTools CallTool
      server_disconnect request in
  match dynamicServers w !! name with
  | None =>
      exists w',
        disconnect w =
          Returned w'
            (addRecordingMetadata Abs w
               (NewToolResultError ("Server '" +:+ name +:+ "' not found")), None) /\
        IsError
          (addRecordingMetadata Abs w
             (NewToolResultError ("Server '" +:+ name +:+ "' not found"))) = true /\
        sameTables w w'
  | Some info =>
      DynamicServerInfo.IsConnected info = true ->
      (forall c, DynamicServerInfo.Client info = Some c -> c ∈ proxyClients w) ->
      exists w1 r1 w2 r2,
        disconnect w = Returned w1 r1 /\ disconnect w1 = Returned w2 r2 /\
        (* the first call *)
        r1.2 = None /\ IsError r1.1 = false /\
        dynamicServers w1 =
          <[name := DynamicServerInfo.mk (DynamicServerInfo.Name info) None
                      (DynamicServerInfo.Tools info) (DynamicServerInfo.Config info)
                      false "Server disconnected by user"]> (dynamicServers w) /\
        events w1 =
          events w ++ match DynamicServerInfo.Client info with
                      | Some c => [EvClose c]
                      | None => []
                      end /\
        proxyClients w1 =
          match DynamicServerInfo.Client info with
          | Some _ => filter (fun c => MCPClient.ServerName c <> name) (proxyClients w)
          | None => proxyClients w
          end /\
        registry w1 = registry w /\ baseTools w1 = baseTools w /\
        (* the second call *)
        r2.2 = None /\ IsError r2.1 = false /\
        r2.1 =
          addRecordingMetadata Abs w
            (NewToolResultText ("Server '" +:+ name +:+ "' is already disconnected")) /\
        sameTables w1 w2
  end.
Proof.
  intros Hname. cbv zeta.
  destruct (dynamicServers w !! name) as [info|] eqn:Hinfo.
  - intros Hconn Hlisted.
    pose proof (disconnect_connected Abs request name w info Hname Hinfo Hconn)
      as (Hs&He&_&Hen&Hfn&Hrg&Hbt&Hout).
    pose proof (disconnect_cases Abs request w) as (_&_&_&_&Hcases).
    destruct Hcases as [(_&_&_&Hnot)|(name'&info'&Hname'&Hinfo'&_&Herr&_&Hpc&_)].
    { rewrite (Hnot name info Hname Hinfo) in Hconn. discriminate. }
    assert (name' = name) as -> by congruence.
    assert (info' = info) as -> by congruence.
    set (first := handleServerDisconnect Abs request w) in *.
    assert (Hinfo1 : dynamicServers first.1 !! name = Some (disconnected info))
      by (rewrite Hs; apply lookup_insert_eq).
    pose proof (disconnect_noop Abs request name first.1 (disconnected info) Hname
                  Hinfo1 eq_refl) as (Hsame&Hout2).
    exists first.1, first.2,
      (handleServerDisconnect Abs request first.1).1,
      (handleServerDisconnect Abs request first.1).2.
    split.
    { simpl. rewrite (disconnectPanic_listed request name w info Hname Hinfo)
        by (by right). reflexivity. }
    split.
    { simpl. rewrite (disconnectPanic_listed request name first.1 (disconnected info)
                        Hname Hinfo1) by (by left). reflexivity. }
    split; [by rewrite Hout|]. split; [exact Herr|]. split; [exact Hs|].
    split; [exact He|]. split; [exact Hpc|]. split; [exact Hrg|]. split; [exact Hbt|].
    split; [by rewrite Hout2|]. rewrite Hout2. simpl.
    rewrite (metadata_same Abs w first.1) by done.
    split; [by rewrite metadata_IsError|]. split; [reflexivity|exact Hsame].
  - pose proof (disconnect_unknown Abs request name w Hname Hinfo) as (Hsame&Hout).
    exists (handleServerDisconnect Abs request w).1.
    split.
    { simpl. rewrite (disconnectPanic_refused request w)
        by (right; by exists name).
      unfold returned. by rewrite Hout. }
    split; [by rewrite metadata_IsError|exact Hsame].
Qed.

(** C1, amended (invariant I3, property P2).  A handler that
    [server_add] binds is made of two strings, the server name and the
    original tool name; in every state, a call through a bound handler
    makes one call at most, [CallTool] on the client that the table
    records for that server name at that moment, if the record is
    connected (first part).  Consequently, in a consistent state, after
    [server_disconnect] of a connected upstream followed by a
    successful [server_reconnect] without [command], there is a client
    [cNew], created by the reconnect and different from the client
    [cOld] of before the disconnect, such that the bindings are those of
    before and a call through any prefixed name that is bound to a
    handler of that upstream invokes [CallTool] on [cNew].  Along any
    sequence of calls through such handlers every call made on a client
    is a [CallTool] on [cNew], never one on [cOld]; and as long as the
    upstream returns no connection error, each call of the sequence
    invokes [CallTool] on [cNew]. *)
Theorem reconnect_redirects_bound_calls name reqD reqR w info cOld :
  wellFormed w ->
  RequireString reqD "name" = Some name ->
  RequireString reqR "name" = Some name ->
  Arguments reqR !! "command" = None ->
  dynamicServers w !! name = Some info ->
  DynamicServerInfo.IsConnected info = true ->
  DynamicServerInfo.Client info = Some cOld ->
  let tool :=
    call Abs Fields ToLower range configServers Connect Initialize ListTools CallTool in
  (forall w' p h request,
      baseTools w' !! p = Some h ->
      exists w'' r,
        tool (upstream h) request w' = Returned w'' r /\
        events w'' =
        events w' ++ match currentClient (serverName h) w' with
                     | Some c => [EvCallTool c (originalToolName h) (GetArguments request)]
                     | None => []
                     end) /\
  exists w1 r1,
    tool server_disconnect reqD w = Returned w1 r1 /\
    forall w2 r2,
      tool server_reconnect reqR w1 = Returned w2 r2 ->
      IsError r2.1 = false ->
      exists cNew,
        cNew <> cOld /\
        (exists rest, events w2 = events w1 ++ EvNewStdioClient cNew :: rest) /\
        currentClient name w2 = Some cNew /\
        baseTools w2 = baseTools w /\
        (forall p h request,
            baseTools w !! p = Some h -> serverName h = name ->
            baseTools w2 !! p = Some h /\
            exists w3 r3,
              tool (upstream h) request w2 = Returned w3 r3 /\
              events w3 =
              events w2 ++ [EvCallTool cNew (originalToolName h) (GetArguments request)]) /\
        (forall calls, exists trace,
            events (proxyCalls Abs ToLower CallTool name calls w2) = events w2 ++ trace /\
            forall e, e ∈ trace -> exists tool args, e = EvCallTool cNew tool args) /\
        ((forall h c tool args err,
             CallTool h c tool args = inl err -> isConnectionError ToLower err = false) ->
         forall calls,
           events (proxyCalls Abs ToLower CallTool name calls w2) =
           events w2 ++
           ((fun call => EvCallTool cNew call.1 (GetArguments call.2)) <$> calls)).
Proof.
  intros Hwf HnameD HnameR Hcmd Hinfo Hconn Hclient. cbv zeta.
  pose proof Hwf as (Htable&_&Hids).
  destruct (Htable name info Hinfo) as (_&_&_&Hin).
  destruct (Hin cOld Hclient) as [_ Hlisted].
  split.
  { intros w' p h request _. eexists _, _. split; [reflexivity|].
    apply proxyHandler_events. }
  eexists _, _. split.
  { simpl. rewrite (disconnectPanic_listed reqD name w info HnameD Hinfo).
    - reflexivity.
    - right. intros c Hc. by destruct (Hin c Hc). }
  intros w2 r2 Hrec Herr. simpl in Hrec. injection Hrec as <- <-.
  destruct (reconnect_redirects_handler Abs Fields ToLower range Connect Initialize
              ListTools CallTool name reqD reqR w info cOld HnameD HnameR Hcmd Hinfo
              Hconn Hclient (Hids cOld Hlisted) Herr)
    as (_&cNew&Hne&Hev&Hcur&Hcall&Htrace&Hseq).
  exists cNew. split; [exact Hne|]. split; [exact Hev|]. split; [exact Hcur|].
  assert (Hbt : baseTools
                  (handleServerReconnect Abs Fields range Connect Initialize ListTools
                     reqR (handleServerDisconnect Abs reqD w).1).1 = baseTools w).
  { destruct (reconnect_cases Abs Fields range Connect Initialize ListTools reqR
                (handleServerDisconnect Abs reqD w).1) as (_&->&_).
    by destruct (disconnect_cases Abs reqD w) as (_&_&->&_). }
  split; [exact Hbt|]. split; [|split; [exact Htrace|exact Hseq]].
  intros p h request Hp Hh. split; [by rewrite Hbt|].
  eexists _, _. split; [reflexivity|]. simpl. rewrite Hh. apply Hcall.
Qed.

End Sequences.

(** *** On a concrete host *)

(** C8 on the example wrapper: the record that the first call leaves,
    the one client call, and the answer of the second call. *)
Lemma server_disconnect_idempotent_witness :
  let request := exampleRequest [("name", "echo")] in
  let disconnect :=
    call exampleAbs exampleFields asciiToLower EnvBuilder.listingOrder [] succeeds
      succeeds exampleTools (callFails "boom") server_disconnect request in
  RequireString request "name" = Some "echo" /\
  exists w1 r1 w2 r2,
    disconnect (exampleWrapper false) = Returned w1 r1 /\
    disconnect w1 = Returned w2 r2 /\
    dynamicServers w1 !! "echo" =
      Some (DynamicServerInfo.mk "echo" None ["echo_greet"]
              (addedConfig "echo" "/usr/bin/echo-mcp" []) false
              "Server disconnected by user") /\
    events w1 = [EvClose exampleClient] /\ proxyClients w1 = [] /\
    IsError r1.1 = false /\
    r2.1 = NewToolResultText "Server 'echo' is already disconnected" /\
    sameTables w1 w2.
Proof.
  intros request disconnect.
  assert (H1 : RequireString request "name" = Some "echo") by reflexivity.
  split; [exact H1|].
  pose proof (server_disconnect_idempotent exampleAbs exampleFields asciiToLower
                EnvBuilder.listingOrder [] succeeds succeeds exampleTools
                (callFails "boom") request "echo" (exampleWrapper false) H1) as H.
  cbv zeta in H.
  change (dynamicServers (exampleWrapper false) !! "echo")
    with (Some exampleInfo) in H.
  destruct H as (w1&r1&w2&r2&Hd1&Hd2&_&Herr&Hs&He&Hc&_&_&_&_&Hr2&Hsame).
  { reflexivity. }
  { intros c [= <-]. left. }
  exists w1, r1, w2, r2. split; [exact Hd1|]. split; [exact Hd2|].
  split; [rewrite Hs; apply lookup_insert_eq|]. split; [exact He|].
  split; [exact Hc|]. split; [exact Herr|]. split; [exact Hr2|exact Hsame].
Defined.

(** C1 on a server added to the example wrapper: after the disconnect
    and the reconnect, the call through the bound name [files_greet]
    reaches the new client. *)
Lemma reconnect_redirects_bound_calls_witness :
  let tool :=
    call exampleAbs exampleFields asciiToLower EnvBuilder.listingOrder [] succeeds
      succeeds exampleTools (callFails "boom") in
  let w :=
    (handleServerAdd exampleAbs exampleFields succeeds succeeds exampleTools
       (exampleRequest [("name", "files"); ("command", "/usr/bin/files-mcp")])
       (exampleWrapper false)).1 in
  let request := exampleRequest [("name", "files")] in
  let cOld := MCPClient.mk 1 "files" "/usr/bin/files-mcp" [] in
  let w1 := (handleServerDisconnect exampleAbs request w).1 in
  let w2 :=
    (handleServerReconnect exampleAbs exampleFields EnvBuilder.listingOrder succeeds
       succeeds exampleTools request w1).1 in
  wellFormed w /\
  baseTools w !! "files_greet" = Some (mkHandler "files" "greet") /\
  exists cNew,
    cNew <> cOld /\
    forall req, exists w3 r3,
      tool (upstream (mkHandler "files" "greet")) req w2 = Returned w3 r3 /\
      events w3 = events w2 ++ [EvCallTool cNew "greet" (GetArguments req)].
Proof.
  intros tool w request cOld w1 w2.
  assert (Hwf : wellFormed w)
    by (apply wf_add; exact (exampleWrapper_wellFormed false)).
  assert (Hb : baseTools w !! "files_greet" = Some (mkHandler "files" "greet"))
    by (vm_compute; reflexivity).
  split; [exact Hwf|]. split; [exact Hb|].
  assert (Hinfo : dynamicServers w !! "files" =
                  Some (DynamicServerInfo.mk "files" (Some cOld) ["files_greet"]
                          (addedConfig "files" "/usr/bin/files-mcp" []) true ""))
    by (vm_compute; reflexivity).
  destruct (reconnect_redirects_bound_calls exampleAbs exampleFields asciiToLower
              EnvBuilder.listingOrder [] succeeds succeeds exampleTools
              (callFails "boom") "files" request request w _ cOld Hwf eq_refl eq_refl
              eq_refl Hinfo eq_refl eq_refl) as [_ (w1'&r1'&Hd&Hrec)].
  assert (Hd' : tool server_disconnect request w =
                Returned w1 (handleServerDisconnect exampleAbs request w).2)
    by (vm_compute; reflexivity).
  pose proof (eq_trans (eq_sym Hd) Hd') as Heq. injection Heq as -> ->.
  assert (Herr : IsError (handleServerReconnect exampleAbs exampleFields
                            EnvBuilder.listingOrder succeeds succeeds exampleTools
                            request w1).2.1 = false) by (vm_compute; reflexivity).
  destruct (Hrec w2 _ eq_refl Herr) as (cNew&Hne&_&_&_&Hbound&_).
  exists cNew. split; [exact Hne|]. intros req.
  exact (proj2 (Hbound "files_greet" (mkHandler "files" "greet") req Hb eq_refl)).
Defined.

Lemma emptyWrapper_wellFormed : wellFormed emptyWrapper.
Proof.
  split; [|split].
  - intros name info H. simpl in H. by rewrite lookup_empty in H.
  - simpl. constructor.
  - intros c Hc. simpl in Hc. by apply elem_of_nil in Hc.
Qed.

(** C1, counterexample.  [server_add] of [a], whose tool [b_c] is bound
    under the name [a_b_c], then [server_add] of [a_b], whose tool [c]
    has the same prefixed name: the second binding replaces the first.
    After [server_disconnect] and a successful [server_reconnect] of
    [a], the name [a_b_c], which was bound to [a] and is still in the
    tool list of [a], does not reach the client that the reconnect
    created: the call through it goes to the client of [a_b]. *)
Lemma rebound_name_reaches_other_upstream :
  let add name :=
    handleServerAdd exampleAbs exampleFields succeeds succeeds collidingTools
      (exampleRequest [("name", name); ("command", "/bin/" +:+ name)]) in
  let wA := (add "a" emptyWrapper).1 in
  let wB := (add "a_b" wA).1 in
  let request := exampleRequest [("name", "a")] in
  let wD := (handleServerDisconnect exampleAbs request wB).1 in
  let out :=
    handleServerReconnect exampleAbs exampleFields EnvBuilder.listingOrder succeeds
      succeeds collidingTools request wD in
  let wR := out.1 in
  let cNew := MCPClient.mk 2 "a" "/bin/a" [] in
  let cOther := MCPClient.mk 1 "a_b" "/bin/a_b" [] in
  baseTools wA !! "a_b_c" = Some (mkHandler "a" "b_c") /\
  wellFormed wB /\
  IsError out.2.1 = false /\
  currentClient "a" wR = Some cNew /\
  (exists info, dynamicServers wR !! "a" = Some info /\
                "a_b_c" ∈ DynamicServerInfo.Tools info) /\
  baseTools wR !! "a_b_c" = Some (mkHandler "a_b" "c") /\
  cOther <> cNew /\
  forall req,
    events (runProxyHandler exampleAbs asciiToLower (callFails "boom")
              (mkHandler "a_b" "c") req wR).1 =
    events wR ++ [EvCallTool cOther "c" (GetArguments req)].
Proof.
  intros add wA wB request wD out wR cNew cOther.
  split; [vm_compute; reflexivity|]. split.
  { apply wf_add, wf_add. exact emptyWrapper_wellFormed. }
  split; [vm_compute; reflexivity|]. split; [vm_compute; reflexivity|]. split.
  { eexists. split; [vm_compute; reflexivity|]. left. }
  split; [vm_compute; reflexivity|]. split; [discriminate|].
  intros req. unfold runProxyHandler. rewrite proxyHandler_events.
  assert (Hcur : currentClient "a_b" wR = Some cOther) by (vm_compute; reflexivity).
  simpl serverName. simpl originalToolName. by rewrite Hcur.
Qed.

End LifecycleFacts.
